(** * boyle: the MetaImage (.mhd/.raw) codec and the MedicalImage wrapper

    A shallow embedding of [boyle/mhd.py] and [boyle/medimage.py], followed by
    the properties of the two modules.

    Conventions of the embedding.
    - Python text is a [string]: a sequence of characters with code below 256.
      File contents are strings as well, one character per byte.
    - A Python [dict] is an association list in insertion order; assigning to a
      key that is present keeps its position and replaces its value.
    - A Python [int] is a [Z].
    - A call that may raise returns a [result]; code that mutates objects is
      written in a state-and-exception monad over the objects it touches. *)

From Stdlib Require Import List String Ascii ZArith NArith Lia Bool Permutation.
From Stdlib Require Import Decimal DecimalString DecimalZ.
From Stdlib Require Import SpecFloat.
Import ListNotations.

Local Open Scope string_scope.
Local Open Scope list_scope.
Local Open Scope Z_scope.

(** ** Exceptions and results *)

Inductive exn : Type :=
| IOError
| KeyError
| ValueError
| IndexError
| TypeError
| AssertionError
| EOFError
| AttributeError
| RecursionError
| NameError
| OverflowError
| MemoryError
| ExternalError (code : nat).

Inductive result (A : Type) : Type :=
| Ok (a : A)
| Raise (e : exn).

Arguments Ok {A} a.
Arguments Raise {A} e.

Definition rbind {A B : Type} (r : result A) (f : A -> result B) : result B :=
  match r with
  | Ok a => f a
  | Raise e => Raise e
  end.

Notation "'let?' x ':=' r 'in' k" := (rbind r (fun x => k))
  (at level 10, x pattern, r at level 100, k at level 200).

Fixpoint rmap {A B : Type} (f : A -> result B) (l : list A) : result (list B) :=
  match l with
  | [] => Ok []
  | a :: l' =>
      let? b := f a in
      let? bs := rmap f l' in
      Ok (b :: bs)
  end.

(** ** Python strings *)

Module PyStr.

Definition newline : ascii := ascii_of_nat 10.
Definition carriage_return : ascii := ascii_of_nat 13.

(** [str.isspace] on one character (codes below 256). *)
Definition is_space (c : ascii) : bool :=
  let n := nat_of_ascii c in
  ((9 <=? n) && (n <=? 13) || (28 <=? n) && (n <=? 32)
   || (n =? 133) || (n =? 160))%nat.

Definition is_empty (s : string) : bool :=
  match s with EmptyString => true | String _ _ => false end.

Fixpoint contains (c : ascii) (s : string) : bool :=
  match s with
  | EmptyString => false
  | String a s' => Ascii.eqb a c || contains c s'
  end.

Fixpoint lstrip (s : string) : string :=
  match s with
  | EmptyString => EmptyString
  | String c s' => if is_space c then lstrip s' else s
  end.

Fixpoint rstrip (s : string) : string :=
  match s with
  | EmptyString => EmptyString
  | String c s' =>
      let r := rstrip s' in
      if is_space c && is_empty r then EmptyString else String c r
  end.

(** [str.strip(s)] *)
Definition strip (s : string) : string := rstrip (lstrip s).

(** [str.split(s, sep)] for a one-character separator: every occurrence of
    the separator cuts. *)
Fixpoint split (sep : ascii) (s : string) : list string :=
  match s with
  | EmptyString => [EmptyString]
  | String c s' =>
      if Ascii.eqb c sep then EmptyString :: split sep s'
      else match split sep s' with
           | w :: ws => String c w :: ws
           | [] => [String c EmptyString]
           end
  end.

(** [s.split()]: the maximal runs of non-blank characters. *)
Fixpoint split_blank (s : string) : list string :=
  match s with
  | EmptyString => []
  | String c s' =>
      if is_space c then split_blank s'
      else match s' with
           | EmptyString => [String c EmptyString]
           | String c' _ =>
               if is_space c' then String c EmptyString :: split_blank s'
               else match split_blank s' with
                    | w :: ws => String c w :: ws
                    | [] => [String c EmptyString]
                    end
           end
  end.

(** [sep.join(l)] *)
Fixpoint join (sep : string) (l : list string) : string :=
  match l with
  | [] => EmptyString
  | [w] => w
  | w :: l' => (w ++ sep ++ join sep l')%string
  end.

(** The successive results of [readline] on a text stream: each line keeps
    its newline; the last one may lack it. *)
Fixpoint readlines (s : string) : list string :=
  match s with
  | EmptyString => []
  | String c s' =>
      if Ascii.eqb c newline then String c EmptyString :: readlines s'
      else match readlines s' with
           | l :: ls => String c l :: ls
           | [] => [String c EmptyString]
           end
  end.

(** Reading in text mode: a carriage return, alone or before a newline,
    is read as a newline. *)
Fixpoint universal_newlines (s : string) : string :=
  match s with
  | EmptyString => EmptyString
  | String c s' =>
      if Ascii.eqb c carriage_return then
        match s' with
        | String c' s'' =>
            if Ascii.eqb c' newline then String newline (universal_newlines s'')
            else String newline (universal_newlines s')
        | EmptyString => String newline EmptyString
        end
      else String c (universal_newlines s')
  end.

(** [s[-n:]] *)
Definition last_chars (n : nat) (s : string) : string :=
  substring (String.length s - n) n s.

(** [str(i)] for an integer. *)
Definition str_of_int (z : Z) : string := NilZero.string_of_int (Z.to_int z).

Definition is_digit (c : ascii) : bool :=
  let n := nat_of_ascii c in ((48 <=? n) && (n <=? 57))%nat.

(** Digit groups may be separated by single underscores. *)
Fixpoint digits_of (after_digit : bool) (s : string) : option string :=
  match s with
  | EmptyString => if after_digit then Some EmptyString else None
  | String c s' =>
      if is_digit c then option_map (String c) (digits_of true s')
      else if Ascii.eqb c "_" && after_digit then digits_of false s'
      else None
  end.

Definition nat_literal (s : string) : result Z :=
  match digits_of false s with
  | Some ds =>
      match NilEmpty.uint_of_string ds with
      | Some d => Ok (Z.of_uint d)
      | None => Raise ValueError
      end
  | None => Raise ValueError
  end.

(** [int(s)]: blanks around, an optional sign, decimal digits. *)
Definition int_of_str (s : string) : result Z :=
  match strip s with
  | String c s' =>
      if Ascii.eqb c "-" then let? n := nat_literal s' in Ok (- n)
      else if Ascii.eqb c "+" then nat_literal s'
      else nat_literal (String c s')
  | EmptyString => Raise ValueError
  end.

End PyStr.

(** ** Python dictionaries *)

Section Dict.
Context {K V : Type} (eqb : K -> K -> bool).

Definition dict : Type := list (K * V).

Fixpoint dict_get (d : dict) (k : K) : option V :=
  match d with
  | [] => None
  | (k', v) :: d' => if eqb k' k then Some v else dict_get d' k
  end.

(** [k in d] *)
Definition dict_mem (d : dict) (k : K) : bool :=
  match dict_get d k with Some _ => true | None => false end.

(** [d[k]] *)
Definition dict_item (d : dict) (k : K) : result V :=
  match dict_get d k with Some v => Ok v | None => Raise KeyError end.

(** [d[k] = v] *)
Fixpoint dict_set (d : dict) (k : K) (v : V) : dict :=
  match d with
  | [] => [(k, v)]
  | (k', v') :: d' =>
      if eqb k' k then (k', v) :: d' else (k', v') :: dict_set d' k v
  end.

(** A dictionary display [{k1: v1, k2: v2, ...}]: the pairs are stored from
    left to right, a repeated key overwriting the earlier value. *)
Definition dict_display (kvs : list (K * V)) : dict :=
  fold_left (fun d kv => dict_set d (fst kv) (snd kv)) kvs [].

Definition dict_keys (d : dict) : list K := map fst d.
End Dict.

Arguments dict : clear implicits.

(** * The MetaImage codec ([boyle/mhd.py]) *)

(** ** Files *)

(** The file system maps a path to the bytes stored under it. *)
Definition filesystem : Type := dict string string.

Definition fs_read (fs : filesystem) (path : string) : result string :=
  match dict_get String.eqb fs path with
  | Some contents => Ok contents
  | None => Raise IOError
  end.

Definition fs_write (fs : filesystem) (path contents : string) : filesystem :=
  dict_set String.eqb fs path contents.

(** ** The tag schema *)

(** the order of these tags matter *)
Definition MHD_TAGS : list string :=
  [ "ObjectType";
    "NDims";
    "BinaryData";
    "BinaryDataByteOrderMSB";
    "CompressedData";
    "CompressedDataSize";
    "TransformMatrix";
    "Offset";
    "CenterOfRotation";
    "AnatomicalOrientation";
    "ElementSpacing";
    "DimSize";
    "ElementType";
    "ElementDataFile";
    "Comment";
    "SeriesDescription";
    "AcquisitionDate";
    "AcquisitionTime";
    "StudyDate";
    "StudyTime" ].

(** ** Element types *)

(** The numeric types that occur as keys or values of the tables.
    [np_float] is [np.float], the built-in [float]: as a key it is distinct
    from [np.float64]. *)
Inductive nptype : Type :=
| np_float
| np_uint8
| np_int8
| np_uint16
| np_int16
| np_uint32
| np_int32
| np_uint64
| np_int64
| np_float32
| np_float64.

Definition nptype_eqb (a b : nptype) : bool :=
  match a, b with
  | np_float, np_float | np_uint8, np_uint8 | np_int8, np_int8
  | np_uint16, np_uint16 | np_int16, np_int16 | np_uint32, np_uint32
  | np_int32, np_int32 | np_uint64, np_uint64 | np_int64, np_int64
  | np_float32, np_float32 | np_float64, np_float64 => true
  | _, _ => false
  end.

(** Type codes of [array.array]. *)
Inductive typecode : Type := tc_f | tc_H | tc_h | tc_I | tc_i | tc_d.

Definition MHD_TO_NUMPY_TYPE : dict string nptype :=
  dict_display String.eqb
    [ ("MET_FLOAT", np_float);
      ("MET_UCHAR", np_uint8);
      ("MET_CHAR", np_int8);
      ("MET_USHORT", np_uint8);
      ("MET_SHORT", np_int8);
      ("MET_UINT", np_uint32);
      ("MET_INT", np_int32);
      ("MET_ULONG", np_uint64);
      ("MET_ULONG", np_int64);
      ("MET_FLOAT", np_float32);
      ("MET_DOUBLE", np_float64) ].

Definition NDARRAY_TO_ARRAY_TYPE : dict nptype typecode :=
  dict_display nptype_eqb
    [ (np_float, tc_f);
      (np_uint8, tc_H);
      (np_int8, tc_h);
      (np_uint16, tc_I);
      (np_int16, tc_i);
      (np_uint32, tc_I);
      (np_int32, tc_i);
      (np_uint64, tc_I);
      (np_int64, tc_i);
      (np_float32, tc_f);
      (np_float64, tc_d) ].

(** [{v: k for k, v in MHD_TO_NUMPY_TYPE.items()}] *)
Definition NUMPY_TO_MHD_TYPE : dict nptype string :=
  fold_left (fun d kv => dict_set nptype_eqb d (snd kv) (fst kv))
            MHD_TO_NUMPY_TYPE [].

(** The two directions of the table, as the codec uses them. *)
Definition to_element_type (tag : string) : result nptype :=
  dict_item String.eqb MHD_TO_NUMPY_TYPE tag.

Definition to_tag (t : nptype) : result string :=
  dict_item nptype_eqb NUMPY_TO_MHD_TYPE t.

(** What a type table is indexed with.  The tables are written with the
    scalar classes of numpy ([np.float32]); the [dtype] attribute of an array
    is an instance of [numpy.dtype].  An instance compares equal to its class,
    but the two hash differently and a [dict] finds a key by its hash: a table
    keyed by classes has no entry for an instance. *)
Inductive type_key : Type :=
| scalar_class (t : nptype)
| dtype_instance (t : nptype).

(** [table[key]] for a table keyed by scalar classes *)
Definition type_item {V : Type} (table : dict nptype V) (key : type_key)
    : result V :=
  match key with
  | scalar_class t => dict_item nptype_eqb table t
  | dtype_instance _ => Raise KeyError
  end.

(** ** The header *)

Definition meta_header : Type := dict string string.

Fixpoint set_flag (i : nat) (flags : list bool) : list bool :=
  match flags, i with
  | [], _ => []
  | _ :: fl, O => true :: fl
  | b :: fl, S i' => b :: set_flag i' fl
  end.

(** The body of [for i in range(len(MHD_TAGS))], run over the tags from
    position [i] on; [tags] is the split line. *)
Fixpoint scan_tags (rest : list string) (i : nat) (tags : list string)
    (st : meta_header * list bool) : result (meta_header * list bool) :=
  match rest with
  | [] => Ok st
  | tag :: rest' =>
      let '(meta_dict, tag_flag) := st in
      let? st' :=
        if String.eqb (PyStr.strip (nth 0 tags "")) tag
           && negb (nth i tag_flag false)
        then
          match nth_error tags 1 with
          | Some v =>
              Ok (dict_set String.eqb meta_dict tag (PyStr.strip v),
                  set_flag i tag_flag)
          | None => Raise IndexError
          end
        else Ok st
      in
      scan_tags rest' (S i) tags st'
  end.

(** The body of [while line]. *)
Fixpoint scan_lines (lines : list string) (st : meta_header * list bool)
    : result (meta_header * list bool) :=
  match lines with
  | [] => Ok st
  | line :: lines' =>
      let tags := PyStr.split "=" line in
      let? st' := scan_tags MHD_TAGS 0 tags st in
      scan_lines lines' st'
  end.

(** Return a dictionary of meta data from meta header file *)
Definition read_meta_header (fs : filesystem) (filename : string)
    : result meta_header :=
  let? contents := fs_read fs filename in
  let fileIN := PyStr.readlines (PyStr.universal_newlines contents) in
  let? st := scan_lines fileIN ([], repeat false (List.length MHD_TAGS)) in
  Ok (fst st).

(** ['{} = {}\n'.format(tag, value)] *)
Definition format_entry (tag value : string) : string :=
  (tag ++ " = " ++ value ++ String PyStr.newline "")%string.

Definition header_text (meta_dict : meta_header) : string :=
  fold_left
    (fun header tag =>
       match dict_get String.eqb meta_dict tag with
       | Some value => (header ++ format_entry tag value)%string
       | None => header
       end)
    MHD_TAGS "".

Definition write_meta_header (fs : filesystem) (filename : string)
    (meta_dict : meta_header) : filesystem :=
  fs_write fs filename (header_text meta_dict).

(** ** Numbers as the C level stores them *)

(** An array element is kept as an integer: the value itself for an integer
    type, the IEEE 754 bit pattern for a floating type. *)
Module CNum.

Inductive numkind : Type :=
| KInt (signed : bool) (bits : Z)
| KFloat32
| KFloat64.

Definition wrap (signed : bool) (bits : Z) (v : Z) : Z :=
  let u := v mod 2 ^ bits in
  if signed && (2 ^ (bits - 1) <=? u) then u - 2 ^ bits else u.

(** A binary format with [mbits] fraction bits and [ebits] exponent bits. *)
Section Format.
Variables mbits ebits : Z.

Definition bias : Z := 2 ^ (ebits - 1) - 1.
Definition sign_bit (s : bool) : Z := if s then 2 ^ (mbits + ebits) else 0.
Definition exponent_field (b : Z) : Z := (b / 2 ^ mbits) mod 2 ^ ebits.
Definition fraction_field (b : Z) : Z := b mod 2 ^ mbits.

Definition is_nan (b : Z) : bool :=
  (exponent_field b =? 2 ^ ebits - 1) && negb (fraction_field b =? 0).

Definition is_signalling (b : Z) : bool :=
  is_nan b && negb (Z.testbit b (mbits - 1)).

Definition decode (b : Z) : spec_float :=
  let s := Z.testbit b (mbits + ebits) in
  let e := exponent_field b in
  let m := fraction_field b in
  if e =? 2 ^ ebits - 1 then
    if m =? 0 then S754_infinity s else S754_nan
  else if e =? 0 then
    match m with
    | Zpos p => S754_finite s p (1 - bias - mbits)
    | _ => S754_zero s
    end
  else S754_finite s (Z.to_pos (m + 2 ^ mbits)) (e - bias - mbits).

Definition encode (f : spec_float) : Z :=
  match f with
  | S754_zero s => sign_bit s
  | S754_infinity s => sign_bit s + (2 ^ ebits - 1) * 2 ^ mbits
  | S754_nan => (2 ^ ebits - 1) * 2 ^ mbits + 2 ^ (mbits - 1)
  | S754_finite s m e =>
      if Zpos m <? 2 ^ mbits then sign_bit s + Zpos m
      else sign_bit s + (e + bias + mbits) * 2 ^ mbits + (Zpos m - 2 ^ mbits)
  end.

(** Rounding to nearest, ties to even. *)
Definition round (f : spec_float) : spec_float :=
  match f with
  | S754_finite s m e =>
      binary_normalize (mbits + 1) (2 ^ (ebits - 1)) (cond_Zopp s (Zpos m)) e s
  | _ => f
  end.

Definition of_int (z : Z) : Z :=
  encode (binary_normalize (mbits + 1) (2 ^ (ebits - 1)) z 0 false).
End Format.

(** [(float)x] for a double [x]. *)
Definition narrow (b : Z) : Z :=
  if is_nan 52 11 b then
    sign_bit 23 8 (Z.testbit b 63) + 255 * 2 ^ 23 + 2 ^ 22
    + (fraction_field 52 b / 2 ^ 29) mod 2 ^ 22
  else encode 23 8 (round 23 8 (decode 52 11 b)).

(** [(double)x] for a float [x]. *)
Definition widen (b : Z) : Z :=
  if is_nan 23 8 b then
    sign_bit 52 11 (Z.testbit b 31) + 2047 * 2 ^ 52 + 2 ^ 51
    + (fraction_field 23 b mod 2 ^ 22) * 2 ^ 29
  else encode 52 11 (round 52 11 (decode 23 8 b)).

(** A float that goes through a double comes back unchanged, except that a
    signalling NaN comes back quiet. *)
Definition through_double (b : Z) : Z :=
  if is_signalling 23 8 b then b + 2 ^ 22 else b.

(** The integer part of a float, for a cast to an integer type. *)
Definition truncate (f : spec_float) : option Z :=
  match f with
  | S754_zero _ => Some 0
  | S754_finite s m e =>
      Some (cond_Zopp s (if 0 <=? e then Zpos m * 2 ^ e else Zpos m / 2 ^ (- e)))
  | _ => None
  end.

Definition int_of_float (signed : bool) (bits : Z) (f : spec_float) : Z :=
  match truncate f with
  | Some z => wrap signed bits z
  | None => wrap signed bits (- 2 ^ (bits - 1))
  end.

(** The C conversion of a value of kind [src] to kind [dst]. *)
Definition convert (src dst : numkind) (v : Z) : Z :=
  match src, dst with
  | KInt _ _, KInt s w => wrap s w v
  | KInt _ _, KFloat32 => of_int 23 8 v
  | KInt _ _, KFloat64 => of_int 52 11 v
  | KFloat32, KFloat32 => v
  | KFloat64, KFloat64 => v
  | KFloat32, KFloat64 => widen v
  | KFloat64, KFloat32 => narrow v
  | KFloat32, KInt s w => int_of_float s w (decode 23 8 v)
  | KFloat64, KInt s w => int_of_float s w (decode 52 11 v)
  end.

(** [float(x)] followed by the store into a C [float]: what
    [array.array('f')] keeps of a scalar of kind [src]. *)
Definition to_c_float (src : numkind) (v : Z) : Z :=
  match src with
  | KInt _ _ => narrow (of_int 52 11 v)
  | KFloat32 => through_double v
  | KFloat64 => narrow v
  end.

(** Bytes in native (little-endian) order. *)
Fixpoint le_split (n : nat) (v : Z) : list Z :=
  match n with
  | O => []
  | S n' => v mod 256 :: le_split n' (v / 256)
  end.

Fixpoint le_combine (bs : list Z) : Z :=
  match bs with
  | [] => 0
  | b :: bs' => b + 256 * le_combine bs'
  end.

Definition bytes_of_string (s : string) : list Z :=
  map (fun c => Z.of_N (N_of_ascii c)) (list_ascii_of_string s).

Definition string_of_bytes (bs : list Z) : string :=
  string_of_list_ascii (map (fun b => ascii_of_N (Z.to_N b)) bs).

End CNum.

Definition kind_of_dtype (t : nptype) : CNum.numkind :=
  match t with
  | np_float => CNum.KFloat64
  | np_uint8 => CNum.KInt false 8
  | np_int8 => CNum.KInt true 8
  | np_uint16 => CNum.KInt false 16
  | np_int16 => CNum.KInt true 16
  | np_uint32 => CNum.KInt false 32
  | np_int32 => CNum.KInt true 32
  | np_uint64 => CNum.KInt false 64
  | np_int64 => CNum.KInt true 64
  | np_float32 => CNum.KFloat32
  | np_float64 => CNum.KFloat64
  end.

Definition kind_of_typecode (tc : typecode) : CNum.numkind :=
  match tc with
  | tc_f => CNum.KFloat32
  | tc_H => CNum.KInt false 16
  | tc_h => CNum.KInt true 16
  | tc_I => CNum.KInt false 32
  | tc_i => CNum.KInt true 32
  | tc_d => CNum.KFloat64
  end.

Definition itemsize (tc : typecode) : nat :=
  match tc with
  | tc_f => 4
  | tc_H => 2
  | tc_h => 2
  | tc_I => 4
  | tc_i => 4
  | tc_d => 8
  end%nat.

(** ** [array.array] *)

Definition decode_item (tc : typecode) (bs : list Z) : Z :=
  match kind_of_typecode tc with
  | CNum.KInt s w => CNum.wrap s w (CNum.le_combine bs)
  | _ => CNum.le_combine bs
  end.

Definition encode_item (tc : typecode) (v : Z) : list Z :=
  CNum.le_split (itemsize tc) (v mod 2 ^ (8 * Z.of_nat (itemsize tc))).

Fixpoint unpack_items (tc : typecode) (count : nat) (bs : list Z) : list Z :=
  match count with
  | O => []
  | S count' =>
      decode_item tc (firstn (itemsize tc) bs)
      :: unpack_items tc count' (skipn (itemsize tc) bs)
  end.

(** The largest [Py_ssize_t] of a 64-bit build. *)
Definition PY_SSIZE_T_MAX : Z := 2 ^ 63 - 1.

(** [a.fromfile(f, n)] on a fresh array [a] and a file just opened (Python 3).
    The count is converted to a [Py_ssize_t]; a negative count and a count of
    more items than a [Py_ssize_t] can size in bytes are refused.  Then
    [f.read(n * itemsize)] returns the bytes that are there, at most as many
    as were asked for, and [a.frombytes] takes them: it refuses a number of
    bytes that is not a multiple of the item size, and appends the items
    otherwise.  Only then is a short read reported.  (Running out of memory
    while reading is not modelled.) *)
Definition array_fromfile (tc : typecode) (contents : string) (n : Z)
    : result (list Z) :=
  if (n <? - PY_SSIZE_T_MAX - 1) || (PY_SSIZE_T_MAX <? n) then Raise OverflowError
  else if n <? 0 then Raise ValueError
  else if PY_SSIZE_T_MAX / Z.of_nat (itemsize tc) <? n then Raise MemoryError
  else
    let nbytes := Z.to_nat (n * Z.of_nat (itemsize tc)) in
    let b := firstn nbytes (CNum.bytes_of_string contents) in
    if negb (List.length b mod itemsize tc =? 0)%nat then Raise ValueError
    else
      let items := unpack_items tc (List.length b / itemsize tc) b in
      if negb (List.length b =? nbytes)%nat then Raise EOFError
      else Ok items.

(** [a.tofile(f)] *)
Definition array_tofile (tc : typecode) (items : list Z) : string :=
  CNum.string_of_bytes (flat_map (encode_item tc) items).

(** ** [numpy] arrays *)

Record ndarray : Type := mk_ndarray {
  dtype : nptype;
  shape : list Z;
  flat : list Z        (* the elements in C order *)
}.

Definition ndim (a : ndarray) : nat := List.length (shape a).

Definition product (l : list Z) : Z := fold_left Z.mul l 1.

(** [np.array(binvalues, ndtype)] *)
Definition np_array (tc : typecode) (t : nptype) (items : list Z) : ndarray :=
  {| dtype := t;
     shape := [Z.of_nat (List.length items)];
     flat := map (CNum.convert (kind_of_typecode tc) (kind_of_dtype t)) items |}.

(** [np.reshape(a, dims)]; one dimension may be given as [-1]. *)
Definition np_reshape (a : ndarray) (dims : list Z) : result ndarray :=
  let size := Z.of_nat (List.length (flat a)) in
  if existsb (fun d => d <? -1) dims then Raise ValueError
  else
    match count_occ Z.eq_dec dims (-1) with
    | O =>
        if product dims =? size
        then Ok {| dtype := dtype a; shape := dims; flat := flat a |}
        else Raise ValueError
    | S O =>
        let known := product (filter (fun d => negb (d =? -1)) dims) in
        if known =? 0 then Raise ValueError
        else if size mod known =? 0
        then Ok {| dtype := dtype a;
                   shape := map (fun d => if d =? -1 then size / known else d) dims;
                   flat := flat a |}
        else Raise ValueError
    | _ => Raise ValueError
    end.

(** ** Lists indexed by Python integers *)

(** [l[0:stop]] *)
Definition py_slice_to {A : Type} (l : list A) (stop : Z) : list A :=
  let n := Z.of_nat (List.length l) in
  let stop' := if stop <? 0 then Z.max 0 (n + stop) else Z.min stop n in
  firstn (Z.to_nat stop') l.

(** [l[i]] *)
Definition py_index {A : Type} (l : list A) (i : Z) : result A :=
  let n := Z.of_nat (List.length l) in
  let i' := if i <? 0 then n + i else i in
  if (0 <=? i') && (i' <? n) then
    match nth_error l (Z.to_nat i') with
    | Some a => Ok a
    | None => Raise IndexError
    end
  else Raise IndexError.

(** ** Paths ([os.path] on POSIX) *)

Module OsPath.

(** [(p[:i], p[i:])] for [i = p.rfind('/') + 1] *)
Fixpoint cut (p : string) : string * string :=
  match p with
  | EmptyString => (EmptyString, EmptyString)
  | String c p' =>
      let (h, t) := cut p' in
      if PyStr.is_empty h then
        if Ascii.eqb c "/" then (String c EmptyString, t)
        else (EmptyString, String c t)
      else (String c h, t)
  end.

Fixpoint all_slashes (s : string) : bool :=
  match s with
  | EmptyString => true
  | String c s' => Ascii.eqb c "/" && all_slashes s'
  end.

(** [s.rstrip('/')] *)
Fixpoint rstrip_slashes (s : string) : string :=
  match s with
  | EmptyString => EmptyString
  | String c s' =>
      let r := rstrip_slashes s' in
      if Ascii.eqb c "/" && PyStr.is_empty r then EmptyString else String c r
  end.

Definition split (p : string) : string * string :=
  let (head, tail) := cut p in
  if negb (PyStr.is_empty head) && negb (all_slashes head)
  then (rstrip_slashes head, tail)
  else (head, tail).

Definition dirname (p : string) : string := fst (split p).

Definition ends_with_slash (s : string) : bool :=
  String.eqb (PyStr.last_chars 1 s) "/".

Definition join (a b : string) : string :=
  match b with
  | String "/" _ => b
  | _ =>
      if PyStr.is_empty a || ends_with_slash a then (a ++ b)%string
      else (a ++ "/" ++ b)%string
  end.

End OsPath.

(** [s.replace('.mhd', '.raw')] *)
Fixpoint replace_mhd_raw (s : string) : string :=
  match s with
  | EmptyString => EmptyString
  | String c1 t =>
      match t with
      | String c2 (String c3 (String c4 s')) =>
          if Ascii.eqb c1 "." && Ascii.eqb c2 "m"
             && Ascii.eqb c3 "h" && Ascii.eqb c4 "d"
          then (".raw" ++ replace_mhd_raw s')%string
          else String c1 (replace_mhd_raw t)
      | _ => String c1 (replace_mhd_raw t)
      end
  end.

(** ** Loading *)

Definition load_raw_data_with_mhd (fs : filesystem) (filename : string)
    : result (ndarray * meta_header) :=
  let? meta_dict := read_meta_header fs filename in
  let? ndims := dict_item String.eqb meta_dict "NDims" in
  let? dim := PyStr.int_of_str ndims in
  let? element_type := dict_item String.eqb meta_dict "ElementType" in
  if negb (dict_mem String.eqb MHD_TO_NUMPY_TYPE element_type)
  then Raise AssertionError
  else
    let? dim_size := dict_item String.eqb meta_dict "DimSize" in
    let? arr := rmap PyStr.int_of_str (PyStr.split_blank dim_size) in
    let volume := fold_left Z.mul (py_slice_to arr (dim - 1)) 1 in
    let pwd := OsPath.dirname filename in
    let? raw_file := dict_item String.eqb meta_dict "ElementDataFile" in
    let data_file := OsPath.join pwd raw_file in
    let? ndtype := dict_item String.eqb MHD_TO_NUMPY_TYPE element_type in
    let? arrtype := dict_item nptype_eqb NDARRAY_TO_ARRAY_TYPE ndtype in
    let? fid := fs_read fs data_file in
    let? last := py_index arr (dim - 1) in
    let? binvalues := array_fromfile arrtype fid (volume * last) in
    let data := np_array arrtype ndtype binvalues in
    let? data := np_reshape data [last; volume] in
    let? data :=
      if dim =? 3 then
        (* Begin 3D fix *)
        let? dimensions := rmap PyStr.int_of_str (PyStr.split_blank dim_size) in
        np_reshape data (List.rev dimensions)
        (* End 3D fix *)
      else Ok data
    in
    Ok (data, meta_dict).

(** ** Saving *)

(** The items collected by [for o in data: a.fromlist(list(o))] into an
    [array.array('f')].  A row of a 2-D array lists its scalars; a scalar is
    not iterable; a sub-array converts to a float only when it has exactly one
    element. *)
Definition rows_to_floats (data : ndarray) : result (list Z) :=
  let items := map (CNum.to_c_float (kind_of_dtype (dtype data))) (flat data) in
  match shape data with
  | [] => Raise TypeError
  | [_] => match flat data with [] => Ok [] | _ :: _ => Raise TypeError end
  | [_; _] => Ok items
  | d0 :: d1 :: rest =>
      if (d0 =? 0) || (d1 =? 0) then Ok []
      else if product rest =? 1 then Ok items
      else Raise TypeError
  end.

(** Write the data into a raw format file. Big endian is always used. *)
Definition dump_raw_data (fs : filesystem) (filename : string) (data : ndarray)
    : filesystem * result unit :=
  let reshaped :=
    match shape data with
    | [s0; s1; s2] =>
        (* Begin 3D fix *)
        np_reshape data [s0; s1 * s2]
        (* End 3D fix *)
    | _ => Ok data
    end in
  match reshaped with
  | Raise e => (fs, Raise e)
  | Ok data =>
      let rawfile := fs_write fs filename "" in
      match rows_to_floats data with
      | Raise e => (rawfile, Raise e)
      | Ok a => (fs_write fs filename (array_tofile tc_f a), Ok tt)
      end
  end.

Definition write_mhd_file (fs : filesystem) (mhdfile : string) (data : ndarray)
    (shape : list Z) : filesystem * result unit :=
  if negb (String.eqb (PyStr.last_chars 4 mhdfile) ".mhd")
  then (fs, Raise AssertionError)
  else
    let meta_dict : meta_header := [] in
    let meta_dict := dict_set String.eqb meta_dict "ObjectType" "Image" in
    let meta_dict := dict_set String.eqb meta_dict "BinaryData" "True" in
    let meta_dict := dict_set String.eqb meta_dict "BinaryDataByteOrderMSB" "False" in
    (* [NUMPY_TO_MHD_TYPE[data.dtype]] *)
    match type_item NUMPY_TO_MHD_TYPE (dtype_instance (dtype data)) with
    | Raise e => (fs, Raise e)
    | Ok tag =>
        let meta_dict := dict_set String.eqb meta_dict "ElementType" tag in
        let meta_dict :=
          dict_set String.eqb meta_dict "NDims"
                   (PyStr.str_of_int (Z.of_nat (List.length shape))) in
        let meta_dict :=
          dict_set String.eqb meta_dict "DimSize"
                   (PyStr.join " " (map PyStr.str_of_int shape)) in
        let raw_name := replace_mhd_raw (snd (OsPath.split mhdfile)) in
        let meta_dict := dict_set String.eqb meta_dict "ElementDataFile" raw_name in
        let fs := write_meta_header fs mhdfile meta_dict in
        let pwd := fst (OsPath.split mhdfile) in
        let data_file :=
          if negb (PyStr.is_empty pwd) then OsPath.join pwd raw_name
          else raw_name in
        dump_raw_data fs data_file data
    end.

(** * The image wrapper ([boyle/medimage.py]) *)

(** ** Collaborators

    Modelled from the spec: the functions that [medimage.py] imports from
    [boyle.smooth] and [boyle.mask] are not part of the module.  The spec
    treats the smoothing kernel as a function of the data, the affine and the
    width whose failure propagates, the masking of a 4-D array as an operation
    that may fail, and the helpers that rebuild a volume from masked values
    as pure functions of their two arguments. *)
Class Collaborators : Type := {
  affine : Type;
  (** [_smooth_data_array(data, affine, fwhm, copy=False)] on the contents of
      [data]; [smooth_in_place] tells whether the result is written over the
      argument (what [copy=False] allows) or returned in a new array. *)
  smooth_data_array : ndarray -> affine -> Z -> result ndarray;
  smooth_in_place : ndarray -> bool;
  (** [_apply_mask_to_4d_data(data, mask)]: the masked matrix and the indices *)
  apply_mask_to_4d_data : ndarray -> ndarray -> result (ndarray * list nat);
  (** [vector_to_volume(arr, mask_data)], [matrix_to_4dvolume(arr, mask_data)] *)
  vector_to_volume : ndarray -> ndarray -> ndarray;
  matrix_to_4dvolume : ndarray -> ndarray -> ndarray
}.

Section MedicalImage.
Context {ext : Collaborators}.

(** ** Objects *)

(** Arrays are objects: an array is named by its address in the heap, and
    two names alias when they are the same address. *)
Definition loc : Type := nat.
Definition heap : Type := list ndarray.

Definition no_array : ndarray := {| dtype := np_float64; shape := [0]; flat := [] |}.

(** An image of the container library: the stored array, decoded on demand,
    and the address of the decoded data while it is resident. *)
Record image : Type := mk_image {
  dataobj : ndarray;
  data_cache : option loc;
  img_affine : affine
}.

Inductive caching : Type := fill | unchanged.

Definition caching_eqb (a b : caching) : bool :=
  match a, b with
  | fill, fill | unchanged, unchanged => true
  | _, _ => false
  end.

Record MedicalImage : Type := mk_MedicalImage {
  img : option image;
  _caching : caching;
  mask : option image;
  _smooth_fwhm : Z;
  _is_data_masked : bool;
  _is_data_smooth : bool
}.

Record world : Type := mk_world {
  objects : heap;
  self : MedicalImage
}.

(** ** Statements: state and exceptions *)

Definition M (A : Type) : Type := world -> result A * world.

Definition ret {A : Type} (a : A) : M A := fun w => (Ok a, w).

Definition raise {A : Type} (e : exn) : M A := fun w => (Raise e, w).

Definition bind {A B : Type} (m : M A) (k : A -> M B) : M B :=
  fun w =>
    match m w with
    | (Ok a, w') => k a w'
    | (Raise e, w') => (Raise e, w')
    end.

(** [try: m  except: handler  else: continue] *)
Definition try_except_else {A B : Type} (m : M A) (handler : exn -> M B)
    (continue : A -> M B) : M B :=
  fun w =>
    match m w with
    | (Ok a, w') => continue a w'
    | (Raise e, w') => handler e w'
    end.

Definition get_self : M MedicalImage := fun w => (Ok (self w), w).

Definition set_self (s : MedicalImage) : M unit :=
  fun w => (Ok tt, {| objects := objects w; self := s |}).

(** A new array object. *)
Definition new_array (a : ndarray) : M loc :=
  fun w => (Ok (List.length (objects w)),
            {| objects := objects w ++ [a]; self := self w |}).

Definition array_at (l : loc) : M ndarray :=
  fun w => (Ok (nth l (objects w) no_array), w).

Fixpoint list_update {A : Type} (l : list A) (i : nat) (a : A) : list A :=
  match l, i with
  | [], _ => []
  | _ :: l', O => a :: l'
  | b :: l', S i' => b :: list_update l' i' a
  end.

(** Overwrite the contents of an array object. *)
Definition overwrite (l : loc) (a : ndarray) : M unit :=
  fun w => (Ok tt, {| objects := list_update (objects w) l a; self := self w |}).

Notation "x <- m ;; k" := (bind m (fun x => k))
  (at level 61, m at next level, right associativity).
Notation "m ;;; k" := (bind m (fun _ => k))
  (at level 61, right associativity).

(** ** The container image *)

(** [self.img], [self.mask]: an attribute of [None] cannot be reached. *)
Definition the_img : M image :=
  s <- get_self ;;
  match img s with Some i => ret i | None => raise AttributeError end.

Definition the_mask : M image :=
  s <- get_self ;;
  match mask s with Some m => ret m | None => raise AttributeError end.

Definition set_img (i : option image) : M unit :=
  s <- get_self ;;
  set_self {| img := i; _caching := _caching s; mask := mask s;
              _smooth_fwhm := _smooth_fwhm s;
              _is_data_masked := _is_data_masked s;
              _is_data_smooth := _is_data_smooth s |}.

Definition set_mask_attr (m : option image) : M unit :=
  s <- get_self ;;
  set_self {| img := img s; _caching := _caching s; mask := m;
              _smooth_fwhm := _smooth_fwhm s;
              _is_data_masked := _is_data_masked s;
              _is_data_smooth := _is_data_smooth s |}.

Definition set_smooth_fwhm_attr (fwhm : Z) : M unit :=
  s <- get_self ;;
  set_self {| img := img s; _caching := _caching s; mask := mask s;
              _smooth_fwhm := fwhm;
              _is_data_masked := _is_data_masked s;
              _is_data_smooth := _is_data_smooth s |}.

Definition set_is_data_masked (b : bool) : M unit :=
  s <- get_self ;;
  set_self {| img := img s; _caching := _caching s; mask := mask s;
              _smooth_fwhm := _smooth_fwhm s;
              _is_data_masked := b;
              _is_data_smooth := _is_data_smooth s |}.

Definition set_is_data_smooth (b : bool) : M unit :=
  s <- get_self ;;
  set_self {| img := img s; _caching := _caching s; mask := mask s;
              _smooth_fwhm := _smooth_fwhm s;
              _is_data_masked := _is_data_masked s;
              _is_data_smooth := b |}.

Definition with_cache (i : image) (c : option loc) : image :=
  {| dataobj := dataobj i; data_cache := c; img_affine := img_affine i |}.

(** [i.get_data(caching=c)]: the resident data if any; otherwise the stored
    array is decoded into a new object, kept resident under ['fill'].
    Returns the data and the image as it is afterwards. *)
Definition image_get_data (c : caching) (i : image) : M (loc * image) :=
  match data_cache i with
  | Some l => ret (l, i)
  | None =>
      l <- new_array (dataobj i) ;;
      ret (l, if caching_eqb c fill then with_cache i (Some l) else i)
  end.

(** [i.uncache()] *)
Definition image_uncache (i : image) : image := with_cache i None.

(** [i.in_memory] *)
Definition in_memory (i : image) : bool :=
  match data_cache i with Some _ => true | None => false end.

(** [self.img.get_data(caching=c)] *)
Definition img_get_data (c : caching) : M loc :=
  i <- the_img ;;
  r <- image_get_data c i ;;
  set_img (Some (snd r)) ;;;
  ret (fst r).

(** [self.mask.get_data()] *)
Definition mask_get_data : M loc :=
  m <- the_mask ;;
  r <- image_get_data fill m ;;
  set_mask_attr (Some (snd r)) ;;;
  ret (fst r).

(** ** [MedicalImage] *)

Definition zeroe : M unit :=
  set_smooth_fwhm_attr 0 ;;;
  set_is_data_masked false ;;;
  set_is_data_smooth false.

Definition clear_data : M unit :=
  i <- the_img ;;
  set_img (Some (image_uncache i)) ;;;
  m <- the_mask ;;
  set_mask_attr (Some (image_uncache m)) ;;;
  ret tt.

Definition clear : M unit :=
  clear_data ;;;
  zeroe ;;;
  set_img None ;;;
  set_mask_attr None.

Definition has_data_loaded : M bool :=
  i <- the_img ;;
  ret (in_memory i).

(** [self.shape], [self.ndim]: an image has a shape; [None] has no length. *)
Definition self_ndim : M nat :=
  s <- get_self ;;
  match img s with
  | Some i => ret (ndim (dataobj i))
  | None => raise TypeError
  end.

(** The setter of the [smooth_fwhm] property. *)
Definition set_smooth_fwhm (fwhm : Z) : M unit :=
  s <- get_self ;;
  (if negb (fwhm =? _smooth_fwhm s) then set_is_data_smooth false else ret tt) ;;;
  set_smooth_fwhm_attr fwhm.

Definition has_mask : M bool :=
  s <- get_self ;;
  ret (match mask s with Some _ => true | None => false end).

Definition is_smoothed : M bool :=
  s <- get_self ;;
  ret (_is_data_smooth s).

Definition remove_smoothing : M unit :=
  set_smooth_fwhm_attr 0 ;;;
  i <- the_img ;;
  set_img (Some (image_uncache i)).

Definition remove_masking : M unit :=
  m <- the_mask ;;
  set_mask_attr (Some (image_uncache m)) ;;;
  set_mask_attr None.

Definition get_affine : M affine :=
  i <- the_img ;;
  ret (img_affine i).

(** [_smooth_data_array(data, affine, fwhm, copy=False)] *)
Definition smooth (data : loc) (aff : affine) (fwhm : Z) : M loc :=
  a <- array_at data ;;
  match smooth_data_array a aff fwhm with
  | Raise e => raise e
  | Ok a' =>
      if smooth_in_place a then overwrite data a' ;;; ret data
      else new_array a'
  end.

(** [data[msk_data]] for a mask of the shape of [data]: the elements at the
    positions where the mask is set, in a new 1-D array. *)
Fixpoint select (values msk : list Z) : list Z :=
  match values, msk with
  | v :: values', m :: msk' =>
      if m =? 0 then select values' msk' else v :: select values' msk'
  | _, _ => []
  end.

Definition boolean_index (data msk : ndarray) : result ndarray :=
  if list_eq_dec Z.eq_dec (shape data) (shape msk) then
    let picked := select (flat data) (flat msk) in
    Ok {| dtype := dtype data;
          shape := [Z.of_nat (List.length picked)];
          flat := picked |}
  else Raise IndexError.

(** [np.where(msk_data)], as positions in C order *)
Fixpoint where_set (i : nat) (msk : list Z) : list nat :=
  match msk with
  | [] => []
  | m :: msk' =>
      if m =? 0 then where_set (S i) msk' else i :: where_set (S i) msk'
  end.

(** Return the data masked with self.mask *)
Definition _mask_data (data : loc) : M (loc * list nat) :=
  m <- mask_get_data ;;
  msk_data <- array_at m ;;
  n <- self_ndim ;;
  a <- array_at data ;;
  if (n =? 3)%nat then
    match boolean_index a msk_data with
    | Ok picked => l <- new_array picked ;; ret (l, where_set 0 (flat msk_data))
    | Raise e => raise e
    end
  else if (n =? 4)%nat then
    match apply_mask_to_4d_data a msk_data with
    | Ok (picked, indices) => l <- new_array picked ;; ret (l, indices)
    | Raise e => raise e
    end
  else raise ValueError.

(** Use self.mask to reshape arr and self.img to get an affine and header to
    create a new self.img using the data in arr.
    If self.has_mask() is False, will return the same arr. *)
Definition unmask (arr : loc) : M loc :=
  masked <- has_mask ;;
  if negb masked then ret arr
  else
    a <- array_at arr ;;
    if (ndim a =? 2)%nat then
      m <- mask_get_data ;;
      msk_data <- array_at m ;;
      new_array (matrix_to_4dvolume a msk_data)
    else if (ndim a =? 1)%nat then
      m <- mask_get_data ;;
      msk_data <- array_at m ;;
      new_array (vector_to_volume a msk_data)
    else raise ValueError.

(** Get the data in the image.
    If save_copy is True, will perform a deep copy of the data and return it.
    [depth] is the number of frames left on the interpreter's stack.

    Under [safe_copy] line 201 calls [get_data(self.img)]: a global name,
    looked up before the argument is evaluated.  The module binds no such
    name, neither by an import nor by a definition ([get_data] is only a
    method of the class), and it is no built-in: the call raises
    [NameError]. *)
Fixpoint get_data (depth : nat) (smoothed masked safe_copy : bool) : M loc :=
  match depth with
  | O => raise RecursionError
  | S depth' =>
      s <- get_self ;;
      cached <-
        (if negb safe_copy
            && Bool.eqb smoothed (_is_data_smooth s)
            && Bool.eqb masked (_is_data_masked s)
         then
           loaded <- has_data_loaded ;;
           ret (loaded && caching_eqb (_caching s) fill)
         else ret false) ;;
      if (cached : bool) then get_data depth' true true false
      else
        data <-
          (if safe_copy then raise NameError
           else img_get_data (_caching s)) ;;
        s <- get_self ;;
        smoothing <-
          (if smoothed && (0 <? _smooth_fwhm s) then
             aff <- get_affine ;;
             data' <- smooth data aff (_smooth_fwhm s) ;;
             ret (data', true)
           else ret (data, false)) ;;
        masked_too <- has_mask ;;
        masking <-
          (if masked && masked_too then
             picked <- _mask_data (fst smoothing) ;;
             data' <- unmask (fst picked) ;;
             ret (data', true)
           else ret (fst smoothing, false)) ;;
        (if negb safe_copy then
           set_is_data_masked (snd masking) ;;;
           set_is_data_smooth (snd smoothing)
         else ret tt) ;;;
        ret (fst masking)
  end.

(** Set self._smooth_fwhm and then smooths the data.
    Returns the smoothed data deepcopied. *)
Definition apply_smoothing (depth : nat) (smooth_fwhm : Z) : M (option loc) :=
  if smooth_fwhm <=? 0 then ret None
  else
    s <- get_self ;;
    let old_smooth_fwhm := _smooth_fwhm s in
    set_smooth_fwhm_attr smooth_fwhm ;;;
    try_except_else (get_data depth true true true)
      (fun e => set_smooth_fwhm_attr old_smooth_fwhm ;;; raise e)
      (fun data => set_smooth_fwhm_attr smooth_fwhm ;;; ret (Some data)).

End MedicalImage.

(** * Properties of the codec *)

(** ** Dictionaries *)

Section DictFacts.
Context {V : Type}.

Lemma dict_get_set_same (d : dict string V) k v :
  dict_get String.eqb (dict_set String.eqb d k v) k = Some v.
Proof.
  induction d as [|[k' v'] d IH]; simpl.
  - now rewrite String.eqb_refl.
  - destruct (String.eqb k' k) eqn:E; simpl; rewrite E; auto.
Qed.

Lemma dict_get_set_other (d : dict string V) k k' v :
  k <> k' ->
  dict_get String.eqb (dict_set String.eqb d k v) k' = dict_get String.eqb d k'.
Proof.
  intros Hne. induction d as [|[k0 v0] d IH]; simpl.
  - destruct (String.eqb_spec k k'); congruence.
  - destruct (String.eqb_spec k0 k) as [->|Hk]; simpl.
    + destruct (String.eqb_spec k k'); congruence.
    + now rewrite IH.
Qed.

Lemma dict_set_fresh (d : dict string V) k v :
  dict_get String.eqb d k = None ->
  dict_set String.eqb d k v = d ++ [(k, v)].
Proof.
  induction d as [|[k0 v0] d IH]; simpl; auto.
  destruct (String.eqb k0 k); [discriminate|].
  intros H. now rewrite IH.
Qed.

Lemma dict_get_app (d1 d2 : dict string V) k :
  dict_get String.eqb (d1 ++ d2) k =
  match dict_get String.eqb d1 k with
  | Some v => Some v
  | None => dict_get String.eqb d2 k
  end.
Proof.
  induction d1 as [|[k0 v0] d1 IH]; simpl; auto.
  destruct (String.eqb k0 k); auto.
Qed.

Lemma dict_get_not_key (d : dict string V) k :
  ~ In k (dict_keys d) -> dict_get String.eqb d k = None.
Proof.
  induction d as [|[k0 v0] d IH]; simpl; auto.
  intros H. destruct (String.eqb_spec k0 k); [tauto|]. apply IH. tauto.
Qed.

(** The order in which the keys were inserted does not change what a key
    is bound to. *)
Lemma dict_get_Permutation (d1 d2 : dict string V) k :
  NoDup (dict_keys d1) -> Permutation d1 d2 ->
  dict_get String.eqb d1 k = dict_get String.eqb d2 k.
Proof.
  intros Hnd Hp. induction Hp as [| [k0 v0] l l' Hp IH | [k1 v1] [k2 v2] l | l l' l'' Hp1 IH1 Hp2 IH2].
  - reflexivity.
  - simpl. inversion Hnd; subst. now rewrite IH.
  - simpl. inversion Hnd as [|? ? Hnotin Hnd']; subst.
    destruct (String.eqb_spec k1 k), (String.eqb_spec k2 k); subst; auto.
    exfalso. apply Hnotin. now left.
  - rewrite IH1 by assumption. apply IH2.
    unfold dict_keys in *.
    eapply Permutation_NoDup; [|exact Hnd]. now apply Permutation_map.
Qed.
End DictFacts.

(** ** The type table *)

(** The table tag -> type as the display leaves it: the repeated keys
    [MET_FLOAT] and [MET_ULONG] keep their last value. *)
Lemma MHD_TO_NUMPY_TYPE_items :
  MHD_TO_NUMPY_TYPE =
  [ ("MET_FLOAT", np_float32); ("MET_UCHAR", np_uint8); ("MET_CHAR", np_int8);
    ("MET_USHORT", np_uint8); ("MET_SHORT", np_int8); ("MET_UINT", np_uint32);
    ("MET_INT", np_int32); ("MET_ULONG", np_int64); ("MET_DOUBLE", np_float64) ].
Proof. reflexivity. Qed.

(** The inverted table: of two tags with one type the later one stays. *)
Lemma NUMPY_TO_MHD_TYPE_items :
  NUMPY_TO_MHD_TYPE =
  [ (np_float32, "MET_FLOAT"); (np_uint8, "MET_USHORT"); (np_int8, "MET_SHORT");
    (np_uint32, "MET_UINT"); (np_int32, "MET_INT"); (np_int64, "MET_ULONG");
    (np_float64, "MET_DOUBLE") ].
Proof. reflexivity. Qed.

(** A type that has a tag is the type of its tag. *)
Lemma to_tag_to_element_type (t : nptype) (tag : string) :
  to_tag t = Ok tag -> to_element_type tag = Ok t.
Proof.
  destruct t; vm_compute; intros H; inversion H; reflexivity.
Qed.

(** C2: the element-type table is required to be a bijection between tags and
    element types.  The table of the source is not: [MET_UCHAR] and
    [MET_USHORT] both stand for [uint8], so [uint8] maps back to [MET_USHORT]
    and [MET_UCHAR] does not survive the round trip tag -> type -> tag; the
    types [uint16], [int16] and [uint64] have no tag at all. *)
Theorem type_table_not_bijective :
  to_element_type "MET_UCHAR" = Ok np_uint8
  /\ to_element_type "MET_USHORT" = Ok np_uint8
  /\ (let? t := to_element_type "MET_UCHAR" in to_tag t) = Ok "MET_USHORT"
  /\ to_element_type "MET_CHAR" = to_element_type "MET_SHORT"
  /\ to_tag np_uint16 = Raise KeyError
  /\ to_tag np_int16 = Raise KeyError
  /\ to_tag np_uint64 = Raise KeyError
  /\ ~ (forall tag1 tag2 t,
          to_element_type tag1 = Ok t -> to_element_type tag2 = Ok t ->
          tag1 = tag2).
Proof.
  repeat split; try reflexivity.
  intros H.
  specialize (H "MET_UCHAR" "MET_USHORT" np_uint8 eq_refl eq_refl).
  discriminate H.
Qed.

(** ** Strings *)

Module PyStrFacts.
Import PyStr.

Definition first_is_space (s : string) : bool :=
  match s with
  | EmptyString => false
  | String c _ => is_space c
  end.

Fixpoint last_is_space (s : string) : bool :=
  match s with
  | EmptyString => false
  | String c EmptyString => is_space c
  | String _ s' => last_is_space s'
  end.

Fixpoint all_space (s : string) : bool :=
  match s with
  | EmptyString => true
  | String c s' => is_space c && all_space s'
  end.

Lemma append_assoc (a b c : string) : ((a ++ b) ++ c = a ++ (b ++ c))%string.
Proof. induction a; simpl; congruence. Qed.

Lemma append_nil_r (a : string) : (a ++ "")%string = a.
Proof. induction a; simpl; congruence. Qed.

Lemma contains_append c (a b : string) :
  contains c (a ++ b) = contains c a || contains c b.
Proof.
  induction a as [|x a IH]; simpl; auto.
  rewrite IH. now rewrite orb_assoc.
Qed.

Lemma universal_newlines_id (s : string) :
  contains carriage_return s = false -> universal_newlines s = s.
Proof.
  induction s as [|c s IH]; simpl; auto.
  intros H. apply orb_false_iff in H as [Hc Hs].
  rewrite Hc. now rewrite IH.
Qed.

(** A line without a newline inside is read back as one line. *)
Lemma readlines_line (l rest : string) :
  contains newline l = false ->
  readlines (l ++ String newline rest) = (l ++ String newline "")%string :: readlines rest.
Proof.
  induction l as [|c l IH]; simpl; intros H.
  - reflexivity.
  - apply orb_false_iff in H as [Hc Hl].
    rewrite Hc, (IH Hl). reflexivity.
Qed.

Lemma split_none sep (s : string) :
  contains sep s = false -> split sep s = [s].
Proof.
  induction s as [|c s IH]; simpl; auto.
  intros H. apply orb_false_iff in H as [Hc Hs].
  rewrite Hc, (IH Hs). reflexivity.
Qed.

Lemma split_at sep (a b : string) :
  contains sep a = false ->
  split sep (a ++ String sep b) = a :: split sep b.
Proof.
  induction a as [|c a IH]; simpl; intros H.
  - now rewrite Ascii.eqb_refl.
  - apply orb_false_iff in H as [Hc Ha].
    rewrite Hc, (IH Ha). reflexivity.
Qed.

Lemma lstrip_clean (s : string) : first_is_space s = false -> lstrip s = s.
Proof. destruct s; simpl; auto. intros ->. reflexivity. Qed.

Lemma rstrip_all_space (s : string) : all_space s = true -> rstrip s = "".
Proof.
  induction s as [|c s IH]; simpl; auto.
  intros H. apply andb_true_iff in H as [Hc Hs].
  now rewrite (IH Hs), Hc.
Qed.

Lemma rstrip_append (s w : string) :
  last_is_space s = false -> all_space w = true -> rstrip (s ++ w) = s.
Proof.
  intros Hs Hw. induction s as [|c s IH].
  - simpl. now apply rstrip_all_space.
  - change (rstrip (String c s ++ w))
      with (let r := rstrip (s ++ w) in
            if is_space c && is_empty r then "" else String c r).
    destruct s as [|c' s'].
    + simpl in Hs. simpl. rewrite (rstrip_all_space _ Hw), Hs. reflexivity.
    + rewrite IH by exact Hs. cbv zeta. simpl is_empty.
      now rewrite andb_false_r.
Qed.

Lemma rstrip_clean (s : string) : last_is_space s = false -> rstrip s = s.
Proof.
  intros H. rewrite <- (append_nil_r s) at 1. now apply rstrip_append.
Qed.

(** Stripping a string with blanks around a clean core gives the core. *)
Lemma strip_padded (pre s post : string) :
  all_space pre = true -> all_space post = true ->
  first_is_space s = false -> last_is_space s = false ->
  strip (pre ++ s ++ post) = s.
Proof.
  intros Hpre Hpost Hf Hl. unfold strip.
  induction pre as [|c pre IH]; simpl.
  - destruct s as [|c s].
    + simpl. assert (E : lstrip post = "").
      { clear -Hpost. induction post as [|c p IH]; simpl; auto.
        simpl in Hpost. apply andb_true_iff in Hpost as [Hc Hp].
        rewrite Hc. auto. }
      now rewrite E.
    + simpl in Hf. simpl. rewrite Hf.
      change (String c (s ++ post)) with (String c s ++ post)%string.
      now apply rstrip_append.
  - simpl in Hpre. apply andb_true_iff in Hpre as [Hc Hp].
    rewrite Hc. now apply IH.
Qed.

(** A value that the header codec stores and reads back unchanged: no
    [=], no line break, no blank at either end. *)
Definition clean_value (v : string) : bool :=
  negb (contains "=" v) && negb (contains newline v)
  && negb (contains carriage_return v)
  && negb (first_is_space v) && negb (last_is_space v).

Lemma clean_value_spec (v : string) :
  clean_value v = true ->
  contains "=" v = false /\ contains newline v = false
  /\ contains carriage_return v = false
  /\ first_is_space v = false /\ last_is_space v = false.
Proof.
  unfold clean_value. rewrite !andb_true_iff, !negb_true_iff. tauto.
Qed.

End PyStrFacts.

(** ** Writing the header *)

(** The entries of a header that belong to the schema, in schema order. *)
Definition schema_entries (tags : list string) (h : meta_header)
    : list (string * string) :=
  flat_map (fun tag => match dict_get String.eqb h tag with
                       | Some v => [(tag, v)]
                       | None => []
                       end) tags.

(** One [tag = value] line per entry. *)
Fixpoint entry_lines (entries : list (string * string)) : string :=
  match entries with
  | [] => EmptyString
  | (tag, v) :: entries' => (format_entry tag v ++ entry_lines entries')%string
  end.

Lemma entry_lines_app (e1 e2 : list (string * string)) :
  entry_lines (e1 ++ e2) = (entry_lines e1 ++ entry_lines e2)%string.
Proof.
  induction e1 as [|[t v] e1 IH]; simpl; auto.
  now rewrite IH, PyStrFacts.append_assoc.
Qed.

Lemma header_text_fold (h : meta_header) (tags : list string) (acc : string) :
  fold_left
    (fun header tag =>
       match dict_get String.eqb h tag with
       | Some value => (header ++ format_entry tag value)%string
       | None => header
       end) tags acc
  = (acc ++ entry_lines (schema_entries tags h))%string.
Proof.
  revert acc. induction tags as [|t tags IH]; intros acc; simpl.
  - now rewrite PyStrFacts.append_nil_r.
  - rewrite IH. destruct (dict_get String.eqb h t); simpl.
    + now rewrite !PyStrFacts.append_assoc.
    + reflexivity.
Qed.

Lemma header_text_entries (h : meta_header) :
  header_text h = entry_lines (schema_entries MHD_TAGS h).
Proof. unfold header_text. now rewrite header_text_fold. Qed.

Lemma schema_entries_ext (tags : list string) (h1 h2 : meta_header) :
  (forall k, dict_get String.eqb h1 k = dict_get String.eqb h2 k) ->
  schema_entries tags h1 = schema_entries tags h2.
Proof.
  intros H. unfold schema_entries.
  induction tags as [|t tags IH]; simpl; auto.
  now rewrite H, IH.
Qed.

(** The tags of the entries are the schema tags bound in the header, in the
    order of the schema. *)
Lemma schema_entries_keys (tags : list string) (h : meta_header) :
  dict_keys (schema_entries tags h) = filter (dict_mem String.eqb h) tags.
Proof.
  unfold schema_entries, dict_keys, dict_mem.
  induction tags as [|t tags IH]; simpl; auto.
  destruct (dict_get String.eqb h t); simpl; now rewrite IH.
Qed.

Lemma schema_entries_values (tags : list string) (h : meta_header) tag v :
  In (tag, v) (schema_entries tags h) ->
  In tag tags /\ dict_get String.eqb h tag = Some v.
Proof.
  unfold schema_entries. rewrite in_flat_map.
  intros [t [Ht Hin]]. destruct (dict_get String.eqb h t) eqn:E.
  - destruct Hin as [Heq|[]]. inversion Heq; subst. auto.
  - destruct Hin.
Qed.

(** C8: whatever the order in which the header was filled, the text written
    holds one [tag = value] line for each schema tag bound in the header and
    for no other key, the lines following the order of the schema; absent tags
    are left out and the empty header gives the empty text. *)
Theorem header_text_in_schema_order (h : meta_header) :
  header_text h = entry_lines (schema_entries MHD_TAGS h)
  /\ dict_keys (schema_entries MHD_TAGS h) = filter (dict_mem String.eqb h) MHD_TAGS
  /\ (forall tag v, In (tag, v) (schema_entries MHD_TAGS h) ->
                    dict_get String.eqb h tag = Some v)
  /\ (forall h' : meta_header,
        NoDup (dict_keys h) -> Permutation h h' -> header_text h' = header_text h)
  /\ (forall fs filename,
        fs_read (write_meta_header fs filename h) filename = Ok (header_text h))
  /\ header_text [] = "".
Proof.
  split; [apply header_text_entries|].
  split; [apply schema_entries_keys|].
  split; [intros tag v H; now apply schema_entries_values in H|].
  split.
  - intros h' Hnd Hp. rewrite !header_text_entries. f_equal.
    apply schema_entries_ext. intros k. symmetry.
    now apply dict_get_Permutation.
  - split; [|reflexivity].
    intros fs filename. unfold fs_read, write_meta_header, fs_write.
    now rewrite dict_get_set_same.
Qed.

(** Two ways of filling one header, and the text both give. *)
Lemma header_text_in_schema_order_witness :
  let h := [("DimSize", "2 3 4"); ("NDims", "3"); ("ObjectType", "Image")] in
  let h' := [("ObjectType", "Image"); ("DimSize", "2 3 4"); ("NDims", "3")] in
  NoDup (dict_keys h) /\ Permutation h h'
  /\ header_text h' = header_text h
  /\ header_text h = "ObjectType = Image
NDims = 3
DimSize = 2 3 4
".
Proof.
  intros h h'.
  assert (Hnd : NoDup (dict_keys h)).
  { repeat constructor; simpl; intuition discriminate. }
  assert (Hp : Permutation h h').
  { unfold h, h'. apply Permutation_sym, (Permutation_cons_app [_; _] []).
    apply Permutation_refl. }
  split; [exact Hnd|]. split; [exact Hp|].
  split.
  - exact (proj1 (proj2 (proj2 (proj2 (header_text_in_schema_order h)))) h' Hnd Hp).
  - reflexivity.
Defined.

(** ** Reading the header back *)

Lemma MHD_TAGS_NoDup : NoDup MHD_TAGS.
Proof.
  unfold MHD_TAGS.
  repeat (constructor; [simpl; intuition discriminate|]).
  constructor.
Qed.

Lemma MHD_TAGS_clean : forallb PyStrFacts.clean_value MHD_TAGS = true.
Proof. reflexivity. Qed.

Opaque MHD_TAGS.

Lemma scan_tags_miss (rest : list string) (i : nat) (tags : list string)
    (st : meta_header * list bool) :
  ~ In (PyStr.strip (nth 0 tags "")) rest ->
  scan_tags rest i tags st = Ok st.
Proof.
  revert i st. induction rest as [|t rest IH]; intros i [meta flags] Hnot; simpl.
  - reflexivity.
  - destruct (String.eqb_spec (PyStr.strip (nth 0 tags "")) t) as [E|E].
    + exfalso. apply Hnot. left. now symmetry.
    + simpl. apply IH. intros Hin. apply Hnot. now right.
Qed.

Lemma scan_tags_hit (pre : list string) (t : string) (post : list string)
    (i : nat) (k v : string) (meta : meta_header) (flags : list bool) :
  PyStr.strip k = t -> ~ In t pre -> ~ In t post ->
  nth (i + List.length pre) flags false = false ->
  scan_tags (pre ++ t :: post) i [k; v] (meta, flags)
  = Ok (dict_set String.eqb meta t (PyStr.strip v),
        set_flag (i + List.length pre) flags).
Proof.
  intros Hk. revert i. induction pre as [|p pre IH]; intros i Hpre Hpost Hflag.
  - simpl in *. rewrite Nat.add_0_r in *.
    rewrite Hk, String.eqb_refl, Hflag. simpl.
    apply scan_tags_miss. simpl. now rewrite Hk.
  - simpl. rewrite Hk.
    destruct (String.eqb_spec t p) as [E|E].
    + exfalso. apply Hpre. left. now symmetry.
    + simpl. simpl List.length in Hflag.
      replace (i + S (List.length pre))%nat with (S i + List.length pre)%nat in * by lia.
      apply IH; auto. intros Hin. apply Hpre. now right.
Qed.

Lemma schema_entries_app (t1 t2 : list string) (h : meta_header) :
  schema_entries (t1 ++ t2) h = schema_entries t1 h ++ schema_entries t2 h.
Proof. unfold schema_entries. apply flat_map_app. Qed.

Lemma set_flag_middle (f1 f2 : list bool) (b : bool) :
  set_flag (List.length f1) (f1 ++ b :: f2) = f1 ++ true :: f2.
Proof. induction f1 as [|x f1 IH]; simpl; congruence. Qed.

Lemma nth_middle_flag (f1 f2 : list bool) (b : bool) :
  nth (List.length f1) (f1 ++ b :: f2) false = b.
Proof. induction f1 as [|x f1 IH]; simpl; auto. Qed.

(** Splitting and stripping the line written for an entry gives the entry
    back, when tag and value are clean. *)
Lemma split_entry_line (t v : string) :
  PyStrFacts.clean_value t = true -> PyStrFacts.clean_value v = true ->
  exists k w,
    PyStr.split "=" (format_entry t v) = [k; w]
    /\ PyStr.strip k = t /\ PyStr.strip w = v.
Proof.
  intros Ht Hv.
  apply PyStrFacts.clean_value_spec in Ht as (Ht1 & _ & _ & Ht4 & Ht5).
  apply PyStrFacts.clean_value_spec in Hv as (Hv1 & _ & _ & Hv4 & Hv5).
  exists (t ++ " ")%string, (" " ++ v ++ String PyStr.newline "")%string.
  split; [|split].
  - unfold format_entry.
    replace (t ++ " = " ++ v ++ String PyStr.newline "")%string
      with ((t ++ " ") ++ String "=" (" " ++ v ++ String PyStr.newline ""))%string
      by (now rewrite PyStrFacts.append_assoc).
    rewrite PyStrFacts.split_at.
    + rewrite PyStrFacts.split_none; [reflexivity|].
      simpl. rewrite PyStrFacts.contains_append, Hv1. reflexivity.
    + rewrite PyStrFacts.contains_append, Ht1. reflexivity.
  - apply (PyStrFacts.strip_padded "" t " "); auto.
  - apply (PyStrFacts.strip_padded " " v (String PyStr.newline "")); auto.
Qed.

Lemma readlines_entry (t v rest : string) :
  PyStrFacts.clean_value t = true -> PyStrFacts.clean_value v = true ->
  PyStr.readlines (format_entry t v ++ rest)
  = format_entry t v :: PyStr.readlines rest.
Proof.
  intros Ht Hv.
  apply PyStrFacts.clean_value_spec in Ht as (_ & Ht2 & _).
  apply PyStrFacts.clean_value_spec in Hv as (_ & Hv2 & _).
  unfold format_entry.
  replace ((t ++ " = " ++ v ++ String PyStr.newline "") ++ rest)%string
    with ((t ++ " = " ++ v) ++ String PyStr.newline rest)%string
    by (now rewrite !PyStrFacts.append_assoc).
  rewrite PyStrFacts.readlines_line.
  - now rewrite !PyStrFacts.append_assoc.
  - rewrite !PyStrFacts.contains_append, Ht2, Hv2. reflexivity.
Qed.

(** The values bound to schema tags are clean. *)
Definition clean_header (h : meta_header) : Prop :=
  forall tag v, In tag MHD_TAGS -> dict_get String.eqb h tag = Some v ->
                PyStrFacts.clean_value v = true.

Lemma scan_lines_entries (h : meta_header) (todo done : list string) :
  clean_header h -> MHD_TAGS = done ++ todo ->
  scan_lines (PyStr.readlines (entry_lines (schema_entries todo h)))
             (schema_entries done h,
              map (dict_mem String.eqb h) done ++ repeat false (List.length todo))
  = Ok (schema_entries MHD_TAGS h, map (dict_mem String.eqb h) MHD_TAGS).
Proof.
  intros Hclean. revert done.
  induction todo as [|t todo IH]; intros done Hall.
  - simpl. rewrite Hall, !app_nil_r. reflexivity.
  - assert (Hall' : MHD_TAGS = (done ++ [t]) ++ todo)
      by (now rewrite <- app_assoc).
    specialize (IH (done ++ [t]) Hall').
    rewrite schema_entries_app, map_app in IH. simpl in IH.
    assert (Hin : In t MHD_TAGS) by (rewrite Hall; apply in_elt).
    assert (Hnd := MHD_TAGS_NoDup). rewrite Hall in Hnd.
    apply NoDup_remove_2 in Hnd.
    assert (Hpre : ~ In t done) by (intros X; apply Hnd, in_or_app; now left).
    assert (Hpost : ~ In t todo) by (intros X; apply Hnd, in_or_app; now right).
    unfold dict_mem in IH at 2. change (schema_entries (t :: todo) h)
      with ((match dict_get String.eqb h t with
             | Some v => [(t, v)] | None => [] end) ++ schema_entries todo h).
    destruct (dict_get String.eqb h t) as [v|] eqn:Ev.
    + assert (Hv : PyStrFacts.clean_value v = true) by (eapply Hclean; eauto).
      assert (Ht : PyStrFacts.clean_value t = true).
      { pose proof MHD_TAGS_clean as Hc. rewrite forallb_forall in Hc. auto. }
      change ([(t, v)] ++ schema_entries todo h)
        with ((t, v) :: schema_entries todo h).
      cbn [entry_lines].
      rewrite readlines_entry by assumption.
      cbn [scan_lines].
      destruct (split_entry_line t v Ht Hv) as (k & w & Hsplit & Hk & Hw).
      rewrite Hsplit, Hall.
      rewrite (scan_tags_hit done t todo 0 k w); auto.
      * cbn [rbind]. rewrite Hw. simpl Nat.add.
        rewrite <- (length_map (dict_mem String.eqb h) done).
        simpl repeat. rewrite set_flag_middle.
        rewrite dict_set_fresh.
        -- rewrite <- Hall.
           rewrite <- (app_assoc (map (dict_mem String.eqb h) done)) in IH.
           exact IH.
        -- apply dict_get_not_key. rewrite schema_entries_keys.
           intros X. apply filter_In in X. tauto.
      * simpl Nat.add. rewrite <- (length_map (dict_mem String.eqb h) done).
        simpl repeat. apply nth_middle_flag.
    + simpl app. rewrite app_nil_r, <- app_assoc in IH. exact IH.
Qed.

Lemma dict_get_schema_entries (tags : list string) (h : meta_header) (k : string) :
  dict_get String.eqb (schema_entries tags h) k
  = if existsb (String.eqb k) tags then dict_get String.eqb h k else None.
Proof.
  induction tags as [|t tags IH]; simpl; auto.
  change (schema_entries (t :: tags) h)
    with ((match dict_get String.eqb h t with
           | Some v => [(t, v)] | None => [] end) ++ schema_entries tags h).
  rewrite dict_get_app, IH.
  destruct (String.eqb_spec k t) as [->|Hne]; simpl.
  - destruct (dict_get String.eqb h t) eqn:E; simpl.
    + now rewrite String.eqb_refl.
    + destruct (existsb (String.eqb t) tags); auto.
  - destruct (dict_get String.eqb h t) eqn:E; simpl; auto.
    destruct (String.eqb_spec t k); [congruence|reflexivity].
Qed.

Lemma entry_lines_no_cr (entries : list (string * string)) :
  (forall t v, In (t, v) entries ->
     PyStrFacts.clean_value t = true /\ PyStrFacts.clean_value v = true) ->
  PyStr.contains PyStr.carriage_return (entry_lines entries) = false.
Proof.
  induction entries as [|[t v] entries IH]; intros H; simpl; auto.
  destruct (H t v (or_introl eq_refl)) as [Ht Hv].
  apply PyStrFacts.clean_value_spec in Ht as (_ & _ & Ht3 & _).
  apply PyStrFacts.clean_value_spec in Hv as (_ & _ & Hv3 & _).
  unfold format_entry. rewrite !PyStrFacts.contains_append, Ht3, Hv3.
  simpl. apply IH. intros t' v' Hin. apply H. now right.
Qed.

(** What [read_meta_header] returns on the text written for a clean header. *)
Lemma read_header_text (fs : filesystem) (filename : string) (h : meta_header) :
  clean_header h ->
  fs_read fs filename = Ok (header_text h) ->
  read_meta_header fs filename = Ok (schema_entries MHD_TAGS h).
Proof.
  intros Hclean Hread. unfold read_meta_header. rewrite Hread. cbn [rbind].
  rewrite header_text_entries.
  rewrite PyStrFacts.universal_newlines_id.
  - assert (H : scan_lines
                 (PyStr.readlines (entry_lines (schema_entries MHD_TAGS h)))
                 ([], repeat false (List.length MHD_TAGS))
               = Ok (schema_entries MHD_TAGS h,
                     map (dict_mem String.eqb h) MHD_TAGS))
      by exact (scan_lines_entries h MHD_TAGS [] Hclean eq_refl).
    rewrite H. reflexivity.
  - apply entry_lines_no_cr. intros t v Hin.
    apply schema_entries_values in Hin as [Hin Hget]. split.
    + pose proof MHD_TAGS_clean as Hc. rewrite forallb_forall in Hc. auto.
    + eapply Hclean; eauto.
Qed.

(** A header read back agrees with [h] on the schema and holds nothing else. *)
Definition restricted_to_schema (d h : meta_header) : Prop :=
  forall k, dict_get String.eqb d k
            = if existsb (String.eqb k) MHD_TAGS
              then dict_get String.eqb h k else None.

Definition clean_header_check (h : meta_header) : bool :=
  forallb (fun tag => match dict_get String.eqb h tag with
                      | Some v => PyStrFacts.clean_value v
                      | None => true
                      end) MHD_TAGS.

Lemma clean_header_check_sound (h : meta_header) :
  clean_header_check h = true -> clean_header h.
Proof.
  unfold clean_header_check, clean_header. rewrite forallb_forall.
  intros H tag v Hin Hget. specialize (H tag Hin). now rewrite Hget in H.
Qed.

(** C4 (as amended): for every header whose schema values hold no [=], no
    line break and no blank at either end, reading back the text written for
    it gives the header restricted to the schema tags, each value unchanged
    (and the entries in schema order). *)
Theorem read_write_meta_header (fs : filesystem) (filename : string)
    (h : meta_header) :
  clean_header h ->
  exists d,
    read_meta_header (write_meta_header fs filename h) filename = Ok d
    /\ d = schema_entries MHD_TAGS h
    /\ restricted_to_schema d h.
Proof.
  intros Hclean. exists (schema_entries MHD_TAGS h). split; [|split].
  - apply read_header_text; [assumption|].
    unfold fs_read, write_meta_header, fs_write.
    now rewrite dict_get_set_same.
  - reflexivity.
  - intros k. apply dict_get_schema_entries.
Qed.

Transparent MHD_TAGS.

Lemma read_write_meta_header_witness :
  let h := [("Unknown", " = "); ("DimSize", "2 3 4"); ("NDims", "3")] in
  clean_header h
  /\ exists d,
       read_meta_header (write_meta_header [] "scan.mhd" h) "scan.mhd" = Ok d
       /\ d = schema_entries MHD_TAGS h
       /\ restricted_to_schema d h.
Proof.
  intros h.
  assert (Hc : clean_header h) by (apply clean_header_check_sound; reflexivity).
  split; [exact Hc|].
  exact (read_write_meta_header [] "scan.mhd" h Hc).
Defined.

(** C4 (as stated) fails: a value that starts with a blank is a string value
    of a schema tag, and it comes back stripped. *)
Lemma read_write_meta_header_counterexample :
  let h := [("Comment", " x")] in
  read_meta_header (write_meta_header [] "scan.mhd" h) "scan.mhd"
  = Ok [("Comment", "x")]
  /\ ~ (forall (fs : filesystem) (filename : string) (h : meta_header),
          (forall k, In k (dict_keys h) -> In k MHD_TAGS) ->
          exists d,
            read_meta_header (write_meta_header fs filename h) filename = Ok d
            /\ forall k, dict_get String.eqb d k = dict_get String.eqb h k).
Proof.
  split; [reflexivity|].
  intros H.
  destruct (H [] "scan.mhd" [("Comment", " x")]) as (d & Hd & Hk).
  - intros k [<-|[]]. unfold MHD_TAGS. simpl. tauto.
  - vm_compute in Hd. inversion Hd; subst d.
    specialize (Hk "Comment"). discriminate Hk.
Qed.

(** The line is cut at every [=], and only the second piece is kept. *)
Lemma read_meta_header_cuts_value :
  read_meta_header
    (write_meta_header [] "scan.mhd" [("Comment", "a=b")]) "scan.mhd"
  = Ok [("Comment", "a")].
Proof. reflexivity. Qed.

(** ** Loading *)

(** A header for a 2 x 3 x 4 volume of unsigned bytes and its data file,
    the 24 bytes 0, 1, ..., 23. *)
Definition uchar_header : string :=
  "ObjectType = Image
NDims = 3
DimSize = 2 3 4
ElementType = MET_UCHAR
ElementDataFile = scan.raw
".

Definition uchar_bytes : string :=
  CNum.string_of_bytes (map Z.of_nat (seq 0 24)).

Definition uchar_files : filesystem :=
  [("scan.mhd", uchar_header); ("scan.raw", uchar_bytes)].

(** C5: the loader should turn this pair of files into a volume of shape
    (4, 3, 2) holding 0 .. 23.  It does not: [MET_UCHAR] is read through
    [uint8] with the type code ['H'], whose items are two bytes wide, so the
    loader asks the 24-byte file for 24 items of two bytes and the read
    raises [EOFError]. *)
Theorem load_uchar_scenario :
  CNum.bytes_of_string uchar_bytes = map Z.of_nat (seq 0 24)
  /\ (let? t := to_element_type "MET_UCHAR" in
      dict_item nptype_eqb NDARRAY_TO_ARRAY_TYPE t) = Ok tc_H
  /\ itemsize tc_H = 2%nat
  /\ array_fromfile tc_H uchar_bytes 24 = Raise EOFError
  /\ load_raw_data_with_mhd uchar_files "scan.mhd" = Raise EOFError.
Proof. repeat split; reflexivity. Qed.

(** * Properties of the image wrapper *)

(** ** A plain set of collaborators

    The kernel returns its argument, in place; masked values are put back
    at the set positions of the mask and zeros elsewhere. *)

Fixpoint scatter (width : nat) (values msk : list Z) : list Z :=
  match msk with
  | [] => []
  | m :: msk' =>
      if m =? 0 then repeat 0 width ++ scatter width values msk'
      else firstn width values ++ repeat 0 (width - List.length values)
           ++ scatter width (skipn width values) msk'
  end.

Fixpoint select_rows (width : nat) (values msk : list Z) : list Z :=
  match msk with
  | [] => []
  | m :: msk' =>
      (if m =? 0 then [] else firstn width values)
      ++ select_rows width (skipn width values) msk'
  end.

Definition row_width (a : ndarray) : nat := Z.to_nat (last (shape a) 1).

Definition plain_collaborators : Collaborators :=
  {| affine := unit;
     smooth_data_array := fun a _ _ => Ok a;
     smooth_in_place := fun _ => true;
     apply_mask_to_4d_data := fun a m =>
       let picked := select_rows (row_width a) (flat a) (flat m) in
       Ok ({| dtype := dtype a;
              shape := [Z.of_nat (List.length (where_set 0 (flat m)));
                        Z.of_nat (row_width a)];
              flat := picked |},
           where_set 0 (flat m));
     vector_to_volume := fun a m =>
       {| dtype := dtype a; shape := shape m;
          flat := scatter 1 (flat a) (flat m) |};
     matrix_to_4dvolume := fun a m =>
       {| dtype := dtype a; shape := shape m ++ [Z.of_nat (row_width a)];
          flat := scatter (row_width a) (flat a) (flat m) |} |}.

(** A 1 x 1 x 2 volume with a mask that keeps its first voxel, smoothing
    width 2, nothing decoded yet. *)
Definition sample_volume : ndarray :=
  {| dtype := np_float32; shape := [1; 1; 2]; flat := [1065353216; 3225419776] |}.

Definition sample_mask : ndarray :=
  {| dtype := np_uint8; shape := [1; 1; 2]; flat := [1; 0] |}.

Definition volume_image : @image plain_collaborators :=
  @mk_image plain_collaborators sample_volume None tt.

Definition mask_image : @image plain_collaborators :=
  @mk_image plain_collaborators sample_mask None tt.

Definition sample_image : @MedicalImage plain_collaborators :=
  {| img := Some volume_image;
     _caching := fill;
     mask := Some mask_image;
     _smooth_fwhm := 2;
     _is_data_masked := false;
     _is_data_smooth := false |}.

Definition sample_world : @world plain_collaborators :=
  {| objects := []; self := sample_image |}.

(** The same image without a mask. *)
Definition unmasked_image : @MedicalImage plain_collaborators :=
  {| img := img sample_image;
     _caching := fill;
     mask := None;
     _smooth_fwhm := 0;
     _is_data_masked := false;
     _is_data_smooth := false |}.

Definition unmasked_world : @world plain_collaborators :=
  {| objects := []; self := unmasked_image |}.

(** Running a method on a world given by its fields. *)
Ltac exec :=
  cbv beta iota zeta delta
    [bind ret raise get_self set_self new_array array_at overwrite the_img
     the_mask set_img set_mask_attr set_smooth_fwhm_attr set_is_data_masked
     set_is_data_smooth image_get_data img_get_data mask_get_data
     has_mask has_data_loaded self_ndim get_affine smooth
     _mask_data unmask try_except_else clear_data zeroe fst snd self objects
     mask img _caching _smooth_fwhm _is_data_masked _is_data_smooth data_cache
     dataobj img_affine with_cache image_uncache caching_eqb in_memory negb
     andb].

(** ** The cached branch of [get_data] *)

Section CachedBranch.
Context {ext : Collaborators}.

(** C1: when the cached flags are the requested ones, the data are resident
    and the policy is ['fill'], [get_data] should hand back the cached data.
    It does not: line 198 returns [self.get_data()], the method itself with
    its default arguments [(True, True, False)], not the data of the image.
    Once both flags are set the call re-enters the same branch with the same
    state, and whatever the depth of the stack it ends in [RecursionError]. *)
Theorem get_data_cached_never_returns (depth : nat) (w : world) (i : image) :
  img (self w) = Some i -> in_memory i = true -> _caching (self w) = fill ->
  _is_data_smooth (self w) = true -> _is_data_masked (self w) = true ->
  get_data depth true true false w = (Raise RecursionError, w).
Proof.
  intros Himg Hmem Hfill Hs Hm.
  destruct w as [objs [oi c om fw fm fs]]. simpl in *. subst.
  induction depth as [|depth IH]; [reflexivity|].
  cbn. rewrite Hmem. cbn. exact IH.
Qed.

(** With the flags clear the same branch runs the whole pipeline: the call
    for plain data is answered by [get_data(True, True, False)]. *)
Lemma get_data_cached_plain_request (depth : nat) (w : world) (i : image) :
  img (self w) = Some i -> in_memory i = true -> _caching (self w) = fill ->
  _is_data_smooth (self w) = false -> _is_data_masked (self w) = false ->
  get_data (S depth) false false false w = get_data depth true true false w.
Proof.
  intros Himg Hmem Hfill Hs Hm.
  destruct w as [objs [oi c om fw fm fs]]. simpl in *. subst.
  cbn. rewrite Hmem. reflexivity.
Qed.

(** C10: [clear_data] should succeed with or without a mask.  Without a mask
    it evicts the data of the image and then raises: [self.mask] is [None]
    and has no [uncache].  (With a mask both are evicted.) *)
Theorem clear_data_without_mask (objs : heap) (i : image) (c : caching)
    (fwhm : Z) (fm fs : bool) :
  clear_data {| objects := objs;
                self := {| img := Some i; _caching := c; mask := None;
                           _smooth_fwhm := fwhm; _is_data_masked := fm;
                           _is_data_smooth := fs |} |}
  = (Raise AttributeError,
     {| objects := objs;
        self := {| img := Some (image_uncache i); _caching := c; mask := None;
                   _smooth_fwhm := fwhm; _is_data_masked := fm;
                   _is_data_smooth := fs |} |}).
Proof. reflexivity. Qed.

Lemma clear_data_with_mask (objs : heap) (i m : image) (c : caching)
    (fwhm : Z) (fm fs : bool) :
  clear_data {| objects := objs;
                self := {| img := Some i; _caching := c; mask := Some m;
                           _smooth_fwhm := fwhm; _is_data_masked := fm;
                           _is_data_smooth := fs |} |}
  = (Ok tt,
     {| objects := objs;
        self := {| img := Some (image_uncache i); _caching := c;
                   mask := Some (image_uncache m);
                   _smooth_fwhm := fwhm; _is_data_masked := fm;
                   _is_data_smooth := fs |} |}).
Proof. reflexivity. Qed.

End CachedBranch.

(** The second of two calls in a row: the first call sets both flags and
    leaves the data resident, the second never returns. *)
Lemma get_data_cached_never_returns_witness :
  let w1 := snd (get_data 1 true true false sample_world) in
  fst (get_data 1 true true false sample_world) = Ok 3%nat
  /\ img (self w1) = Some (with_cache volume_image (Some 0%nat))
  /\ in_memory (with_cache volume_image (Some 0%nat)) = true
  /\ _caching (self w1) = fill
  /\ _is_data_smooth (self w1) = true
  /\ _is_data_masked (self w1) = true
  /\ forall depth, get_data depth true true false w1 = (Raise RecursionError, w1).
Proof.
  intros w1.
  repeat (split; [reflexivity|]).
  intros depth.
  apply (get_data_cached_never_returns depth w1
           (with_cache volume_image (Some 0%nat)));
    reflexivity.
Defined.

(** ** [unmask] *)

Section Unmask.
Context {ext : Collaborators}.

(** The data of an image or of a mask: the resident array if there is one,
    the stored one otherwise. *)
Definition image_data (w : world) (m : image) : ndarray :=
  match data_cache m with
  | Some l => nth l (objects w) no_array
  | None => dataobj m
  end.

Lemma nth_new (objs : heap) (a : ndarray) :
  nth (List.length objs) (objs ++ [a]) no_array = a.
Proof. induction objs; simpl; auto. Qed.

(** C9: [unmask] raises exactly when a mask is set and the array given has
    neither one nor two dimensions.  Without a mask it returns the array it
    was given and changes nothing; with a mask it returns a new array, the
    volume rebuilt by [vector_to_volume] from a 1-D array and the 4-D volume
    rebuilt by [matrix_to_4dvolume] from a 2-D array. *)
Theorem unmask_spec (w : world) (arr : loc) :
  let a := nth arr (objects w) no_array in
  ((exists e, fst (unmask arr w) = Raise e)
   <-> (mask (self w) <> None /\ ndim a <> 1 /\ ndim a <> 2)%nat)
  /\ (mask (self w) = None -> unmask arr w = (Ok arr, w))
  /\ (forall m, mask (self w) = Some m -> ndim a = 1%nat ->
        exists l,
          fst (unmask arr w) = Ok l
          /\ (List.length (objects w) <= l)%nat
          /\ nth l (objects (snd (unmask arr w))) no_array
             = vector_to_volume a (image_data w m))
  /\ (forall m, mask (self w) = Some m -> ndim a = 2%nat ->
        exists l,
          fst (unmask arr w) = Ok l
          /\ (List.length (objects w) <= l)%nat
          /\ nth l (objects (snd (unmask arr w))) no_array
             = matrix_to_4dvolume a (image_data w m))
  /\ (forall m, mask (self w) = Some m -> ndim a <> 1%nat -> ndim a <> 2%nat ->
        unmask arr w = (Raise ValueError, w)).
Proof.
  intros a.
  destruct w as [objs [oi c om fw fm fs]].
  subst a. cbn [objects self mask]. set (a := nth arr objs no_array).
  destruct om as [m|].
  - (* a mask is set *)
    assert (Hval : forall m', Some m = Some m' -> m' = m) by (intros ? [=]; auto).
    unfold image_data.
    destruct (Nat.eqb_spec (ndim a) 2) as [E2|E2];
      [|destruct (Nat.eqb_spec (ndim a) 1) as [E1|E1]].
    + (* two dimensions *)
      assert (Hrun : exists l,
                 fst (unmask arr (mk_world objs (mk_MedicalImage oi c (Some m) fw fm fs))) = Ok l
                 /\ (List.length objs <= l)%nat
                 /\ nth l (objects (snd (unmask arr (mk_world objs (mk_MedicalImage oi c (Some m) fw fm fs))))) no_array
                    = matrix_to_4dvolume a (image_data (mk_world objs (mk_MedicalImage oi c (Some m) fw fm fs)) m)).
      { unfold image_data. subst a. apply Nat.eqb_eq in E2.
        destruct m as [d [lm|] aff]; exec; rewrite E2; exec.
        - eexists; split; [reflexivity|]. split; [lia|]. apply nth_new.
        - eexists; split; [reflexivity|]. split; [rewrite length_app; simpl; lia|].
          now rewrite !nth_new. }
      destruct Hrun as (l & Hl1 & Hl2 & Hl3).
      split; [|split; [|split; [|split]]].
      * split.
        -- intros [e He]. rewrite Hl1 in He. discriminate.
        -- intros (_ & _ & H2). now elim H2.
      * simpl. discriminate.
      * intros m' Hm' H1. simpl in H1. fold a in H1. congruence.
      * intros m' Hm' _. apply Hval in Hm'. subst m'. exists l. auto.
      * intros m' _ _ H2. now elim H2.
    + (* one dimension *)
      assert (Hrun : exists l,
                 fst (unmask arr (mk_world objs (mk_MedicalImage oi c (Some m) fw fm fs))) = Ok l
                 /\ (List.length objs <= l)%nat
                 /\ nth l (objects (snd (unmask arr (mk_world objs (mk_MedicalImage oi c (Some m) fw fm fs))))) no_array
                    = vector_to_volume a (image_data (mk_world objs (mk_MedicalImage oi c (Some m) fw fm fs)) m)).
      { unfold image_data. subst a.
        apply Nat.eqb_neq in E2. apply Nat.eqb_eq in E1.
        destruct m as [d [lm|] aff]; exec; rewrite E2, E1; exec.
        - eexists; split; [reflexivity|]. split; [lia|]. apply nth_new.
        - eexists; split; [reflexivity|]. split; [rewrite length_app; simpl; lia|].
          now rewrite !nth_new. }
      destruct Hrun as (l & Hl1 & Hl2 & Hl3).
      split; [|split; [|split; [|split]]].
      * split.
        -- intros [e He]. rewrite Hl1 in He. discriminate.
        -- intros (_ & H1 & _). now elim H1.
      * simpl. discriminate.
      * intros m' Hm' _. apply Hval in Hm'. subst m'. exists l. auto.
      * intros m' _ H2. now elim E2.
      * intros m' _ H1 _. now elim H1.
    + (* any other number of dimensions *)
      assert (Hrun : unmask arr (mk_world objs (mk_MedicalImage oi c (Some m) fw fm fs))
                     = (Raise ValueError, mk_world objs (mk_MedicalImage oi c (Some m) fw fm fs))).
      { subst a. apply Nat.eqb_neq in E2. apply Nat.eqb_neq in E1.
        exec. now rewrite E2, E1. }
      split; [|split; [|split; [|split]]].
      * split.
        -- intros _. split; [discriminate|]. split; assumption.
        -- intros _. rewrite Hrun. now exists ValueError.
      * simpl. discriminate.
      * intros m' _ H1. now elim E1.
      * intros m' _ H2. now elim E2.
      * intros m' _ _ _. exact Hrun.
  - (* no mask *)
    split; [|split; [|split; [|split]]].
    + split.
      * intros [e He]. discriminate He.
      * intros (H & _). now elim H.
    + reflexivity.
    + intros m [=].
    + intros m [=].
    + intros m [=].
Qed.

End Unmask.

(** ** [get_data] under [safe_copy] *)

Section SafeCopy.
Context {ext : Collaborators}.

(** C3: under [safe_copy] the call should return an independent copy of the
    data.  It returns nothing.  Line 201 reads [data = get_data(self.img)]: a
    call of a global [get_data], and the module has none ([get_data] is a
    method, reached as [self.get_data]).  So whatever the image, the flags
    asked for and the state of the cache, the call raises [NameError] and
    leaves every object as it was. *)
Theorem get_data_safe_copy_raises (depth : nat) (smoothed masked : bool)
    (w : world) :
  get_data (S depth) smoothed masked true w = (Raise NameError, w).
Proof. destruct w as [objs [oi c om fw fm fs]]. reflexivity. Qed.

(** ** [apply_smoothing] *)

Lemma apply_smoothing_positive (depth : nat) (fwhm : Z) (w : world) :
  0 < fwhm ->
  apply_smoothing depth fwhm w
  = match get_data depth true true true (snd (set_smooth_fwhm_attr fwhm w)) with
    | (Ok data, w') => (Ok (Some data), snd (set_smooth_fwhm_attr fwhm w'))
    | (Raise e, w') =>
        (Raise e, snd (set_smooth_fwhm_attr (_smooth_fwhm (self w)) w'))
    end.
Proof.
  intros Hlt. unfold apply_smoothing.
  destruct (Z.leb_spec fwhm 0); [lia|].
  destruct w as [objs [oi c om fw fm fs]].
  unfold bind, try_except_else. cbn [get_self set_smooth_fwhm_attr self snd].
  unfold bind. cbn.
  destruct (get_data depth true true true _) as [[data|e] w']; reflexivity.
Qed.

(** C7: [apply_smoothing] with a width that is not positive returns nothing
    and changes nothing.  With a positive width, when the recomputation
    raises, the call raises the same exception and the width is the one
    before the call. *)
Theorem apply_smoothing_keeps_width (depth : nat) (fwhm : Z) (w : world) :
  (fwhm <= 0 -> apply_smoothing depth fwhm w = (Ok None, w))
  /\ (0 < fwhm ->
      forall e w1,
        get_data depth true true true (snd (set_smooth_fwhm_attr fwhm w))
        = (Raise e, w1) ->
        fst (apply_smoothing depth fwhm w) = Raise e
        /\ _smooth_fwhm (self (snd (apply_smoothing depth fwhm w)))
           = _smooth_fwhm (self w)).
Proof.
  split.
  - intros Hle. unfold apply_smoothing.
    destruct (Z.leb_spec fwhm 0); [reflexivity|lia].
  - intros Hlt e w1 Hget. rewrite apply_smoothing_positive by assumption.
    rewrite Hget. split; reflexivity.
Qed.

End SafeCopy.

(** ** The properties at work on the sample image *)

(** A 2-D image with a mask: masking raises [ValueError]. *)
Definition flat_world : @world plain_collaborators :=
  {| objects := [];
     self := {| img := Some (@mk_image plain_collaborators
                               {| dtype := np_float32; shape := [1; 2];
                                  flat := [1065353216; 3225419776] |}
                               None tt);
                _caching := fill;
                mask := Some mask_image;
                _smooth_fwhm := 0;
                _is_data_masked := false;
                _is_data_smooth := false |} |}.

Lemma apply_smoothing_keeps_width_witness :
  (0 <= 0 /\ apply_smoothing 2 0 flat_world = (Ok None, flat_world))
  /\ (0 < 3
      /\ fst (get_data 2 true true true (snd (set_smooth_fwhm_attr 3 flat_world)))
         = Raise NameError
      /\ fst (apply_smoothing 2 3 flat_world) = Raise NameError
      /\ _smooth_fwhm (self (snd (apply_smoothing 2 3 flat_world)))
         = _smooth_fwhm (self flat_world)).
Proof.
  split.
  - split; [lia|].
    apply (proj1 (apply_smoothing_keeps_width 2 0 flat_world)). lia.
  - split; [lia|]. split; [reflexivity|].
    apply (proj2 (apply_smoothing_keeps_width 2 3 flat_world)
             ltac:(lia) NameError
             (snd (get_data 2 true true true
                     (snd (set_smooth_fwhm_attr 3 flat_world))))).
    reflexivity.
Defined.

(** Arrays of one, two and three dimensions in front of the sample image. *)
Definition rank_world (shape : list Z) : @world plain_collaborators :=
  {| objects := [{| dtype := np_float32; shape := shape; flat := [1065353216] |}];
     self := sample_image |}.

Lemma unmask_spec_witness :
  unmask 0%nat (mk_world [sample_volume] unmasked_image)
  = (Ok 0%nat, mk_world [sample_volume] unmasked_image)
  /\ (exists l,
        fst (unmask 0%nat (rank_world [1])) = Ok l
        /\ (1 <= l)%nat
        /\ nth l (objects (snd (unmask 0%nat (rank_world [1])))) no_array
           = {| dtype := np_float32; shape := [1; 1; 2]; flat := [1065353216; 0] |})
  /\ (exists l,
        fst (unmask 0%nat (rank_world [1; 1])) = Ok l
        /\ (1 <= l)%nat
        /\ nth l (objects (snd (unmask 0%nat (rank_world [1; 1])))) no_array
           = {| dtype := np_float32; shape := [1; 1; 2; 1];
                flat := [1065353216; 0] |})
  /\ unmask 0%nat (rank_world [1; 1; 1]) = (Raise ValueError, rank_world [1; 1; 1]).
Proof.
  split; [|split; [|split]].
  - apply (proj1 (proj2 (unmask_spec (mk_world [sample_volume] unmasked_image) 0%nat))).
    reflexivity.
  - apply (proj1 (proj2 (proj2 (unmask_spec (rank_world [1]) 0%nat))) mask_image);
      reflexivity.
  - apply (proj1 (proj2 (proj2 (proj2 (unmask_spec (rank_world [1; 1]) 0%nat))))
             mask_image); reflexivity.
  - apply (proj2 (proj2 (proj2 (proj2 (unmask_spec (rank_world [1; 1; 1]) 0%nat))))
             mask_image); [reflexivity| |]; vm_compute; discriminate.
Defined.

(** * Saving a volume and loading it back *)

(** ** Decimal numerals *)

Module NumeralFacts.
Import PyStr PyStrFacts.

Fixpoint all_digits (s : string) : bool :=
  match s with
  | EmptyString => true
  | String c s' => is_digit c && all_digits s'
  end.

(** A numeral: decimal digits, at least one. *)
Definition numeral (s : string) : Prop :=
  all_digits s = true /\ s <> EmptyString.

Lemma all_digits_string_of_uint (d : uint) :
  all_digits (NilEmpty.string_of_uint d) = true.
Proof. induction d; simpl; auto. Qed.

Lemma str_of_int_numeral (n : Z) :
  0 <= n ->
  exists d, str_of_int n = NilEmpty.string_of_uint d /\ d <> Nil /\ Z.of_uint d = n.
Proof.
  intros Hn. destruct n as [|p|p]; [| |lia].
  - exists (D0 Nil). repeat split. discriminate.
  - exists (Pos.to_uint p). unfold str_of_int. simpl.
    pose proof (DecimalPos.Unsigned.to_uint_nonnil p) as Hnil.
    split; [|split; [exact Hnil|]].
    + unfold NilZero.string_of_uint. now destruct (Pos.to_uint p).
    + unfold Z.of_uint. now rewrite DecimalPos.Unsigned.of_to.
Qed.

Lemma string_of_uint_nonempty (d : uint) :
  d <> Nil -> NilEmpty.string_of_uint d <> EmptyString.
Proof. destruct d; simpl; congruence. Qed.

Lemma str_of_int_is_numeral (n : Z) : 0 <= n -> numeral (str_of_int n).
Proof.
  intros Hn. destruct (str_of_int_numeral n Hn) as (d & -> & Hd & _). split.
  - apply all_digits_string_of_uint.
  - now apply string_of_uint_nonempty.
Qed.

Lemma digit_not_space (c : ascii) : is_digit c = true -> is_space c = false.
Proof.
  unfold is_digit, is_space. intros H.
  apply andb_true_iff in H as [H1 H2].
  apply Nat.leb_le in H1. apply Nat.leb_le in H2.
  repeat match goal with
         | |- context [(?a <=? ?b)%nat] => destruct (Nat.leb_spec a b)
         | |- context [(?a =? ?b)%nat] => destruct (Nat.eqb_spec a b)
         end; simpl; try reflexivity; lia.
Qed.

Lemma digit_not_char (c x : ascii) :
  is_digit c = true -> is_digit x = false -> Ascii.eqb c x = false.
Proof.
  intros Hc Hx. destruct (Ascii.eqb_spec c x); [congruence|reflexivity].
Qed.

Lemma numeral_first (s : string) : all_digits s = true -> first_is_space s = false.
Proof.
  destruct s as [|c s]; simpl; auto.
  intros H. apply andb_true_iff in H as [Hc _]. now apply digit_not_space.
Qed.

Lemma numeral_last (s : string) : all_digits s = true -> last_is_space s = false.
Proof.
  induction s as [|c s IH]; simpl; auto.
  intros H. apply andb_true_iff in H as [Hc Hs].
  destruct s; [now apply digit_not_space|now apply IH].
Qed.

Lemma digits_of_numeral (s : string) (b : bool) :
  all_digits s = true -> (s <> EmptyString \/ b = true) ->
  digits_of b s = Some s.
Proof.
  revert b. induction s as [|c s IH]; intros b Hs Hne; simpl.
  - destruct Hne as [Hne | ->]; [congruence|reflexivity].
  - simpl in Hs. apply andb_true_iff in Hs as [Hc Hs].
    rewrite Hc. rewrite IH; auto.
Qed.

(** [int(str(n)) == n] *)
Lemma int_of_str_of_int (n : Z) : 0 <= n -> int_of_str (str_of_int n) = Ok n.
Proof.
  intros Hn. destruct (str_of_int_is_numeral n Hn) as [Hd Hne].
  destruct (str_of_int_numeral n Hn) as (d & Hs & Hnil & Hval).
  unfold int_of_str, strip.
  rewrite lstrip_clean by (now apply numeral_first).
  rewrite rstrip_clean by (now apply numeral_last).
  destruct (str_of_int n) as [|c s] eqn:E; [congruence|].
  assert (Hc : is_digit c = true).
  { simpl in Hd. now apply andb_true_iff in Hd as [Hc _]. }
  rewrite (digit_not_char c "-" Hc eq_refl), (digit_not_char c "+" Hc eq_refl).
  unfold nat_literal. rewrite digits_of_numeral by (auto; left; discriminate).
  rewrite Hs, NilEmpty.usu. now rewrite Hval.
Qed.

End NumeralFacts.

(** ** The [DimSize] entry *)

Module DimSizeFacts.
Import PyStr PyStrFacts NumeralFacts.

Lemma split_blank_cons (c : ascii) (s : string) :
  split_blank (String c s)
  = if is_space c then split_blank s
    else match s with
         | EmptyString => [String c EmptyString]
         | String c' _ =>
             if is_space c' then String c EmptyString :: split_blank s
             else match split_blank s with
                  | w :: ws => String c w :: ws
                  | [] => [String c EmptyString]
                  end
         end.
Proof. reflexivity. Qed.

Lemma split_blank_numeral (w : string) :
  numeral w -> split_blank w = [w].
Proof.
  intros [Hd Hne]. induction w as [|c w IH]; [congruence|].
  simpl in Hd. apply andb_true_iff in Hd as [Hc Hw].
  rewrite split_blank_cons, (digit_not_space c Hc).
  destruct w as [|c' w']; [reflexivity|].
  assert (Hc' : is_digit c' = true).
  { simpl in Hw. now apply andb_true_iff in Hw as [Hc' _]. }
  cbv iota. rewrite (digit_not_space c' Hc').
  rewrite IH by (auto; discriminate). reflexivity.
Qed.

Lemma split_blank_numeral_then (w rest : string) :
  numeral w ->
  split_blank (w ++ String " " rest) = w :: split_blank rest.
Proof.
  intros [Hd Hne]. induction w as [|c w IH]; [congruence|].
  simpl in Hd. apply andb_true_iff in Hd as [Hc Hw].
  change (String c w ++ String " " rest)%string
    with (String c (w ++ String " " rest)).
  rewrite split_blank_cons, (digit_not_space c Hc).
  destruct w as [|c' w'].
  - change ("" ++ String " " rest)%string with (String " " rest).
    change (is_space " ") with true. cbv iota.
    now rewrite (split_blank_cons " " rest).
  - assert (Hc' : is_digit c' = true).
    { simpl in Hw. now apply andb_true_iff in Hw as [Hc' _]. }
    change (String c' w' ++ String " " rest)%string
      with (String c' (w' ++ String " " rest)) in *.
    cbv iota. rewrite (digit_not_space c' Hc').
    rewrite IH by (auto; discriminate). reflexivity.
Qed.

Lemma join_cons (w w' : string) (ws : list string) :
  join " " (w :: w' :: ws) = (w ++ String " " (join " " (w' :: ws)))%string.
Proof. reflexivity. Qed.

Lemma split_blank_join (ws : list string) :
  Forall numeral ws -> split_blank (join " " ws) = ws.
Proof.
  induction 1 as [|w ws Hw Hws IH]; [reflexivity|].
  destruct ws as [|w' ws].
  - now apply split_blank_numeral.
  - rewrite join_cons, split_blank_numeral_then by assumption.
    now rewrite IH.
Qed.

Lemma rmap_int_of_str (l : list Z) :
  Forall (fun n => 0 <= n) l ->
  rmap int_of_str (map str_of_int l) = Ok l.
Proof.
  induction 1 as [|n l Hn Hl IH]; [reflexivity|].
  cbn [map rmap]. rewrite int_of_str_of_int by assumption.
  cbn [rbind]. now rewrite IH.
Qed.

Lemma numerals_of_shape (l : list Z) :
  Forall (fun n => 0 <= n) l -> Forall numeral (map str_of_int l).
Proof.
  induction 1; constructor; auto. now apply str_of_int_is_numeral.
Qed.

End DimSizeFacts.

(** ** The raw data *)

Module RawFacts.
Import CNum.

Definition is_byte (b : Z) : Prop := 0 <= b < 256.

(** A 32-bit pattern. *)
Definition is_word (v : Z) : Prop := 0 <= v < 2 ^ 32.

Lemma le_split_bytes (n : nat) (v : Z) : Forall is_byte (le_split n v).
Proof.
  revert v. induction n as [|n IH]; intros v; simpl; constructor; auto.
  unfold is_byte. apply Z.mod_pos_bound. lia.
Qed.

Lemma le_split_length (n : nat) (v : Z) : List.length (le_split n v) = n.
Proof. revert v. induction n; intros v; simpl; auto. Qed.

Lemma le_combine_split_word (v : Z) :
  is_word v -> le_combine (le_split 4 v) = v.
Proof.
  unfold is_word. intros H. cbn [le_split le_combine].
  change (2 ^ 32) with 4294967296 in H.
  Z.div_mod_to_equations. lia.
Qed.

Lemma bytes_of_string_of_bytes (bs : list Z) :
  Forall is_byte bs -> bytes_of_string (string_of_bytes bs) = bs.
Proof.
  unfold bytes_of_string, string_of_bytes.
  rewrite list_ascii_of_string_of_list_ascii.
  induction 1 as [|b bs Hb Hbs IH]; [reflexivity|].
  simpl. rewrite IH. f_equal.
  rewrite N_ascii_embedding.
  - apply Z2N.id. unfold is_byte in Hb. lia.
  - unfold is_byte in Hb. lia.
Qed.

Lemma string_of_bytes_length (bs : list Z) :
  String.length (string_of_bytes bs) = List.length bs.
Proof.
  unfold string_of_bytes.
  induction bs as [|b bs IH]; simpl; auto.
Qed.

Lemma encode_float_length (v : Z) : List.length (encode_item tc_f v) = 4%nat.
Proof. apply le_split_length. Qed.

Lemma packed_length (vals : list Z) :
  List.length (flat_map (encode_item tc_f) vals) = (4 * List.length vals)%nat.
Proof.
  induction vals as [|v vals IH]; [reflexivity|].
  cbn [flat_map]. rewrite length_app, encode_float_length, IH. simpl. lia.
Qed.

Lemma packed_bytes (vals : list Z) :
  Forall is_byte (flat_map (encode_item tc_f) vals).
Proof.
  induction vals as [|v vals IH]; [constructor|].
  cbn [flat_map]. apply Forall_app. split; [apply le_split_bytes|exact IH].
Qed.

Lemma decode_encode_float (v : Z) :
  is_word v -> decode_item tc_f (encode_item tc_f v) = v.
Proof.
  intros H. unfold decode_item, encode_item. cbn [kind_of_typecode itemsize].
  change (2 ^ (8 * Z.of_nat 4)) with (2 ^ 32).
  rewrite Z.mod_small by exact H. now apply le_combine_split_word.
Qed.

Lemma cut_prefix {A : Type} (l r : list A) (n : nat) :
  List.length l = n -> firstn n (l ++ r) = l /\ skipn n (l ++ r) = r.
Proof.
  intros <-. split.
  - rewrite firstn_app, Nat.sub_diag, firstn_all. simpl. apply app_nil_r.
  - rewrite skipn_app, Nat.sub_diag, skipn_all. reflexivity.
Qed.

Lemma unpack_packed (vals : list Z) :
  Forall is_word vals ->
  unpack_items tc_f (List.length vals) (flat_map (encode_item tc_f) vals) = vals.
Proof.
  induction 1 as [|v vals Hv Hvals IH]; [reflexivity|].
  cbn [List.length unpack_items flat_map].
  destruct (cut_prefix (encode_item tc_f v) (flat_map (encode_item tc_f) vals)
              (itemsize tc_f) (encode_float_length v)) as [-> ->].
  rewrite decode_encode_float by assumption. now rewrite IH.
Qed.

Lemma bytes_of_string_length (s : string) :
  List.length (bytes_of_string s) = String.length s.
Proof.
  unfold bytes_of_string. rewrite length_map.
  induction s as [|c s IH]; simpl; auto.
Qed.

Lemma itemsize_pos (tc : typecode) : (0 < itemsize tc)%nat.
Proof. destruct tc; simpl; lia. Qed.

(** A count that passes the checks on the count. *)
Lemma count_accepted (tc : typecode) (n : nat) :
  Z.of_nat (n * itemsize tc) <= PY_SSIZE_T_MAX ->
  ((Z.of_nat n <? - PY_SSIZE_T_MAX - 1) || (PY_SSIZE_T_MAX <? Z.of_nat n)) = false
  /\ (Z.of_nat n <? 0) = false
  /\ (PY_SSIZE_T_MAX / Z.of_nat (itemsize tc) <? Z.of_nat n) = false
  /\ Z.to_nat (Z.of_nat n * Z.of_nat (itemsize tc)) = (n * itemsize tc)%nat.
Proof.
  intros H. pose proof (itemsize_pos tc) as Hp.
  assert (Hmax : 0 < PY_SSIZE_T_MAX) by reflexivity.
  rewrite Nat2Z.inj_mul in H.
  assert (Hn : Z.of_nat n <= PY_SSIZE_T_MAX) by nia.
  repeat split.
  - apply orb_false_iff. split; [apply Z.ltb_ge|apply Z.ltb_ge]; lia.
  - apply Z.ltb_ge. lia.
  - apply Z.ltb_ge. apply Z.div_le_lower_bound; lia.
  - rewrite <- Nat2Z.inj_mul. apply Nat2Z.id.
Qed.

(** A file that holds the bytes asked for. *)
Lemma array_fromfile_enough (tc : typecode) (contents : string) (n : nat) :
  (n * itemsize tc <= String.length contents)%nat ->
  Z.of_nat (n * itemsize tc) <= PY_SSIZE_T_MAX ->
  array_fromfile tc contents (Z.of_nat n)
  = Ok (unpack_items tc n (firstn (n * itemsize tc) (bytes_of_string contents))).
Proof.
  intros Hlen Hmax. unfold array_fromfile.
  destruct (count_accepted tc n Hmax) as (-> & -> & -> & ->).
  pose proof (itemsize_pos tc) as Hp.
  rewrite length_firstn, bytes_of_string_length, Nat.min_l by exact Hlen.
  rewrite Nat.Div0.mod_mul, Nat.div_mul, !Nat.eqb_refl by lia.
  reflexivity.
Qed.

(** A file that is too short: the bytes that are there decide the error. *)
Lemma array_fromfile_short (tc : typecode) (contents : string) (n : nat) :
  (String.length contents < n * itemsize tc)%nat ->
  Z.of_nat (n * itemsize tc) <= PY_SSIZE_T_MAX ->
  array_fromfile tc contents (Z.of_nat n)
  = Raise (if (String.length contents mod itemsize tc =? 0)%nat
           then EOFError else ValueError).
Proof.
  intros Hlen Hmax. unfold array_fromfile.
  destruct (count_accepted tc n Hmax) as (-> & -> & -> & ->).
  rewrite length_firstn, bytes_of_string_length, Nat.min_r by lia.
  destruct (String.length contents mod itemsize tc =? 0)%nat; cbn [negb];
    [|reflexivity].
  destruct (Nat.eqb_spec (String.length contents) (n * itemsize tc));
    [lia|reflexivity].
Qed.

(** Reading back as floats the file written from floats gives the items. *)
Lemma fromfile_tofile (vals : list Z) :
  Forall is_word vals ->
  4 * Z.of_nat (List.length vals) <= PY_SSIZE_T_MAX ->
  array_fromfile tc_f (array_tofile tc_f vals) (Z.of_nat (List.length vals))
  = Ok vals.
Proof.
  intros H Hmax. unfold array_tofile.
  rewrite array_fromfile_enough.
  - rewrite bytes_of_string_of_bytes by apply packed_bytes.
    change (itemsize tc_f) with 4%nat.
    rewrite firstn_all2 by (rewrite packed_length; lia).
    now rewrite unpack_packed.
  - rewrite string_of_bytes_length, packed_length.
    change (itemsize tc_f) with 4%nat. lia.
  - change (itemsize tc_f) with 4%nat. lia.
Qed.

(** A float that is not a signalling NaN is stored unchanged. *)
Definition quiet (v : Z) : Prop := is_word v /\ is_signalling 23 8 v = false.

Lemma to_c_float_quiet (vals : list Z) :
  Forall quiet vals -> map (to_c_float KFloat32) vals = vals.
Proof.
  induction 1 as [|v vals [_ Hv] Hvals IH]; [reflexivity|].
  simpl. unfold through_double. rewrite Hv. now rewrite IH.
Qed.

End RawFacts.

(** ** Paths *)

Module PathFacts.
Import PyStr PyStrFacts.

Lemma length_append (a b : string) :
  String.length (a ++ b) = (String.length a + String.length b)%nat.
Proof. induction a; simpl; auto. Qed.

Lemma substring_after (a b : string) (n : nat) :
  substring (String.length a) n (a ++ b) = substring 0 n b.
Proof. induction a; simpl; auto. Qed.

(** [(stem + '.mhd')[-4:] == '.mhd'] *)
Lemma last_chars_mhd (stem : string) :
  last_chars 4 (stem ++ ".mhd") = ".mhd".
Proof.
  unfold last_chars. rewrite length_append. simpl String.length.
  rewrite Nat.add_sub. now rewrite substring_after.
Qed.

End PathFacts.

(** ** Shapes *)

(** Reshaping to dimensions that are all given and multiply to the size. *)
Lemma np_reshape_ok (a : ndarray) (dims : list Z) :
  Forall (fun d => 0 <= d) dims ->
  product dims = Z.of_nat (List.length (flat a)) ->
  np_reshape a dims = Ok {| dtype := dtype a; shape := dims; flat := flat a |}.
Proof.
  intros Hpos Hprod. unfold np_reshape.
  assert (E1 : existsb (fun d => d <? -1) dims = false).
  { clear Hprod. induction Hpos as [|d dims Hd Hds IH]; [reflexivity|].
    simpl. rewrite IH. destruct (Z.ltb_spec d (-1)); [lia|reflexivity]. }
  assert (E2 : count_occ Z.eq_dec dims (-1) = 0%nat).
  { apply count_occ_not_In. intros Hin.
    rewrite Forall_forall in Hpos. specialize (Hpos _ Hin). lia. }
  rewrite E1, E2, Hprod, Z.eqb_refl. reflexivity.
Qed.

(** ** Saving *)

Lemma write_mhd_file_run (fs : filesystem) (mhdfile : string) (data : ndarray)
    (dims : list Z) :
  write_mhd_file fs mhdfile data dims
  = (fs, Raise (if String.eqb (PyStr.last_chars 4 mhdfile) ".mhd"
                then KeyError else AssertionError)).
Proof.
  unfold write_mhd_file.
  destruct (String.eqb (PyStr.last_chars 4 mhdfile) ".mhd"); reflexivity.
Qed.

(** C6: a volume saved with [write_mhd_file] and loaded back should be the
    volume that was saved.  Nothing is ever saved.  Line 161 looks up
    [data.dtype], an instance of [numpy.dtype], in [NUMPY_TO_MHD_TYPE], a
    table keyed by scalar classes: for every array, every shape given and
    every path [stem + '.mhd'] the call raises [KeyError] before a file is
    opened.  Loading afterwards gives what the file system held before, and
    [IOError] where there was nothing. *)
Theorem write_mhd_file_saves_nothing (fs : filesystem) (stem : string)
    (data : ndarray) (dims : list Z) :
  let mhdfile := (stem ++ ".mhd")%string in
  write_mhd_file fs mhdfile data dims = (fs, Raise KeyError)
  /\ load_raw_data_with_mhd (fst (write_mhd_file fs mhdfile data dims)) mhdfile
     = load_raw_data_with_mhd fs mhdfile
  /\ load_raw_data_with_mhd (fst (write_mhd_file [] mhdfile data dims)) mhdfile
     = Raise IOError.
Proof.
  intros mhdfile. rewrite !write_mhd_file_run. unfold mhdfile.
  rewrite PathFacts.last_chars_mhd. repeat split.
Qed.

(** * Further properties of the codec *)

(** ** The shape of the lines that the header reader sees *)

Module LineFacts.
Import PyStr PyStrFacts.

(** A newline at a place other than the end. *)
Fixpoint inner_newline (s : string) : bool :=
  match s with
  | EmptyString => false
  | String c EmptyString => false
  | String c s' => Ascii.eqb c newline || inner_newline s'
  end.

Lemma inner_newline_cons (c : ascii) (s : string) :
  inner_newline (String c s)
  = if is_empty s then false else Ascii.eqb c newline || inner_newline s.
Proof. destruct s; reflexivity. Qed.

Lemma inner_newline_tail (c : ascii) (s : string) :
  inner_newline (String c s) = false -> inner_newline s = false.
Proof.
  rewrite inner_newline_cons. destruct s as [|c' s]; [reflexivity|].
  cbn [is_empty]. intros H. now apply orb_false_iff in H as [_ H].
Qed.

(** Text read under universal newlines holds no carriage return. *)
Lemma universal_newlines_no_cr (s : string) :
  contains carriage_return (universal_newlines s) = false.
Proof.
  enough (H : contains carriage_return (universal_newlines s) = false
              /\ forall c, contains carriage_return
                             (universal_newlines (String c s)) = false)
    by apply H.
  induction s as [|a s [IH1 IH2]].
  - split; [reflexivity|]. intros c. simpl.
    destruct (Ascii.eqb c carriage_return) eqn:E; simpl; [reflexivity|].
    now rewrite E.
  - split; [apply IH2|]. intros c.
    change (universal_newlines (String c (String a s)))
      with (if Ascii.eqb c carriage_return then
              if Ascii.eqb a newline then String newline (universal_newlines s)
              else String newline (universal_newlines (String a s))
            else String c (universal_newlines (String a s))).
    destruct (Ascii.eqb c carriage_return) eqn:E.
    + destruct (Ascii.eqb a newline); cbn [contains].
      * rewrite IH1. reflexivity.
      * rewrite IH2. reflexivity.
    + cbn [contains]. rewrite E, IH2. reflexivity.
Qed.

(** A prefix without carriage return is read as it is. *)
Lemma universal_newlines_app (p r : string) :
  contains carriage_return p = false ->
  universal_newlines (p ++ r) = (p ++ universal_newlines r)%string.
Proof.
  induction p as [|c p IH]; intros H; [reflexivity|].
  cbn [contains] in H. apply orb_false_iff in H as [Hc Hp].
  change (String c p ++ r)%string with (String c (p ++ r)%string).
  cbn [universal_newlines]. rewrite Hc, (IH Hp). reflexivity.
Qed.

(** What holds of a line that [readline] returns. *)
Definition line_ok (l : string) : Prop :=
  contains carriage_return l = false /\ inner_newline l = false.

Lemma readlines_ok (s : string) :
  contains carriage_return s = false -> Forall line_ok (readlines s).
Proof.
  induction s as [|c s IH]; intros H; [constructor|].
  cbn [contains] in H. apply orb_false_iff in H as [Hc Hs].
  specialize (IH Hs). cbn [readlines].
  destruct (Ascii.eqb c newline) eqn:E.
  - constructor; [|exact IH]. split; [|reflexivity].
    cbn [contains]. now rewrite Hc.
  - destruct (readlines s) as [|l ls].
    + constructor; [|constructor]. split; [|reflexivity].
      cbn [contains]. now rewrite Hc.
    + inversion IH as [|? ? [Hl1 Hl2] Hls]; subst.
      constructor; [|exact Hls]. split.
      * cbn [contains]. now rewrite Hc, Hl1.
      * rewrite inner_newline_cons, E, Hl2. now destruct (is_empty l).
Qed.

(** What holds of a piece of such a line cut at [=]. *)
Definition piece_ok (p : string) : Prop :=
  contains "=" p = false /\ contains carriage_return p = false
  /\ inner_newline p = false.

Lemma split_ok (l : string) :
  line_ok l -> Forall piece_ok (split "=" l).
Proof.
  induction l as [|c l IH]; intros [H1 H2].
  - repeat constructor.
  - cbn [contains] in H1. apply orb_false_iff in H1 as [Hc Hl].
    assert (IH' : Forall piece_ok (split "=" l))
      by (apply IH; split; [exact Hl|now apply inner_newline_tail in H2]).
    cbn [split]. destruct (Ascii.eqb c "=") eqn:E.
    + constructor; [repeat split|exact IH'].
    + destruct (split "=" l) as [|w ws] eqn:Ew.
      * constructor; [|constructor]. repeat split.
        -- cbn [contains]. now rewrite E.
        -- cbn [contains]. now rewrite Hc.
      * inversion IH' as [|? ? (Hw1 & Hw2 & Hw3) Hws]; subst.
        constructor; [|exact Hws]. repeat split.
        -- cbn [contains]. now rewrite E, Hw1.
        -- cbn [contains]. now rewrite Hc, Hw2.
        -- rewrite inner_newline_cons. destruct w as [|cw w]; [reflexivity|].
           cbn [is_empty]. rewrite Hw3, orb_false_r.
           destruct l as [|cl l]; [discriminate Ew|].
           rewrite inner_newline_cons in H2. cbn [is_empty] in H2.
           now apply orb_false_iff in H2 as [H2 _].
Qed.

Lemma contains_lstrip c (s : string) :
  contains c s = false -> contains c (lstrip s) = false.
Proof.
  induction s as [|a s IH]; intros H; [reflexivity|].
  cbn [lstrip]. destruct (is_space a); [|exact H].
  cbn [contains] in H. apply orb_false_iff in H as [_ H]. auto.
Qed.

Lemma contains_rstrip c (s : string) :
  contains c s = false -> contains c (rstrip s) = false.
Proof.
  induction s as [|a s IH]; intros H; [reflexivity|].
  cbn [contains] in H. apply orb_false_iff in H as [Ha Hs].
  cbn [rstrip]. cbv zeta.
  destruct (is_space a && is_empty (rstrip s)); [reflexivity|].
  cbn [contains]. now rewrite Ha, IH.
Qed.

Lemma inner_newline_lstrip (s : string) :
  inner_newline s = false -> inner_newline (lstrip s) = false.
Proof.
  induction s as [|a s IH]; intros H; [reflexivity|].
  cbn [lstrip]. destruct (is_space a); [|exact H].
  apply IH. now apply inner_newline_tail in H.
Qed.

Lemma first_is_space_lstrip (s : string) : first_is_space (lstrip s) = false.
Proof.
  induction s as [|a s IH]; [reflexivity|].
  cbn [lstrip]. destruct (is_space a) eqn:E; [exact IH|]. exact E.
Qed.

Lemma first_is_space_rstrip (s : string) :
  first_is_space s = false -> first_is_space (rstrip s) = false.
Proof.
  destruct s as [|a s]; intros H; [reflexivity|].
  cbn [rstrip]. cbv zeta.
  destruct (is_space a && is_empty (rstrip s)); [reflexivity|exact H].
Qed.

Lemma last_is_space_rstrip (s : string) : last_is_space (rstrip s) = false.
Proof.
  induction s as [|a s IH]; [reflexivity|].
  cbn [rstrip]. cbv zeta.
  destruct (rstrip s) as [|b r] eqn:Er.
  - cbn [is_empty]. rewrite andb_true_r.
    destruct (is_space a) eqn:E; [reflexivity|]. simpl. exact E.
  - cbn [is_empty]. rewrite andb_false_r. exact IH.
Qed.

(** Once the blanks at the end are gone, a string whose only newline was its
    last character holds none. *)
Lemma newline_rstrip (s : string) :
  inner_newline s = false -> contains newline (rstrip s) = false.
Proof.
  induction s as [|a s IH]; intros H; [reflexivity|].
  cbn [rstrip]. cbv zeta.
  rewrite inner_newline_cons in H.
  destruct s as [|b s].
  - simpl. destruct (Ascii.eqb a newline) eqn:E.
    + apply Ascii.eqb_eq in E. subst a. reflexivity.
    + destruct (is_space a); simpl; [reflexivity|]. now rewrite E.
  - cbn [is_empty] in H. apply orb_false_iff in H as [Ha Hs].
    destruct (is_space a && is_empty (rstrip (String b s))); [reflexivity|].
    cbn [contains]. now rewrite Ha, IH.
Qed.

(** The value kept for a tag is clean. *)
Lemma strip_clean (p : string) : piece_ok p -> clean_value (strip p) = true.
Proof.
  intros (H1 & H2 & H3). unfold clean_value, strip.
  rewrite contains_rstrip by now apply contains_lstrip.
  rewrite newline_rstrip by now apply inner_newline_lstrip.
  rewrite contains_rstrip by now apply contains_lstrip.
  rewrite first_is_space_rstrip by apply first_is_space_lstrip.
  now rewrite last_is_space_rstrip.
Qed.

End LineFacts.

(** ** What the header reader keeps *)

Lemma dict_keys_set {V : Type} (d : dict string V) (k : string) (v : V) :
  dict_keys (dict_set String.eqb d k v)
  = if dict_mem String.eqb d k then dict_keys d else dict_keys d ++ [k].
Proof.
  unfold dict_mem. induction d as [|[k0 v0] d IH]; [reflexivity|].
  cbn [dict_set dict_get]. destruct (String.eqb k0 k); [reflexivity|].
  cbn [dict_keys map fst]. fold (dict_keys (dict_set String.eqb d k v)).
  rewrite IH. now destruct (dict_get String.eqb d k).
Qed.

Lemma dict_mem_keys {V : Type} (d : dict string V) (k : string) :
  dict_mem String.eqb d k = false -> ~ In k (dict_keys d).
Proof.
  unfold dict_mem. induction d as [|[k0 v0] d IH]; [simpl; tauto|].
  cbn [dict_get dict_keys map fst].
  destruct (String.eqb_spec k0 k); [discriminate|].
  intros H [E|Hin]; [auto|]. now apply IH.
Qed.

Opaque MHD_TAGS.

(** A property of the dictionary that every assignment of the loop keeps is
    kept by the loop over the tags ... *)
Lemma scan_tags_invariant (P : meta_header -> Prop) (tags : list string) :
  (forall meta tag v,
     P meta -> In tag MHD_TAGS -> nth_error tags 1 = Some v ->
     P (dict_set String.eqb meta tag (PyStr.strip v))) ->
  forall rest i st st',
    incl rest MHD_TAGS -> P (fst st) ->
    scan_tags rest i tags st = Ok st' -> P (fst st').
Proof.
  intros Hstep. induction rest as [|tag rest IH]; intros i [meta flags] st' Hin HP H.
  - simpl in H. inversion H; subst. exact HP.
  - cbn [scan_tags] in H.
    destruct (String.eqb (PyStr.strip (nth 0 tags "")) tag
              && negb (nth i flags false)).
    + destruct (nth_error tags 1) as [v|] eqn:Ev; [|discriminate H].
      cbn [rbind] in H. eapply IH; [| |exact H].
      * intros x Hx. apply Hin. now right.
      * cbn [fst]. apply Hstep; auto. apply Hin. now left.
    + cbn [rbind] in H. eapply IH; [| |exact H]; auto.
      intros x Hx. apply Hin. now right.
Qed.

(** ... and by the loop over the lines. *)
Lemma scan_lines_invariant (P : meta_header -> Prop) (lines : list string) :
  (forall line meta tag v,
     In line lines -> P meta -> In tag MHD_TAGS ->
     nth_error (PyStr.split "=" line) 1 = Some v ->
     P (dict_set String.eqb meta tag (PyStr.strip v))) ->
  forall st st', P (fst st) -> scan_lines lines st = Ok st' -> P (fst st').
Proof.
  induction lines as [|line lines IH]; intros Hstep st st' HP H.
  - simpl in H. inversion H; subst. exact HP.
  - cbn [scan_lines] in H.
    destruct (scan_tags MHD_TAGS 0 (PyStr.split "=" line) st) as [st1|e] eqn:E;
      [|discriminate H].
    cbn [rbind] in H. eapply IH; [| |exact H].
    + intros l meta tag v Hl. apply Hstep. now right.
    + eapply scan_tags_invariant; [| |exact HP|exact E].
      * intros meta tag v. apply Hstep. now left.
      * apply incl_refl.
Qed.

(** The keys are schema tags, each held once. *)
Definition keys_in_schema (meta : meta_header) : Prop :=
  NoDup (dict_keys meta) /\ incl (dict_keys meta) MHD_TAGS.

Lemma keys_in_schema_set (meta : meta_header) (tag v : string) :
  keys_in_schema meta -> In tag MHD_TAGS ->
  keys_in_schema (dict_set String.eqb meta tag v).
Proof.
  intros [Hnd Hin] Ht. unfold keys_in_schema. rewrite dict_keys_set.
  destruct (dict_mem String.eqb meta tag) eqn:E; [now split|]. split.
  - apply NoDup_app; [exact Hnd|repeat constructor; simpl; tauto|].
    intros x Hx [<-|[]]. now apply dict_mem_keys in E.
  - intros x Hx. apply in_app_or in Hx as [Hx|[<-|[]]]; auto.
Qed.

(** The values are clean. *)
Definition values_clean (meta : meta_header) : Prop :=
  forall k v, dict_get String.eqb meta k = Some v ->
              PyStrFacts.clean_value v = true.

Lemma values_clean_set (meta : meta_header) (tag v : string) :
  values_clean meta -> PyStrFacts.clean_value v = true ->
  values_clean (dict_set String.eqb meta tag v).
Proof.
  intros Hm Hv k x. destruct (String.eqb_spec tag k) as [->|Hne].
  - rewrite dict_get_set_same. now intros [= <-].
  - rewrite dict_get_set_other by exact Hne. apply Hm.
Qed.

Lemma read_meta_header_state (fs : filesystem) (filename : string)
    (d : meta_header) :
  read_meta_header fs filename = Ok d -> keys_in_schema d /\ values_clean d.
Proof.
  unfold read_meta_header. intros H.
  destruct (fs_read fs filename) as [contents|e]; [|discriminate H].
  cbn [rbind] in H.
  destruct (scan_lines (PyStr.readlines (PyStr.universal_newlines contents))
                       ([], repeat false (List.length MHD_TAGS)))
    as [st|e] eqn:E; [|discriminate H].
  cbn [rbind] in H. inversion H; subst d. clear H.
  assert (Hlines := LineFacts.readlines_ok _
                      (LineFacts.universal_newlines_no_cr contents)).
  rewrite Forall_forall in Hlines.
  eapply (scan_lines_invariant (fun m => keys_in_schema m /\ values_clean m));
    [| |exact E].
  - intros line meta tag v Hline [Hk Hv] Htag Hnth. split.
    + now apply keys_in_schema_set.
    + apply values_clean_set; [exact Hv|].
      apply LineFacts.strip_clean.
      pose proof (LineFacts.split_ok line (Hlines line Hline)) as Hp.
      rewrite Forall_forall in Hp. apply Hp.
      eapply nth_error_In; eauto.
  - split.
    + split; [constructor|intros x []].
    + intros k v. discriminate.
Qed.

Transparent MHD_TAGS.

(** X1: Whatever the file holds, a header that [read_meta_header] returns
    has schema tags only as keys, each at most once, so at most as many
    entries as the schema has tags. *)
Theorem read_meta_header_keys (fs : filesystem) (filename : string)
    (d : meta_header) :
  read_meta_header fs filename = Ok d ->
  NoDup (dict_keys d)
  /\ (forall k, In k (dict_keys d) -> In k MHD_TAGS)
  /\ (List.length d <= List.length MHD_TAGS)%nat.
Proof.
  intros H. apply read_meta_header_state in H as [[Hnd Hin] _].
  split; [exact Hnd|]. split; [exact Hin|].
  unfold dict_keys in *. rewrite <- (length_map fst d).
  now apply NoDup_incl_length.
Qed.

Lemma read_meta_header_keys_witness :
  let fs := [("a.mhd", "NDims = 3
Colour = red
NDims = 2
")] in
  read_meta_header fs "a.mhd" = Ok [("NDims", "3")]
  /\ NoDup (dict_keys [("NDims", "3")])
  /\ (forall k, In k (dict_keys [("NDims", "3")]) -> In k MHD_TAGS)
  /\ (List.length [("NDims", "3")] <= List.length MHD_TAGS)%nat.
Proof.
  intros fs. split; [reflexivity|].
  exact (read_meta_header_keys fs "a.mhd" [("NDims", "3")] eq_refl).
Defined.

(** X2: Every value of a header that [read_meta_header] returns is free of
    [=], of line breaks and of blanks at its ends; so the header is a fixed
    point of the codec: written out and read again, it binds every key to
    the same value. *)
Theorem read_meta_header_normal (fs : filesystem) (filename : string)
    (d : meta_header) :
  read_meta_header fs filename = Ok d ->
  (forall k v, dict_get String.eqb d k = Some v ->
               PyStrFacts.clean_value v = true)
  /\ forall fs' filename',
       exists d',
         read_meta_header (write_meta_header fs' filename' d) filename' = Ok d'
         /\ forall k, dict_get String.eqb d' k = dict_get String.eqb d k.
Proof.
  intros H. apply read_meta_header_state in H as [[Hnd Hin] Hclean].
  split; [exact Hclean|]. intros fs' filename'.
  exists (schema_entries MHD_TAGS d). split.
  - apply read_header_text.
    + intros tag v _. apply Hclean.
    + unfold fs_read, write_meta_header, fs_write.
      now rewrite dict_get_set_same.
  - intros k. rewrite dict_get_schema_entries.
    destruct (existsb (String.eqb k) MHD_TAGS) eqn:E; [reflexivity|].
    symmetry. apply dict_get_not_key. intros Hk. apply Hin in Hk.
    assert (X : existsb (String.eqb k) MHD_TAGS = true).
    { apply existsb_exists. exists k. split; [exact Hk|apply String.eqb_refl]. }
    congruence.
Qed.

Lemma read_meta_header_normal_witness :
  let fs := [("a.mhd", "Comment =  a = b
NDims=3")] in
  let d := [("Comment", "a"); ("NDims", "3")] in
  read_meta_header fs "a.mhd" = Ok d
  /\ (forall k v, dict_get String.eqb d k = Some v ->
                  PyStrFacts.clean_value v = true)
  /\ forall fs' filename',
       exists d',
         read_meta_header (write_meta_header fs' filename' d) filename' = Ok d'
         /\ forall k, dict_get String.eqb d' k = dict_get String.eqb d k.
Proof.
  intros fs d. split; [reflexivity|].
  exact (read_meta_header_normal fs "a.mhd" d eq_refl).
Defined.

(** ** Lines that are skipped, repeated or cut short *)

(** The key of a line: the text before its first [=], stripped. *)
Definition line_key (line : string) : string :=
  PyStr.strip (nth 0 (PyStr.split "=" line) "").

Lemma set_flag_keeps (i q : nat) (flags : list bool) :
  nth q flags false = true -> nth q (set_flag i flags) false = true.
Proof.
  revert i q. induction flags as [|b flags IH]; intros i q H.
  - destruct i; exact H.
  - destruct i, q; simpl in *; auto.
Qed.

Lemma set_flag_sets (i : nat) (flags : list bool) :
  (i < List.length flags)%nat -> nth i (set_flag i flags) false = true.
Proof.
  revert i. induction flags as [|b flags IH]; intros i H; simpl in H; [lia|].
  destruct i; simpl; [reflexivity|]. apply IH. lia.
Qed.

Opaque MHD_TAGS.

(** Once a tag is bound and its flag is set, a line leaves the binding alone. *)
Lemma scan_tags_keeps_binding (t v : string) (tags : list string) :
  forall rest i meta flags st',
    (forall p, nth_error rest p = Some t -> nth (i + p) flags false = true) ->
    dict_get String.eqb meta t = Some v ->
    scan_tags rest i tags (meta, flags) = Ok st' ->
    dict_get String.eqb (fst st') t = Some v
    /\ forall q, nth q flags false = true -> nth q (snd st') false = true.
Proof.
  induction rest as [|tag rest IH]; intros i meta flags st' Hflag Hget H.
  - simpl in H. inversion H; subst. auto.
  - cbn [scan_tags] in H.
    destruct (String.eqb (PyStr.strip (nth 0 tags "")) tag
              && negb (nth i flags false)) eqn:C.
    + apply andb_true_iff in C as [_ C]. apply negb_true_iff in C.
      destruct (nth_error tags 1) as [x|]; [|discriminate H].
      cbn [rbind] in H.
      assert (Hne : tag <> t).
      { intros ->. specialize (Hflag 0%nat eq_refl).
        rewrite Nat.add_0_r in Hflag. congruence. }
      apply IH in H as [H1 H2].
      * split; [exact H1|]. intros q Hq. apply H2. now apply set_flag_keeps.
      * intros p Hp. apply set_flag_keeps.
        replace (S i + p)%nat with (i + S p)%nat by lia. now apply Hflag.
      * now rewrite dict_get_set_other.
    + cbn [rbind] in H. apply IH in H; auto.
      intros p Hp. replace (S i + p)%nat with (i + S p)%nat by lia.
      now apply Hflag.
Qed.

Lemma scan_lines_keeps_binding (t v : string) (lines : list string) :
  forall meta flags st',
    (forall p, nth_error MHD_TAGS p = Some t -> nth p flags false = true) ->
    dict_get String.eqb meta t = Some v ->
    scan_lines lines (meta, flags) = Ok st' ->
    dict_get String.eqb (fst st') t = Some v.
Proof.
  induction lines as [|line lines IH]; intros meta flags st' Hflag Hget H.
  - simpl in H. inversion H; subst. exact Hget.
  - cbn [scan_lines] in H.
    destruct (scan_tags MHD_TAGS 0 (PyStr.split "=" line) (meta, flags))
      as [[meta1 flags1]|e] eqn:E; [|discriminate H].
    cbn [rbind] in H.
    apply (scan_tags_keeps_binding t v) in E as [E1 E2]; auto.
    eapply IH; [|exact E1|exact H].
    intros p Hp. apply E2. auto.
Qed.

(** A line whose only piece is a schema tag not seen so far. *)
Lemma scan_tags_no_value (pre : list string) (t : string) (post : list string)
    (i : nat) (k : string) (meta : meta_header) (flags : list bool) :
  PyStr.strip k = t -> ~ In t pre ->
  nth (i + List.length pre) flags false = false ->
  scan_tags (pre ++ t :: post) i [k] (meta, flags) = Raise IndexError.
Proof.
  intros Hk. revert i. induction pre as [|p pre IH]; intros i Hpre Hflag.
  - simpl in *. rewrite Nat.add_0_r in *.
    now rewrite Hk, String.eqb_refl, Hflag.
  - simpl. rewrite Hk.
    destruct (String.eqb_spec t p) as [E|E].
    + exfalso. apply Hpre. left. now symmetry.
    + simpl. simpl List.length in Hflag.
      replace (i + S (List.length pre))%nat with (S i + List.length pre)%nat in * by lia.
      apply IH; auto. intros Hin. apply Hpre. now right.
Qed.

Lemma nth_repeat_false (n p : nat) : nth p (repeat false n) false = false.
Proof. revert p. induction n; intros [|p]; simpl; auto. Qed.

Lemma first_line (l rest : string) :
  PyStr.contains PyStr.newline l = false ->
  PyStr.contains PyStr.carriage_return l = false ->
  PyStr.readlines (PyStr.universal_newlines (l ++ String PyStr.newline rest))
  = (l ++ String PyStr.newline "")%string
    :: PyStr.readlines (PyStr.universal_newlines rest).
Proof.
  intros Hn Hc.
  replace (l ++ String PyStr.newline rest)%string
    with ((l ++ String PyStr.newline "") ++ rest)%string
    by (now rewrite PyStrFacts.append_assoc).
  rewrite LineFacts.universal_newlines_app.
  - rewrite PyStrFacts.append_assoc. cbn [append].
    now apply PyStrFacts.readlines_line.
  - rewrite PyStrFacts.contains_append, Hc. reflexivity.
Qed.

(** X3: A line whose key is no schema tag changes nothing: the header read
    from the text with the line in front is the header read from the rest.
    So comments, unknown keys and blank lines are passed over in silence. *)
Theorem read_meta_header_skips_line (fs fs' : filesystem)
    (filename filename' l rest : string) :
  PyStr.contains PyStr.newline l = false ->
  PyStr.contains PyStr.carriage_return l = false ->
  ~ In (line_key (l ++ String PyStr.newline "")) MHD_TAGS ->
  fs_read fs filename = Ok (l ++ String PyStr.newline rest)%string ->
  fs_read fs' filename' = Ok rest ->
  read_meta_header fs filename = read_meta_header fs' filename'.
Proof.
  intros Hn Hc Hkey Hread Hread'. unfold read_meta_header.
  rewrite Hread, Hread'. cbn [rbind].
  rewrite first_line by assumption. cbn [scan_lines].
  rewrite scan_tags_miss by exact Hkey. reflexivity.
Qed.

(** X4: The first line that names a tag decides its value: whatever follows
    the line written for a tag and a clean value, a header that is read
    binds the tag to that value. *)
Theorem read_meta_header_first_wins (fs : filesystem)
    (filename t v rest : string) (d : meta_header) :
  In t MHD_TAGS -> PyStrFacts.clean_value v = true ->
  fs_read fs filename = Ok (format_entry t v ++ rest)%string ->
  read_meta_header fs filename = Ok d ->
  dict_get String.eqb d t = Some v.
Proof.
  intros Hin Hv Hread. unfold read_meta_header. rewrite Hread. cbn [rbind].
  assert (Ht : PyStrFacts.clean_value t = true).
  { pose proof MHD_TAGS_clean as Hc. rewrite forallb_forall in Hc. auto. }
  pose proof Ht as Ht'. pose proof Hv as Hv'.
  apply PyStrFacts.clean_value_spec in Ht' as (_ & _ & Ht3 & _).
  apply PyStrFacts.clean_value_spec in Hv' as (_ & _ & Hv3 & _).
  rewrite LineFacts.universal_newlines_app
    by (unfold format_entry;
        rewrite !PyStrFacts.contains_append, Ht3, Hv3; reflexivity).
  rewrite readlines_entry by assumption. cbn [scan_lines].
  destruct (split_entry_line t v Ht Hv) as (k & w & Hsplit & Hk & Hw).
  rewrite Hsplit.
  destruct (in_split _ _ Hin) as (pre & post & Hall).
  assert (Hnd := MHD_TAGS_NoDup). rewrite Hall in Hnd.
  pose proof (NoDup_remove_2 _ _ _ Hnd) as Hnot.
  assert (Hpre : ~ In t pre) by (intros X; apply Hnot, in_or_app; now left).
  assert (Hpost : ~ In t post) by (intros X; apply Hnot, in_or_app; now right).
  rewrite Hall at 1.
  rewrite (scan_tags_hit pre t post 0 k w) by (auto using nth_repeat_false).
  cbn [rbind]. rewrite Hw. intros H.
  destruct (scan_lines _ _) as [st|e] eqn:E in H; [|discriminate H].
  cbn [rbind] in H. inversion H; subst d. clear H.
  eapply scan_lines_keeps_binding; [| |exact E].
  - intros p Hp. rewrite Hall in Hp.
    assert (p = List.length pre) as ->.
    { rewrite NoDup_nth_error in Hnd.
      apply Hnd.
      - apply nth_error_Some. congruence.
      - rewrite Hp. symmetry. now rewrite nth_error_app2, Nat.sub_diag by lia. }
    apply set_flag_sets. rewrite repeat_length, Hall, length_app. simpl. lia.
  - apply dict_get_set_same.
Qed.

(** X5: A first line that holds a schema tag and no [=] stops the reader:
    the value is looked up in the second piece of the line, and there is
    none. *)
Theorem read_meta_header_tag_without_value (fs : filesystem)
    (filename l rest : string) :
  PyStr.contains "=" l = false ->
  PyStr.contains PyStr.newline l = false ->
  PyStr.contains PyStr.carriage_return l = false ->
  In (line_key (l ++ String PyStr.newline "")) MHD_TAGS ->
  fs_read fs filename = Ok (l ++ String PyStr.newline rest)%string ->
  read_meta_header fs filename = Raise IndexError.
Proof.
  intros He Hn Hc Hkey Hread. unfold read_meta_header.
  rewrite Hread. cbn [rbind].
  rewrite first_line by assumption. cbn [scan_lines].
  unfold line_key in Hkey.
  rewrite PyStrFacts.split_none in *
    by (rewrite PyStrFacts.contains_append, He; reflexivity).
  cbn [nth] in Hkey.
  destruct (in_split _ _ Hkey) as (pre & post & Hall).
  assert (Hnd := MHD_TAGS_NoDup). rewrite Hall in Hnd.
  pose proof (NoDup_remove_2 _ _ _ Hnd) as Hnot.
  rewrite Hall at 1.
  rewrite scan_tags_no_value; auto using nth_repeat_false.
  intros X. apply Hnot, in_or_app. now left.
Qed.

Transparent MHD_TAGS.

Lemma not_in_tags (k : string) (tags : list string) :
  existsb (String.eqb k) tags = false -> ~ In k tags.
Proof.
  intros H Hin.
  assert (X : existsb (String.eqb k) tags = true).
  { apply existsb_exists. exists k. split; [exact Hin|apply String.eqb_refl]. }
  congruence.
Qed.

Lemma in_tags (k : string) (tags : list string) :
  existsb (String.eqb k) tags = true -> In k tags.
Proof.
  intros H. apply existsb_exists in H as (x & Hx & E).
  apply String.eqb_eq in E. now subst.
Qed.

Lemma read_meta_header_skips_line_witness :
  let rest := "NDims = 3
" in
  let fs := [("a.mhd", ("# size = 7" ++ String PyStr.newline rest)%string)] in
  let fs' := [("b.mhd", rest)] in
  ~ In (line_key ("# size = 7" ++ String PyStr.newline "")) MHD_TAGS
  /\ read_meta_header fs "a.mhd" = read_meta_header fs' "b.mhd".
Proof.
  intros rest fs fs'.
  assert (H : ~ In (line_key ("# size = 7" ++ String PyStr.newline "")) MHD_TAGS)
    by (apply not_in_tags; reflexivity).
  split; [exact H|].
  exact (read_meta_header_skips_line fs fs' "a.mhd" "b.mhd" "# size = 7" rest
           eq_refl eq_refl H eq_refl eq_refl).
Defined.

Lemma read_meta_header_first_wins_witness :
  let fs := [("a.mhd", (format_entry "NDims" "3" ++ "NDims = 2
DimSize = 4 5
")%string)] in
  let d := [("NDims", "3"); ("DimSize", "4 5")] in
  read_meta_header fs "a.mhd" = Ok d
  /\ dict_get String.eqb d "NDims" = Some "3".
Proof.
  intros fs d. split; [reflexivity|].
  exact (read_meta_header_first_wins fs "a.mhd" "NDims" "3" _ d
           (in_tags "NDims" MHD_TAGS eq_refl) eq_refl eq_refl eq_refl).
Defined.

Lemma read_meta_header_tag_without_value_witness :
  let fs := [("a.mhd", ("  Comment " ++ String PyStr.newline "NDims = 3")%string)] in
  In (line_key ("  Comment " ++ String PyStr.newline "")) MHD_TAGS
  /\ read_meta_header fs "a.mhd" = Raise IndexError.
Proof.
  intros fs.
  assert (H : In (line_key ("  Comment " ++ String PyStr.newline "")) MHD_TAGS)
    by (apply in_tags; reflexivity).
  split; [exact H|].
  exact (read_meta_header_tag_without_value fs "a.mhd" "  Comment " "NDims = 3"
           eq_refl eq_refl eq_refl H eq_refl).
Defined.

(** ** Lines in any order *)

(** The flag of a tag that is among the keys read so far. *)
Definition seen (done : list (string * string)) (tag : string) : bool :=
  existsb (String.eqb tag) (dict_keys done).

Lemma seen_not_key (done : list (string * string)) (t : string) :
  ~ In t (dict_keys done) -> seen done t = false.
Proof.
  intros H. unfold seen. destruct (existsb _ _) eqn:E; [|reflexivity].
  apply existsb_exists in E as (x & Hx & Heq).
  apply String.eqb_eq in Heq. now subst.
Qed.

Lemma seen_snoc (done : list (string * string)) (t v x : string) :
  seen (done ++ [(t, v)]) x = seen done x || String.eqb x t.
Proof.
  unfold seen, dict_keys. rewrite map_app, existsb_app. cbn [map existsb fst].
  now rewrite orb_false_r.
Qed.

Lemma repeat_false_map {A : Type} (l : list A) :
  repeat false (List.length l) = map (fun _ => false) l.
Proof. induction l; simpl; congruence. Qed.

Opaque MHD_TAGS.

Lemma scan_lines_any_order (todo done : list (string * string)) :
  NoDup (dict_keys (done ++ todo)) ->
  (forall t v, In (t, v) todo ->
     In t MHD_TAGS /\ PyStrFacts.clean_value v = true) ->
  scan_lines (PyStr.readlines (entry_lines todo))
             (done, map (seen done) MHD_TAGS)
  = Ok (done ++ todo, map (seen (done ++ todo)) MHD_TAGS).
Proof.
  revert done. induction todo as [|[t v] todo IH]; intros done Hnd Hin.
  - simpl. now rewrite app_nil_r.
  - destruct (Hin t v (or_introl eq_refl)) as [Ht Hv].
    assert (Htc : PyStrFacts.clean_value t = true).
    { pose proof MHD_TAGS_clean as Hc. rewrite forallb_forall in Hc. auto. }
    cbn [entry_lines]. rewrite readlines_entry by assumption.
    cbn [scan_lines].
    destruct (split_entry_line t v Htc Hv) as (k & w & Hsplit & Hk & Hw).
    rewrite Hsplit.
    destruct (in_split _ _ Ht) as (pre & post & Hall).
    assert (Htags := MHD_TAGS_NoDup). rewrite Hall in Htags.
    pose proof (NoDup_remove_2 _ _ _ Htags) as Hnot.
    assert (Hpre : ~ In t pre) by (intros X; apply Hnot, in_or_app; now left).
    assert (Hpost : ~ In t post) by (intros X; apply Hnot, in_or_app; now right).
    assert (Hfresh : ~ In t (dict_keys done)).
    { unfold dict_keys in *. rewrite map_app in Hnd. cbn [map fst] in Hnd.
      apply NoDup_remove_2 in Hnd. intros X. apply Hnd, in_or_app. now left. }
    assert (Hstep : scan_tags MHD_TAGS 0 [k; w] (done, map (seen done) MHD_TAGS)
                    = Ok (done ++ [(t, v)],
                          map (seen (done ++ [(t, v)])) MHD_TAGS)).
    { rewrite Hall.
      rewrite (scan_tags_hit pre t post 0 k w); auto.
      - rewrite Hw. cbn [Nat.add]. f_equal. f_equal.
        + apply dict_set_fresh. now apply dict_get_not_key.
        + rewrite !map_app. cbn [map].
          rewrite <- (length_map (seen done) pre), set_flag_middle.
          rewrite seen_snoc, String.eqb_refl, orb_true_r.
          f_equal; [|f_equal]; apply map_ext_in; intros x Hx;
            rewrite seen_snoc;
            (destruct (String.eqb_spec x t) as [->|_];
             [contradiction|now rewrite orb_false_r]).
      - cbn [Nat.add]. rewrite map_app. cbn [map].
        rewrite <- (length_map (seen done) pre), nth_middle_flag.
        now apply seen_not_key. }
    rewrite Hstep. cbn [rbind].
    rewrite IH.
    + now rewrite <- app_assoc.
    + now rewrite <- app_assoc.
    + intros t' v' H'. apply Hin. now right.
Qed.

(** X6: The lines of a header may come in any order.  For entries with
    distinct schema tags and clean values, whatever their order, reading the
    text that holds one [tag = value] line per entry gives back exactly
    these entries, in the order of the lines. *)
Theorem read_meta_header_any_order (fs : filesystem) (filename : string)
    (entries : list (string * string)) :
  NoDup (dict_keys entries) ->
  (forall t v, In (t, v) entries ->
     In t MHD_TAGS /\ PyStrFacts.clean_value v = true) ->
  fs_read fs filename = Ok (entry_lines entries) ->
  read_meta_header fs filename = Ok entries.
Proof.
  intros Hnd Hin Hread. unfold read_meta_header. rewrite Hread. cbn [rbind].
  rewrite PyStrFacts.universal_newlines_id.
  - rewrite repeat_false_map.
    change (map (fun _ : string => false) MHD_TAGS)
      with (map (seen []) MHD_TAGS).
    rewrite (scan_lines_any_order entries [] Hnd Hin). reflexivity.
  - apply entry_lines_no_cr. intros t v H. destruct (Hin t v H) as [Ht Hv].
    split; [|exact Hv].
    pose proof MHD_TAGS_clean as Hc. rewrite forallb_forall in Hc. auto.
Qed.

Transparent MHD_TAGS.

Lemma read_meta_header_any_order_witness :
  let entries := [("DimSize", "4 5"); ("NDims", "2"); ("ObjectType", "Image")] in
  let fs := [("a.mhd", "DimSize = 4 5
NDims = 2
ObjectType = Image
")] in
  read_meta_header fs "a.mhd" = Ok entries.
Proof.
  intros entries fs.
  apply (read_meta_header_any_order fs "a.mhd" entries).
  - repeat constructor; simpl; intuition discriminate.
  - intros t v [H|[H|[H|[]]]]; inversion H; subst;
      (split; [apply in_tags; reflexivity|reflexivity]).
  - reflexivity.
Defined.

(** ** The array that the loader returns *)

Lemma fold_left_mul (l : list Z) (a : Z) : fold_left Z.mul l a = a * product l.
Proof.
  unfold product. revert a. induction l as [|d l IH]; intros a; cbn [fold_left].
  - ring.
  - rewrite (IH (a * d)), (IH (1 * d)). ring.
Qed.

Lemma product_cons (d : Z) (l : list Z) : product (d :: l) = d * product l.
Proof. unfold product at 1. cbn [fold_left]. rewrite fold_left_mul. ring. Qed.

Lemma product_nonneg (l : list Z) :
  Forall (fun d => 0 <= d) l -> 0 <= product l.
Proof.
  induction 1 as [|d l Hd Hl IH]; [unfold product; simpl; lia|].
  rewrite product_cons. nia.
Qed.

(** The product of the dimensions once the one given as [-1] is filled in. *)
Lemma product_infer (q : Z) (dims : list Z) :
  product (map (fun d => if d =? -1 then q else d) dims)
  = product (filter (fun d => negb (d =? -1)) dims)
    * q ^ Z.of_nat (count_occ Z.eq_dec dims (-1)).
Proof.
  induction dims as [|d dims IH]; [reflexivity|].
  cbn [map filter count_occ].
  destruct (Z.eq_dec d (-1)) as [->|Hne].
  - change (-1 =? -1) with true. cbn [negb].
    rewrite product_cons, IH, Nat2Z.inj_succ, Z.pow_succ_r by lia. ring.
  - destruct (Z.eqb_spec d (-1)); [contradiction|]. cbn [negb].
    rewrite !product_cons, IH. ring.
Qed.

(** What [np.reshape] returns when it returns: the same elements and type
    under a shape without negative entry whose product is the number of
    elements. *)
Lemma np_reshape_spec (a b : ndarray) (dims : list Z) :
  np_reshape a dims = Ok b ->
  dtype b = dtype a /\ flat b = flat a
  /\ List.length (shape b) = List.length dims
  /\ product (shape b) = Z.of_nat (List.length (flat a))
  /\ Forall (fun d => 0 <= d) (shape b).
Proof.
  unfold np_reshape. intros H.
  destruct (existsb (fun d => d <? -1) dims) eqn:E1; [discriminate H|].
  assert (Hge : forall d, In d dims -> -1 <= d).
  { intros d Hd. destruct (Z.ltb_spec d (-1)) as [Hlt|]; [|lia].
    assert (X : existsb (fun d => d <? -1) dims = true).
    { apply existsb_exists. exists d. split; [exact Hd|]. now apply Z.ltb_lt. }
    congruence. }
  destruct (count_occ Z.eq_dec dims (-1)) as [|[|n]] eqn:E2; [| |discriminate H].
  - destruct (Z.eqb_spec (product dims) (Z.of_nat (List.length (flat a))))
      as [E3|E3]; [|discriminate H].
    inversion H; subst b; cbn [dtype flat shape]. repeat split; auto.
    apply count_occ_not_In in E2. apply Forall_forall. intros d Hd.
    specialize (Hge d Hd). assert (d <> -1) by congruence. lia.
  - set (known := product (filter (fun d => negb (d =? -1)) dims)) in *.
    destruct (Z.eqb_spec known 0) as [E3|E3]; [discriminate H|].
    destruct (Z.eqb_spec (Z.of_nat (List.length (flat a)) mod known) 0)
      as [E4|E4]; [|discriminate H].
    inversion H; subst b; cbn [dtype flat shape]. clear H.
    assert (Hk : 0 < known).
    { assert (0 <= known); [|lia]. apply product_nonneg.
      apply Forall_forall. intros d Hd. apply filter_In in Hd as [Hd Hn].
      specialize (Hge d Hd). destruct (Z.eqb_spec d (-1)); [discriminate|lia]. }
    repeat split; auto.
    + apply length_map.
    + rewrite product_infer, E2. fold known.
      change (Z.of_nat 1) with 1. rewrite Z.pow_1_r.
      symmetry. now apply Z.div_exact.
    + apply Forall_forall. intros d Hd. apply in_map_iff in Hd as (x & <- & Hx).
      specialize (Hge x Hx). destruct (Z.eqb_spec x (-1)); [|lia].
      apply Z.div_pos; lia.
Qed.

(** Dimensions that are all given are the shape of the result. *)
Lemma np_reshape_given (a b : ndarray) (dims : list Z) :
  np_reshape a dims = Ok b -> ~ In (-1) dims -> shape b = dims.
Proof.
  unfold np_reshape. intros H Hnot.
  destruct (existsb (fun d => d <? -1) dims); [discriminate H|].
  rewrite (proj1 (count_occ_not_In Z.eq_dec dims (-1)) Hnot) in H.
  destruct (product dims =? _); [|discriminate H].
  now inversion H.
Qed.

Lemma dict_item_ok {V : Type} (d : dict string V) (k : string) (v : V) :
  dict_item String.eqb d k = Ok v -> dict_get String.eqb d k = Some v.
Proof.
  unfold dict_item. destruct (dict_get String.eqb d k); [|discriminate].
  now intros [= ->].
Qed.

Lemma unpack_items_length (tc : typecode) (count : nat) (bs : list Z) :
  List.length (unpack_items tc count bs) = count.
Proof. revert bs. induction count; intros bs; simpl; auto. Qed.

Lemma array_fromfile_length (tc : typecode) (contents : string) (n : Z)
    (items : list Z) :
  array_fromfile tc contents n = Ok items ->
  0 <= n /\ Z.of_nat (List.length items) = n
  /\ Z.of_nat (itemsize tc) * n <= Z.of_nat (String.length contents).
Proof.
  unfold array_fromfile.
  destruct (_ || _); [discriminate|].
  destruct (Z.ltb_spec n 0); [discriminate|].
  destruct (_ <? n); [discriminate|].
  pose proof (RawFacts.itemsize_pos tc) as Hp.
  assert (Hb : Z.to_nat (n * Z.of_nat (itemsize tc))
               = (Z.to_nat n * itemsize tc)%nat).
  { rewrite Z2Nat.inj_mul, Nat2Z.id by lia. reflexivity. }
  rewrite Hb.
  set (b := firstn (Z.to_nat n * itemsize tc) (CNum.bytes_of_string contents)).
  destruct (List.length b mod itemsize tc =? 0)%nat; cbn [negb];
    [|discriminate].
  destruct (Nat.eqb_spec (List.length b) (Z.to_nat n * itemsize tc))
    as [Hl|]; cbn [negb]; [|discriminate].
  intros [= <-]. rewrite unpack_items_length, Hl, Nat.div_mul by lia.
  split; [assumption|]. split; [lia|].
  assert (Hle : (Z.to_nat n * itemsize tc <= String.length contents)%nat).
  { rewrite <- Hl. unfold b.
    rewrite length_firstn, RawFacts.bytes_of_string_length. lia. }
  apply Nat2Z.inj_le in Hle. rewrite Nat2Z.inj_mul, Z2Nat.id in Hle by lia.
  lia.
Qed.

(** The steps of a load that returns. *)
Lemma load_steps (fs : filesystem) (filename : string) (data : ndarray)
    (meta : meta_header) :
  load_raw_data_with_mhd fs filename = Ok (data, meta) ->
  exists ndims dim et dim_size arr raw_file ndtype arrtype fid last items data1,
    read_meta_header fs filename = Ok meta
    /\ dict_item String.eqb meta "NDims" = Ok ndims
    /\ PyStr.int_of_str ndims = Ok dim
    /\ dict_item String.eqb meta "ElementType" = Ok et
    /\ dict_item String.eqb meta "DimSize" = Ok dim_size
    /\ rmap PyStr.int_of_str (PyStr.split_blank dim_size) = Ok arr
    /\ dict_item String.eqb meta "ElementDataFile" = Ok raw_file
    /\ to_element_type et = Ok ndtype
    /\ dict_item nptype_eqb NDARRAY_TO_ARRAY_TYPE ndtype = Ok arrtype
    /\ fs_read fs (OsPath.join (OsPath.dirname filename) raw_file) = Ok fid
    /\ py_index arr (dim - 1) = Ok last
    /\ array_fromfile arrtype fid (product (py_slice_to arr (dim - 1)) * last)
       = Ok items
    /\ np_reshape (np_array arrtype ndtype items)
                  [last; product (py_slice_to arr (dim - 1))] = Ok data1
    /\ (if dim =? 3 then np_reshape data1 (List.rev arr) else Ok data1)
       = Ok data.
Proof.
  unfold load_raw_data_with_mhd, to_element_type, product. intros H.
  destruct (read_meta_header fs filename) as [m|] eqn:E1;
    [cbn [rbind] in H|discriminate H].
  destruct (dict_item String.eqb m "NDims") as [ndims|] eqn:E2;
    [cbn [rbind] in H|discriminate H].
  destruct (PyStr.int_of_str ndims) as [dim|] eqn:E3;
    [cbn [rbind] in H|discriminate H].
  destruct (dict_item String.eqb m "ElementType") as [et|] eqn:E4;
    [cbn [rbind] in H|discriminate H].
  destruct (negb (dict_mem String.eqb MHD_TO_NUMPY_TYPE et)); [discriminate H|].
  destruct (dict_item String.eqb m "DimSize") as [dim_size|] eqn:E5;
    [cbn [rbind] in H|discriminate H].
  destruct (rmap PyStr.int_of_str (PyStr.split_blank dim_size)) as [arr|] eqn:E6;
    [cbn [rbind] in H|discriminate H].
  destruct (dict_item String.eqb m "ElementDataFile") as [raw_file|] eqn:E7;
    [cbn [rbind] in H|discriminate H].
  destruct (dict_item String.eqb MHD_TO_NUMPY_TYPE et) as [ndtype|] eqn:E8;
    [cbn [rbind] in H|discriminate H].
  destruct (dict_item nptype_eqb NDARRAY_TO_ARRAY_TYPE ndtype) as [arrtype|] eqn:E9;
    [cbn [rbind] in H|discriminate H].
  destruct (fs_read fs (OsPath.join (OsPath.dirname filename) raw_file))
    as [fid|] eqn:E10; [cbn [rbind] in H|discriminate H].
  destruct (py_index arr (dim - 1)) as [last|] eqn:E11;
    [cbn [rbind] in H|discriminate H].
  destruct (array_fromfile arrtype fid _) as [items|] eqn:E12;
    [cbn [rbind] in H|discriminate H].
  destruct (np_reshape (np_array arrtype ndtype items) _) as [data1|] eqn:E13;
    [cbn [rbind] in H|discriminate H].
  destruct (if dim =? 3 then _ else _) as [data2|] eqn:E14;
    [cbn [rbind] in H|discriminate H].
  inversion H; subst data2 m. clear H.
  exists ndims, dim, et, dim_size, arr, raw_file, ndtype, arrtype, fid, last,
    items, data1.
  repeat (split; [first [reflexivity|assumption]|]).
  exact E14.
Qed.

(** X7: An array that [load_raw_data_with_mhd] returns comes with the header
    as [read_meta_header] gives it; its element type is the one registered
    for the header's [ElementType]; its shape has no negative entry and the
    product of the shape is the number of its elements. *)
Theorem load_result_well_formed (fs : filesystem) (filename : string)
    (data : ndarray) (meta : meta_header) :
  load_raw_data_with_mhd fs filename = Ok (data, meta) ->
  read_meta_header fs filename = Ok meta
  /\ (exists tag, dict_get String.eqb meta "ElementType" = Some tag
                  /\ to_element_type tag = Ok (dtype data))
  /\ Forall (fun d => 0 <= d) (shape data)
  /\ product (shape data) = Z.of_nat (List.length (flat data)).
Proof.
  intros H. apply load_steps in H
    as (ndims & dim & et & dim_size & arr & raw_file & ndtype & arrtype & fid
        & last & items & data1 & H1 & H2 & H3 & H4 & H5 & H6 & H7 & H8 & H9
        & H10 & H11 & H12 & H13 & H14).
  apply np_reshape_spec in H13 as (T1 & F1 & _ & P1 & N1).
  unfold np_array in T1. cbn [dtype] in T1.
  assert (X : dtype data = ndtype /\ Forall (fun d => 0 <= d) (shape data)
              /\ product (shape data) = Z.of_nat (List.length (flat data))).
  { destruct (dim =? 3).
    - apply np_reshape_spec in H14 as (T2 & F2 & _ & P2 & N2).
      rewrite T2, T1, F2. auto.
    - inversion H14; subst data1. rewrite F1. auto. }
  destruct X as (X1 & X2 & X3).
  split; [exact H1|]. split; [|split; assumption].
  exists et. split; [now apply dict_item_ok|]. now rewrite X1.
Qed.

(** X8: The shape of the array loaded.  With [NDims] other than 3 the array
    is 2-D whatever the header says: the dimension at position [NDims - 1]
    first, then the product of those before it.  With [NDims] 3 and no
    negative dimension the shape is the whole of [DimSize], reversed. *)
Theorem load_shape (fs : filesystem) (filename : string)
    (data : ndarray) (meta : meta_header) :
  load_raw_data_with_mhd fs filename = Ok (data, meta) ->
  exists dim arr last,
    (let? n := dict_item String.eqb meta "NDims" in PyStr.int_of_str n) = Ok dim
    /\ (let? s := dict_item String.eqb meta "DimSize" in
        rmap PyStr.int_of_str (PyStr.split_blank s)) = Ok arr
    /\ py_index arr (dim - 1) = Ok last
    /\ Z.of_nat (List.length (flat data))
       = product (py_slice_to arr (dim - 1)) * last
    /\ (dim <> 3 -> shape data = [last; product (py_slice_to arr (dim - 1))])
    /\ (dim = 3 -> Forall (fun d => 0 <= d) arr -> shape data = List.rev arr).
Proof.
  intros H. apply load_steps in H
    as (ndims & dim & et & dim_size & arr & raw_file & ndtype & arrtype & fid
        & last & items & data1 & H1 & H2 & H3 & H4 & H5 & H6 & H7 & H8 & H9
        & H10 & H11 & H12 & H13 & H14).
  exists dim, arr, last.
  rewrite H2, H5. cbn [rbind].
  split; [exact H3|]. split; [exact H6|]. split; [exact H11|].
  apply array_fromfile_length in H12 as (Hn & Hlen & _).
  pose proof (np_reshape_spec _ _ _ H13) as (_ & F1 & _ & _ & _).
  unfold np_array in F1. cbn [flat] in F1.
  assert (Hsize : Z.of_nat (List.length (flat data))
                  = product (py_slice_to arr (dim - 1)) * last).
  { destruct (dim =? 3).
    - apply np_reshape_spec in H14 as (_ & F2 & _).
      now rewrite F2, F1, length_map.
    - inversion H14; subst data1. now rewrite F1, length_map. }
  split; [exact Hsize|]. split.
  - intros Hdim. destruct (Z.eqb_spec dim 3); [contradiction|].
    inversion H14; subst data1. clear H14.
    remember (product (py_slice_to arr (dim - 1))) as volume eqn:Hvol.
    clear Hvol.
    apply (np_reshape_given _ _ _ H13).
    unfold np_reshape in H13. cbn [existsb count_occ filter] in H13.
    destruct (Z.ltb_spec last (-1)); [discriminate H13|].
    destruct (Z.ltb_spec volume (-1)); [discriminate H13|].
    cbn [orb] in H13.
    intros [E|[E|[]]]; subst.
    + destruct (Z.eq_dec (-1) (-1)) as [_|X]; [|contradiction].
      destruct (Z.eq_dec volume (-1)) as [->|Hv]; [discriminate H13|].
      change (negb (-1 =? -1)) with false in H13.
      destruct (Z.eqb_spec volume (-1)); [contradiction|].
      cbn [negb] in H13. rewrite product_cons in H13.
      change (product []) with 1 in H13.
      assert (volume = 0) as -> by lia. discriminate H13.
    + destruct (Z.eq_dec (-1) (-1)) as [_|X]; [|contradiction].
      destruct (Z.eq_dec last (-1)) as [->|Hl]; [discriminate H13|].
      change (negb (-1 =? -1)) with false in H13.
      destruct (Z.eqb_spec last (-1)); [contradiction|].
      cbn [negb] in H13. rewrite product_cons in H13.
      change (product []) with 1 in H13.
      assert (last = 0) as -> by lia. discriminate H13.
  - intros -> Hpos. change (3 =? 3) with true in H14.
    apply (np_reshape_given _ _ _ H14).
    intros Hin. apply in_rev in Hin. rewrite Forall_forall in Hpos.
    specialize (Hpos _ Hin). lia.
Qed.

(** A header that announces four dimensions, and its 16 bytes of data. *)
Definition four_d_files : filesystem :=
  [("v.mhd", "NDims = 4
DimSize = 2 1 1 2
ElementType = MET_INT
ElementDataFile = v.raw
");
   ("v.raw", array_tofile tc_i [1; 2; 3; -4])].

Definition four_d_volume : ndarray :=
  {| dtype := np_int32; shape := [2; 2]; flat := [1; 2; 3; -4] |}.

Definition four_d_header : meta_header :=
  [("NDims", "4"); ("DimSize", "2 1 1 2");
   ("ElementType", "MET_INT"); ("ElementDataFile", "v.raw")].

Lemma load_result_well_formed_witness :
  load_raw_data_with_mhd four_d_files "v.mhd" = Ok (four_d_volume, four_d_header)
  /\ read_meta_header four_d_files "v.mhd" = Ok four_d_header
  /\ (exists tag, dict_get String.eqb four_d_header "ElementType" = Some tag
                  /\ to_element_type tag = Ok (dtype four_d_volume))
  /\ Forall (fun d => 0 <= d) (shape four_d_volume)
  /\ product (shape four_d_volume)
     = Z.of_nat (List.length (flat four_d_volume)).
Proof.
  split; [reflexivity|].
  exact (load_result_well_formed four_d_files "v.mhd" four_d_volume
           four_d_header eq_refl).
Defined.

Lemma load_shape_witness :
  load_raw_data_with_mhd four_d_files "v.mhd" = Ok (four_d_volume, four_d_header)
  /\ exists dim arr last,
       (let? n := dict_item String.eqb four_d_header "NDims" in
        PyStr.int_of_str n) = Ok dim
       /\ (let? s := dict_item String.eqb four_d_header "DimSize" in
           rmap PyStr.int_of_str (PyStr.split_blank s)) = Ok arr
       /\ py_index arr (dim - 1) = Ok last
       /\ Z.of_nat (List.length (flat four_d_volume))
          = product (py_slice_to arr (dim - 1)) * last
       /\ (dim <> 3 ->
           shape four_d_volume = [last; product (py_slice_to arr (dim - 1))])
       /\ (dim = 3 -> Forall (fun d => 0 <= d) arr ->
           shape four_d_volume = List.rev arr).
Proof.
  split; [reflexivity|].
  exact (load_shape four_d_files "v.mhd" four_d_volume four_d_header eq_refl).
Defined.

(** ** What saving leaves in the file system *)

Lemma dump_raw_data_ok (fs : filesystem) (filename : string) (data : ndarray) :
  (ndim data = 2 \/ ndim data = 3)%nat ->
  Forall (fun d => 0 <= d) (shape data) ->
  product (shape data) = Z.of_nat (List.length (flat data)) ->
  dump_raw_data fs filename data
  = (fs_write fs filename
       (array_tofile tc_f
          (map (CNum.to_c_float (kind_of_dtype (dtype data))) (flat data))),
     Ok tt).
Proof.
  unfold ndim. intros Hn Hpos Hprod. unfold dump_raw_data.
  destruct (shape data) as [|a [|b [|c [|x l]]]] eqn:Es;
    try (simpl in Hn; lia).
  - unfold rows_to_floats. rewrite Es. reflexivity.
  - rewrite np_reshape_ok.
    + unfold rows_to_floats. reflexivity.
    + inversion Hpos as [|? ? Ha Hpos']; subst.
      inversion Hpos' as [|? ? Hb Hpos'']; subst.
      inversion Hpos'' as [|? ? Hc _]; subst.
      repeat constructor; [exact Ha|nia].
    + rewrite <- Hprod. unfold product. cbn [fold_left]. ring.
Qed.

Lemma saved_bytes_length (data : ndarray) :
  String.length
    (array_tofile tc_f
       (map (CNum.to_c_float (kind_of_dtype (dtype data))) (flat data)))
  = (4 * List.length (flat data))%nat.
Proof.
  unfold array_tofile.
  now rewrite RawFacts.string_of_bytes_length, RawFacts.packed_length,
    length_map.
Qed.

(** X9: Four bytes are written for every element, whatever the element type
    of the array: a 2-D or 3-D array always goes to the data file as C
    floats, each element converted as C converts its type to [float]. *)
Theorem dump_raw_data_size (fs : filesystem) (filename : string)
    (data : ndarray) :
  (ndim data = 2 \/ ndim data = 3)%nat ->
  Forall (fun d => 0 <= d) (shape data) ->
  product (shape data) = Z.of_nat (List.length (flat data)) ->
  let floats :=
    map (CNum.to_c_float (kind_of_dtype (dtype data))) (flat data) in
  dump_raw_data fs filename data
  = (fs_write fs filename (array_tofile tc_f floats), Ok tt)
  /\ String.length (array_tofile tc_f floats)
     = (4 * List.length (flat data))%nat.
Proof.
  intros Hn Hpos Hprod floats. split.
  - now apply dump_raw_data_ok.
  - apply saved_bytes_length.
Qed.

Lemma dump_raw_data_size_witness :
  let data := {| dtype := np_float64; shape := [1; 2];
                 flat := [4607182418800017408; 0] |} in
  let floats :=
    map (CNum.to_c_float (kind_of_dtype (dtype data))) (flat data) in
  floats = [1065353216; 0]
  /\ dump_raw_data [] "v.raw" data
     = (fs_write [] "v.raw" (array_tofile tc_f floats), Ok tt)
  /\ String.length (array_tofile tc_f floats)
     = (4 * List.length (flat data))%nat.
Proof.
  intros data floats. split; [reflexivity|].
  apply (dump_raw_data_size [] "v.raw" data).
  - left. reflexivity.
  - repeat constructor; simpl; lia.
  - reflexivity.
Defined.

(** X10: [write_mhd_file] never returns and never writes.  It raises
    [AssertionError] exactly when the path does not end in [.mhd], and
    [KeyError] in every other case, whatever the array: also when its
    element type has a tag in the table.  The file system is as it was. *)
Theorem write_mhd_file_always_raises (fs : filesystem) (mhdfile : string)
    (data : ndarray) (dims : list Z) :
  let r := write_mhd_file fs mhdfile data dims in
  fst r = fs
  /\ (snd r = Raise AssertionError
      <-> String.eqb (PyStr.last_chars 4 mhdfile) ".mhd" = false)
  /\ (snd r = Raise KeyError
      <-> String.eqb (PyStr.last_chars 4 mhdfile) ".mhd" = true)
  /\ snd r <> Ok tt.
Proof.
  cbv zeta. rewrite write_mhd_file_run. cbn [fst snd].
  destruct (String.eqb (PyStr.last_chars 4 mhdfile) ".mhd");
    (split; [reflexivity|]); (split; [|split]); try discriminate;
    split; try discriminate; reflexivity.
Qed.

(** X11: [dump_raw_data] opens the file before it looks at the rows.  The
    rows of a 1-D array are scalars and a 0-D array has no rows: for such an
    array with an element in it the call raises [TypeError] and leaves the
    file behind, empty; what the file held before is lost. *)
Theorem dump_raw_data_type_error (fs : filesystem) (filename : string)
    (data : ndarray) :
  (ndim data <= 1)%nat -> flat data <> [] ->
  dump_raw_data fs filename data = (fs_write fs filename "", Raise TypeError)
  /\ fs_read (fst (dump_raw_data fs filename data)) filename = Ok "".
Proof.
  unfold ndim. intros Hn Hne.
  assert (H : dump_raw_data fs filename data
              = (fs_write fs filename "", Raise TypeError)).
  { unfold dump_raw_data.
    destruct (shape data) as [|a [|b l]] eqn:Es; [| |simpl in Hn; lia];
      unfold rows_to_floats; rewrite Es; [reflexivity|].
    destruct (flat data); [contradiction|reflexivity]. }
  rewrite H. split; [reflexivity|]. cbn [fst].
  unfold fs_read, fs_write. now rewrite dict_get_set_same.
Qed.

Lemma dump_raw_data_type_error_witness :
  let data := {| dtype := np_float32; shape := [2]; flat := [0; 0] |} in
  let fs := [("v.raw", "old")] in
  dump_raw_data fs "v.raw" data = ([("v.raw", "")], Raise TypeError)
  /\ fs_read (fst (dump_raw_data fs "v.raw" data)) "v.raw" = Ok "".
Proof.
  intros data fs.
  apply (dump_raw_data_type_error fs "v.raw" data);
    [unfold ndim; simpl; lia|discriminate].
Defined.

(** ** A header and a data file written one after the other, and loaded *)

(** Every element type has a type code; only [float64] has items wider than
    the four bytes written for an element. *)
Lemma arrtype_of (t : nptype) :
  exists tc,
    dict_item nptype_eqb NDARRAY_TO_ARRAY_TYPE t = Ok tc
    /\ (t <> np_float64 -> (itemsize tc <= 4)%nat)
    /\ (t = np_float64 -> tc = tc_d).
Proof.
  destruct t; eexists; (split; [reflexivity|]); split;
    try discriminate; try (intros _; simpl; lia); try reflexivity;
    intros H; now contradiction H.
Qed.

Lemma product_app (l1 l2 : list Z) :
  product (l1 ++ l2) = product l1 * product l2.
Proof.
  unfold product at 1. rewrite fold_left_app, fold_left_mul. reflexivity.
Qed.

Lemma product_one (d : Z) : product [d] = d.
Proof. unfold product. cbn [fold_left]. ring. Qed.

Lemma product_rev (l : list Z) : product (List.rev l) = product l.
Proof.
  induction l as [|d l IH]; [reflexivity|].
  cbn [List.rev]. rewrite product_app, product_one, IH, product_cons. ring.
Qed.

(** An entry under a schema tag is found in the header read back. *)
Lemma schema_item (h : meta_header) (k v : string) :
  existsb (String.eqb k) MHD_TAGS = true ->
  dict_get String.eqb h k = Some v ->
  dict_item String.eqb (schema_entries MHD_TAGS h) k = Ok v.
Proof.
  intros Hk Hv. unfold dict_item.
  now rewrite dict_get_schema_entries, Hk, Hv.
Qed.

Section DumpedVolume.
Variables (fs : filesystem) (mhdfile raw_file tag : string) (h : meta_header)
          (data : ndarray) (dims : list Z).

Let data_file : string := OsPath.join (OsPath.dirname mhdfile) raw_file.
Let bytes : string :=
  array_tofile tc_f
    (map (CNum.to_c_float (kind_of_dtype (dtype data))) (flat data)).

(** The files once the header and the data are written. *)
Let saved : filesystem :=
  fs_write (write_meta_header fs mhdfile h) data_file bytes.

Hypothesis header_clean : clean_header h.
Hypothesis header_ndims :
  dict_get String.eqb h "NDims"
  = Some (PyStr.str_of_int (Z.of_nat (List.length dims))).
Hypothesis header_dims :
  dict_get String.eqb h "DimSize"
  = Some (PyStr.join " " (map PyStr.str_of_int dims)).
Hypothesis header_type : dict_get String.eqb h "ElementType" = Some tag.
Hypothesis header_file : dict_get String.eqb h "ElementDataFile" = Some raw_file.
Hypothesis other_file : data_file <> mhdfile.
Hypothesis type_of_tag : to_element_type tag = Ok (dtype data).
Hypothesis file_order : shape data = List.rev dims.
Hypothesis rank : (List.length dims = 2 \/ List.length dims = 3)%nat.
Hypothesis dims_pos : Forall (fun d => 0 <= d) dims.
Hypothesis size : product dims = Z.of_nat (List.length (flat data)).

Lemma dumped_write :
  dump_raw_data (write_meta_header fs mhdfile h) data_file data
  = (saved, Ok tt).
Proof.
  apply dump_raw_data_ok.
  - unfold ndim. rewrite file_order, length_rev. exact rank.
  - rewrite file_order. now apply Forall_rev.
  - now rewrite file_order, product_rev.
Qed.

Lemma dumped_header :
  read_meta_header saved mhdfile = Ok (schema_entries MHD_TAGS h).
Proof.
  apply read_header_text; [exact header_clean|].
  unfold saved, fs_read, fs_write, write_meta_header, fs_write.
  rewrite dict_get_set_other by exact other_file.
  now rewrite dict_get_set_same.
Qed.

(** The load, up to the reading of the data file. *)
Lemma dumped_load :
  exists tc last volume,
    dict_item nptype_eqb NDARRAY_TO_ARRAY_TYPE (dtype data) = Ok tc
    /\ volume * last = Z.of_nat (List.length (flat data))
    /\ 0 <= last /\ 0 <= volume
    /\ (List.length dims = 2%nat -> [last; volume] = List.rev dims)
    /\ load_raw_data_with_mhd saved mhdfile
       = (let? binvalues := array_fromfile tc bytes (volume * last) in
          let? loaded :=
            np_reshape (np_array tc (dtype data) binvalues) [last; volume] in
          let? loaded :=
            if Z.of_nat (List.length dims) =? 3
            then np_reshape loaded (List.rev dims)
            else Ok loaded in
          Ok (loaded, schema_entries MHD_TAGS h)).
Proof.
  destruct (arrtype_of (dtype data)) as (tc & Htc & _).
  assert (Hdims : exists last front,
             dims = front ++ [last]
             /\ py_slice_to dims (Z.of_nat (List.length dims) - 1) = front
             /\ py_index dims (Z.of_nat (List.length dims) - 1) = Ok last).
  { destruct dims as [|a [|b [|c [|x l]]]]; try (simpl in rank; lia).
    - exists b, [a]. repeat split.
    - exists c, [a; b]. repeat split. }
  destruct Hdims as (last & front & Hd & Hslice & Hindex).
  exists tc, last, (product front).
  split; [exact Htc|]. split.
  { rewrite <- size, Hd, product_app, product_one. reflexivity. }
  assert (Hpos := dims_pos). rewrite Hd in Hpos.
  apply Forall_app in Hpos as [Hf Hl].
  split; [now inversion Hl|]. split; [now apply product_nonneg|].
  split.
  { intros R. rewrite Hd in R |- *. rewrite length_app in R.
    cbn [List.length] in R.
    destruct front as [|a [|? ?]]; try (simpl in R; lia).
    cbn [app List.rev]. now rewrite product_one. }
  unfold load_raw_data_with_mhd. rewrite dumped_header. cbn [rbind].
  rewrite (schema_item h "NDims" _ eq_refl header_ndims). cbn [rbind].
  rewrite NumeralFacts.int_of_str_of_int by lia. cbn [rbind].
  rewrite (schema_item h "ElementType" _ eq_refl header_type). cbn [rbind].
  pose proof type_of_tag as Het. unfold to_element_type in Het.
  assert (Hmem : dict_mem String.eqb MHD_TO_NUMPY_TYPE tag = true).
  { unfold dict_mem. apply dict_item_ok in Het. now rewrite Het. }
  rewrite Hmem. cbn [negb].
  rewrite (schema_item h "DimSize" _ eq_refl header_dims). cbn [rbind].
  rewrite DimSizeFacts.split_blank_join
    by (now apply DimSizeFacts.numerals_of_shape).
  rewrite DimSizeFacts.rmap_int_of_str by exact dims_pos. cbn [rbind].
  rewrite (schema_item h "ElementDataFile" _ eq_refl header_file).
  cbn [rbind]. rewrite Het. cbn [rbind]. rewrite Htc. cbn [rbind].
  fold data_file.
  unfold saved at 1. unfold fs_read at 1. unfold fs_write at 1.
  rewrite dict_get_set_same.
  cbn [rbind]. rewrite Hindex. cbn [rbind]. rewrite Hslice.
  change (fold_left Z.mul front 1) with (product front).
  reflexivity.
Qed.

End DumpedVolume.

Lemma even_bytes (n : nat) : ((4 * n) mod 8 =? 0)%nat = Nat.even n.
Proof.
  destruct (Nat.even n) eqn:E.
  - apply Nat.even_spec in E as [k ->]. apply Nat.eqb_eq.
    replace (4 * (2 * k))%nat with (k * 8)%nat by lia.
    apply Nat.Div0.mod_mul.
  - apply Nat.eqb_neq. intros H.
    assert (Ho : Nat.odd n = true) by (now rewrite <- Nat.negb_even, E).
    apply Nat.odd_spec in Ho as [k ->].
    replace (4 * (2 * k + 1))%nat with (4 + k * 8)%nat in H by lia.
    rewrite Nat.Div0.mod_add in H. discriminate H.
Qed.

(** X12: A header written with [write_meta_header] and the data written
    next to it with [dump_raw_data], loaded with [load_raw_data_with_mhd].
    The header is clean, names the data file and the element type of the
    array by a tag of the table, and gives the dimensions in file order (the
    shape reversed); the array is 2-D or 3-D.  The data are written without
    error.  Loaded back, the array has the element type, the shape and the
    number of elements it had, unless the type is [float64]: four bytes were
    written for each element and eight are asked for, so the load of an
    array that is not empty raises, [EOFError] when the number of elements
    is even and [ValueError] when it is odd. *)
Theorem dump_load_shape_and_type (fs : filesystem)
    (mhdfile raw_file tag : string) (h : meta_header) (data : ndarray)
    (dims : list Z) :
  let data_file := OsPath.join (OsPath.dirname mhdfile) raw_file in
  clean_header h ->
  dict_get String.eqb h "NDims"
  = Some (PyStr.str_of_int (Z.of_nat (List.length dims))) ->
  dict_get String.eqb h "DimSize"
  = Some (PyStr.join " " (map PyStr.str_of_int dims)) ->
  dict_get String.eqb h "ElementType" = Some tag ->
  dict_get String.eqb h "ElementDataFile" = Some raw_file ->
  data_file <> mhdfile ->
  to_element_type tag = Ok (dtype data) ->
  shape data = List.rev dims ->
  (List.length dims = 2 \/ List.length dims = 3)%nat ->
  Forall (fun d => 0 <= d) dims ->
  product dims = Z.of_nat (List.length (flat data)) ->
  8 * Z.of_nat (List.length (flat data)) <= PY_SSIZE_T_MAX ->
  let saved := dump_raw_data (write_meta_header fs mhdfile h) data_file data in
  snd saved = Ok tt
  /\ (dtype data <> np_float64 ->
      exists loaded,
        load_raw_data_with_mhd (fst saved) mhdfile
        = Ok (loaded, schema_entries MHD_TAGS h)
        /\ dtype loaded = dtype data
        /\ shape loaded = shape data
        /\ List.length (flat loaded) = List.length (flat data))
  /\ (dtype data = np_float64 -> flat data <> [] ->
      load_raw_data_with_mhd (fst saved) mhdfile
      = Raise (if Nat.even (List.length (flat data))
               then EOFError else ValueError)).
Proof.
  intros data_file Hclean Hnd Hds Het Hfile Hother Htag Hshape Hrank Hpos Hsize
    Hmax saved.
  subst saved data_file.
  rewrite (dumped_write fs mhdfile raw_file h data dims Hshape Hrank Hpos Hsize).
  cbn [fst snd]. split; [reflexivity|].
  destruct (dumped_load fs mhdfile raw_file tag h data dims Hclean Hnd Hds Het
              Hfile Hother Htag Hshape Hrank Hpos Hsize)
    as (tc & last & volume & Htc & Hvl & Hl & Hv & H2 & Hload).
  rewrite Hload. clear Hload.
  destruct (arrtype_of (dtype data)) as (tc' & Htc' & Hsmall & Hwide).
  rewrite Htc in Htc'. inversion Htc'; subst tc'. clear Htc'.
  rewrite Hvl.
  set (n := List.length (flat data)) in *.
  assert (Hbytes : String.length
                     (array_tofile tc_f
                        (map (CNum.to_c_float (kind_of_dtype (dtype data)))
                           (flat data))) = (4 * n)%nat)
    by apply saved_bytes_length.
  pose proof (RawFacts.itemsize_pos tc) as Hp.
  split.
  - intros Hne. specialize (Hsmall Hne).
    rewrite RawFacts.array_fromfile_enough by (rewrite ?Hbytes; nia).
    cbn [rbind].
    rewrite np_reshape_ok.
    + cbn [rbind].
      destruct Hrank as [R|R]; rewrite R.
      * change (Z.of_nat 2 =? 3) with false. cbv iota. cbn [rbind].
        eexists. split; [reflexivity|].
        cbn [dtype shape flat np_array].
        rewrite length_map, unpack_items_length, Hshape, (H2 R). auto.
      * change (Z.of_nat 3 =? 3) with true. cbv iota.
        rewrite np_reshape_ok.
        -- cbn [rbind]. eexists. split; [reflexivity|].
           cbn [dtype shape flat np_array].
           rewrite length_map, unpack_items_length, Hshape. auto.
        -- now apply Forall_rev.
        -- cbn [flat np_array].
           now rewrite length_map, unpack_items_length, product_rev.
    + repeat constructor; assumption.
    + rewrite product_cons, product_one. cbn [flat np_array].
      rewrite length_map, unpack_items_length. lia.
  - intros Hd Hne. rewrite (Hwide Hd).
    assert (Hn : (0 < n)%nat).
    { unfold n. destruct (flat data); [contradiction|simpl; lia]. }
    rewrite RawFacts.array_fromfile_short.
    + rewrite Hbytes. change (itemsize tc_d) with 8%nat.
      now rewrite even_bytes.
    + rewrite Hbytes. change (itemsize tc_d) with 8%nat. lia.
    + change (itemsize tc_d) with 8%nat. lia.
Qed.

(** A 1 x 2 array of [int32] under [MET_INT], and a single [float64] under
    [MET_DOUBLE]. *)
Definition int_header : meta_header :=
  [("NDims", "2"); ("DimSize", "2 1"); ("ElementType", "MET_INT");
   ("ElementDataFile", "vol.raw")].

Definition double_header : meta_header :=
  [("NDims", "2"); ("DimSize", "1 1"); ("ElementType", "MET_DOUBLE");
   ("ElementDataFile", "vol.raw")].

Lemma dump_load_shape_and_type_witness :
  (let data := {| dtype := np_int32; shape := [1; 2]; flat := [7; -7] |} in
   let saved :=
     dump_raw_data (write_meta_header [] "dir/vol.mhd" int_header)
                   "dir/vol.raw" data in
   snd saved = Ok tt
   /\ exists loaded,
        load_raw_data_with_mhd (fst saved) "dir/vol.mhd"
        = Ok (loaded, schema_entries MHD_TAGS int_header)
        /\ dtype loaded = np_int32
        /\ shape loaded = [1; 2]
        /\ List.length (flat loaded) = 2%nat)
  /\ (let data := {| dtype := np_float64; shape := [1; 1];
                     flat := [4607182418800017408] |} in
      let saved :=
        dump_raw_data (write_meta_header [] "dir/vol.mhd" double_header)
                      "dir/vol.raw" data in
      load_raw_data_with_mhd (fst saved) "dir/vol.mhd" = Raise ValueError).
Proof.
  split.
  - intros data saved.
    destruct (dump_load_shape_and_type [] "dir/vol.mhd" "vol.raw" "MET_INT"
                int_header data [2; 1]) as (H1 & H2 & _).
    + apply clean_header_check_sound. reflexivity.
    + reflexivity.
    + reflexivity.
    + reflexivity.
    + reflexivity.
    + discriminate.
    + reflexivity.
    + reflexivity.
    + left. reflexivity.
    + repeat constructor; lia.
    + reflexivity.
    + vm_compute. discriminate.
    + split; [exact H1|]. apply H2. discriminate.
  - intros data saved.
    destruct (dump_load_shape_and_type [] "dir/vol.mhd" "vol.raw" "MET_DOUBLE"
                double_header data [1; 1]) as (_ & _ & H3).
    + apply clean_header_check_sound. reflexivity.
    + reflexivity.
    + reflexivity.
    + reflexivity.
    + reflexivity.
    + discriminate.
    + reflexivity.
    + reflexivity.
    + left. reflexivity.
    + repeat constructor; lia.
    + reflexivity.
    + vm_compute. discriminate.
    + apply H3; [reflexivity|discriminate].
Defined.

(** X13: The same pair of files for a [float32] array of two or three
    dimensions whose samples are not signalling NaNs, under a header that
    says [MET_FLOAT] and gives the dimensions in file order: the array loaded
    is the array that was written, with its shape, its element type and the
    same bit patterns, and the header comes back restricted to the schema. *)
Theorem dump_load_roundtrip (fs : filesystem) (mhdfile raw_file : string)
    (h : meta_header) (dims vals : list Z) :
  let data_file := OsPath.join (OsPath.dirname mhdfile) raw_file in
  let data := {| dtype := np_float32; shape := List.rev dims; flat := vals |} in
  clean_header h ->
  dict_get String.eqb h "NDims"
  = Some (PyStr.str_of_int (Z.of_nat (List.length dims))) ->
  dict_get String.eqb h "DimSize"
  = Some (PyStr.join " " (map PyStr.str_of_int dims)) ->
  dict_get String.eqb h "ElementType" = Some "MET_FLOAT" ->
  dict_get String.eqb h "ElementDataFile" = Some raw_file ->
  data_file <> mhdfile ->
  (List.length dims = 2 \/ List.length dims = 3)%nat ->
  Forall (fun d => 0 <= d) dims ->
  product dims = Z.of_nat (List.length vals) ->
  4 * Z.of_nat (List.length vals) <= PY_SSIZE_T_MAX ->
  Forall RawFacts.quiet vals ->
  let saved := dump_raw_data (write_meta_header fs mhdfile h) data_file data in
  snd saved = Ok tt
  /\ load_raw_data_with_mhd (fst saved) mhdfile
     = Ok (data, schema_entries MHD_TAGS h).
Proof.
  intros data_file data Hclean Hnd Hds Het Hfile Hother Hrank Hpos Hsize Hmax
    Hquiet saved.
  subst saved data_file.
  rewrite (dumped_write fs mhdfile raw_file h data dims eq_refl Hrank Hpos Hsize).
  cbn [fst snd]. split; [reflexivity|].
  destruct (dumped_load fs mhdfile raw_file "MET_FLOAT" h data dims Hclean Hnd
              Hds Het Hfile Hother eq_refl eq_refl Hrank Hpos Hsize)
    as (tc & last & volume & Htc & Hvl & Hl & Hv & H2 & Hload).
  rewrite Hload. clear Hload.
  inversion Htc; subst tc. clear Htc.
  cbn [dtype flat data kind_of_dtype] in *.
  rewrite RawFacts.to_c_float_quiet by exact Hquiet.
  rewrite Hvl.
  rewrite RawFacts.fromfile_tofile;
    [|eapply Forall_impl; [|exact Hquiet]; now intros v [H _]|exact Hmax].
  cbn [rbind]. unfold np_array.
  cbn [kind_of_typecode kind_of_dtype CNum.convert]. rewrite map_id.
  rewrite np_reshape_ok;
    [|repeat constructor; assumption
     |rewrite product_cons, product_one; cbn [flat]; lia].
  cbn [rbind].
  destruct Hrank as [R|R]; rewrite R.
  - change (Z.of_nat 2 =? 3) with false. cbv iota. cbn [rbind].
    unfold data. now rewrite (H2 R).
  - change (Z.of_nat 3 =? 3) with true. cbv iota.
    rewrite np_reshape_ok.
    + reflexivity.
    + now apply Forall_rev.
    + cbn [flat]. now rewrite product_rev.
Qed.

Definition float_header : meta_header :=
  [("ObjectType", "Image"); ("NDims", "3"); ("DimSize", "2 1 1");
   ("ElementType", "MET_FLOAT"); ("ElementDataFile", "vol.raw")].

Lemma dump_load_roundtrip_witness :
  let data := {| dtype := np_float32; shape := [1; 1; 2];
                 flat := [1065353216; 3225419776] |} in
  let saved :=
    dump_raw_data (write_meta_header [] "vol.mhd" float_header) "vol.raw" data in
  Forall RawFacts.quiet (flat data)
  /\ snd saved = Ok tt
  /\ load_raw_data_with_mhd (fst saved) "vol.mhd"
     = Ok (data, schema_entries MHD_TAGS float_header).
Proof.
  intros data saved.
  assert (Hq : Forall RawFacts.quiet (flat data)).
  { repeat constructor; unfold RawFacts.is_word; simpl; lia. }
  split; [exact Hq|].
  apply (dump_load_roundtrip [] "vol.mhd" "vol.raw" float_header [2; 1; 1]
           (flat data)).
  - apply clean_header_check_sound. reflexivity.
  - reflexivity.
  - reflexivity.
  - reflexivity.
  - reflexivity.
  - discriminate.
  - right. reflexivity.
  - repeat constructor; lia.
  - reflexivity.
  - vm_compute. discriminate.
  - exact Hq.
Defined.

(** * Further properties of the image wrapper *)

(** ** When [get_data] takes the cached branch *)

Section DataAccess.
Context {ext : Collaborators}.

(** The test that guards the cached branch: no [safe_copy], the flags are
    the ones asked for, the data of the image are resident and the policy is
    ['fill']. *)
Definition cached_branch (smoothed masked safe_copy : bool) (w : world)
    : bool :=
  negb safe_copy
  && Bool.eqb smoothed (_is_data_smooth (self w))
  && Bool.eqb masked (_is_data_masked (self w))
  && match img (self w) with Some i => in_memory i | None => false end
  && caching_eqb (_caching (self w)) fill.

Lemma get_data_cached (depth : nat) (smoothed masked safe_copy : bool)
    (w : world) :
  cached_branch smoothed masked safe_copy w = true ->
  get_data (S depth) smoothed masked safe_copy w
  = get_data depth true true false w.
Proof.
  destruct w as [objs [oi c om fw fm fs]]. unfold cached_branch.
  cbn [self img _caching _is_data_masked _is_data_smooth].
  rewrite !andb_true_iff. intros [[[[H1 H2] H3] H4] H5].
  destruct safe_copy; [discriminate H1|].
  apply Bool.eqb_prop in H2, H3. subst fs fm.
  destruct oi as [i|]; [|discriminate H4].
  destruct c; [|discriminate H5].
  destruct i as [d [l|] aff]; [|discriminate H4].
  cbn [get_data]. exec. rewrite !Bool.eqb_reflx. reflexivity.
Qed.

Lemma get_data_direct (depth : nat) (smoothed masked safe_copy : bool)
    (w : world) :
  cached_branch smoothed masked safe_copy w = false ->
  get_data (S depth) smoothed masked safe_copy w
  = get_data 1 smoothed masked safe_copy w.
Proof.
  destruct w as [objs [oi c om fw fm fs]]. unfold cached_branch.
  cbn [self img _caching _is_data_masked _is_data_smooth]. intros H.
  cbn [get_data].
  destruct safe_copy; [reflexivity|]. exec. cbn [negb andb] in H.
  destruct (Bool.eqb smoothed fs); [|reflexivity].
  destruct (Bool.eqb masked fm); [|reflexivity].
  destruct oi as [[d [l|] aff]|]; [|reflexivity|reflexivity].
  destruct c; [discriminate H|reflexivity].
Qed.

(** X14: Unless both flags are set, [get_data] enters the cached branch at
    most once: two frames are all it uses, and its answer does not depend on
    how deep the stack is. *)
Theorem get_data_two_frames (depth : nat) (smoothed masked safe_copy : bool)
    (w : world) :
  _is_data_smooth (self w) && _is_data_masked (self w) = false ->
  get_data (S (S depth)) smoothed masked safe_copy w
  = get_data 2 smoothed masked safe_copy w.
Proof.
  intros Hflags.
  assert (Hnot : cached_branch true true false w = false).
  { unfold cached_branch. cbn [negb andb Bool.eqb].
    destruct (_is_data_smooth (self w)), (_is_data_masked (self w));
      try reflexivity. discriminate Hflags. }
  destruct (cached_branch smoothed masked safe_copy w) eqn:C.
  - rewrite (get_data_cached (S depth)), (get_data_cached 1) by exact C.
    now apply get_data_direct.
  - rewrite (get_data_direct (S depth)), (get_data_direct 1) by exact C.
    reflexivity.
Qed.

End DataAccess.

Lemma get_data_two_frames_witness :
  _is_data_smooth (self sample_world) && _is_data_masked (self sample_world)
  = false
  /\ get_data 7 false false false sample_world
     = get_data 2 false false false sample_world.
Proof.
  split; [reflexivity|].
  exact (get_data_two_frames 5 false false false sample_world eq_refl).
Defined.

(** ** What [get_data] commits *)

Section Settled.
Context {ext : Collaborators}.

(** The world once the data of the image have been fetched. *)
Variable w1 : world.

(** The attributes are those of [w1]; a mask is set if and only if one was.
    Nothing is said of the arrays. *)
Definition settled (w : world) : Prop :=
  img (self w) = img (self w1)
  /\ _caching (self w) = _caching (self w1)
  /\ _smooth_fwhm (self w) = _smooth_fwhm (self w1)
  /\ _is_data_masked (self w) = _is_data_masked (self w1)
  /\ _is_data_smooth (self w) = _is_data_smooth (self w1)
  /\ (mask (self w) = None <-> mask (self w1) = None).

Lemma settled_start : settled w1.
Proof. unfold settled. tauto. Qed.

(** [m] keeps [settled]; its value satisfies [Q]. *)
Definition stays {A : Type} (m : M A) (Q : A -> Prop) : Prop :=
  forall w, settled w ->
    match m w with
    | (Ok a, w') => settled w' /\ Q a
    | (Raise e, w') => settled w'
    end.

Lemma stays_ret {A : Type} (a : A) (Q : A -> Prop) : Q a -> stays (ret a) Q.
Proof. intros H w Hw. simpl. auto. Qed.

Lemma stays_raise {A : Type} (e : exn) (Q : A -> Prop) : stays (raise e) Q.
Proof. intros w Hw. exact Hw. Qed.

Lemma stays_bind {A B : Type} (m : M A) (k : A -> M B) Q1 Q2 :
  stays m Q1 -> (forall a, Q1 a -> stays (k a) Q2) -> stays (bind m k) Q2.
Proof.
  intros Hm Hk w Hw. unfold bind. specialize (Hm w Hw).
  destruct (m w) as [[a|e] w']; [|exact Hm].
  destruct Hm as [Hw' Ha]. exact (Hk a Ha w' Hw').
Qed.

Lemma stays_any {A : Type} (m : M A) (Q : A -> Prop) :
  stays m Q -> stays m (fun _ => True).
Proof.
  intros Hm w Hw. specialize (Hm w Hw).
  destruct (m w) as [[a|e] w']; tauto.
Qed.

(** The rest of a computation after a step that keeps [settled]. *)
Lemma stays_then {A B : Type} (m : M A) (k : A -> M B) (Q : A -> Prop)
    (R : result B * world -> Prop) :
  stays m Q ->
  (forall e w, settled w -> R (Raise e, w)) ->
  (forall a w, Q a -> settled w -> R (k a w)) ->
  forall w, settled w -> R (bind m k w).
Proof.
  intros Hm He Hk w Hw. unfold bind. specialize (Hm w Hw).
  destruct (m w) as [[a|e] w']; [|now apply He].
  destruct Hm as [Hw' Ha]. now apply Hk.
Qed.

(** A snapshot of [self] has the attributes of [w1]. *)
Definition as_settled (s : MedicalImage) : Prop :=
  img s = img (self w1)
  /\ _smooth_fwhm s = _smooth_fwhm (self w1)
  /\ (mask s = None <-> mask (self w1) = None).

Lemma stays_get_self : stays get_self as_settled.
Proof.
  intros w Hw. simpl. split; [exact Hw|].
  unfold settled in Hw. unfold as_settled. tauto.
Qed.

Lemma stays_new_array (a : ndarray) : stays (new_array a) (fun _ => True).
Proof. intros w Hw. simpl. auto. Qed.

Lemma stays_array_at (l : loc) : stays (array_at l) (fun _ => True).
Proof. intros w Hw. simpl. auto. Qed.

Lemma stays_overwrite (l : loc) (a : ndarray) :
  stays (overwrite l a) (fun _ => True).
Proof. intros w Hw. simpl. auto. Qed.

Lemma stays_set_mask_attr (m : image) :
  mask (self w1) <> None -> stays (set_mask_attr (Some m)) (fun _ => True).
Proof.
  intros Hm w Hw. unfold settled in *. simpl.
  split; [|exact I]. repeat split; try tauto; discriminate.
Qed.

Lemma stays_the_img : stays the_img (fun _ => True).
Proof.
  unfold the_img. eapply stays_bind; [apply stays_get_self|].
  intros s _. destruct (img s); [now apply stays_ret|apply stays_raise].
Qed.

Lemma stays_the_mask : stays the_mask (fun _ => mask (self w1) <> None).
Proof.
  unfold the_mask. eapply stays_bind; [apply stays_get_self|].
  intros s (_ & _ & Hs). destruct (mask s) as [m|].
  - apply stays_ret. intros H. apply Hs in H. discriminate.
  - apply stays_raise.
Qed.

Lemma stays_has_mask :
  stays has_mask
        (fun b => b = match mask (self w1) with Some _ => true | None => false end).
Proof.
  unfold has_mask. eapply stays_bind; [apply stays_get_self|].
  intros s (_ & _ & Hs). apply stays_ret.
  destruct (mask s) as [m|], (mask (self w1)) as [m1|]; try reflexivity.
  - destruct Hs as [_ Hs]. discriminate (Hs eq_refl).
  - destruct Hs as [Hs _]. discriminate (Hs eq_refl).
Qed.

Lemma stays_get_affine : stays get_affine (fun _ => True).
Proof.
  unfold get_affine. eapply stays_bind; [apply stays_the_img|].
  intros i _. now apply stays_ret.
Qed.

Lemma stays_self_ndim : stays self_ndim (fun _ => True).
Proof.
  unfold self_ndim. eapply stays_bind; [apply stays_get_self|].
  intros s _. destruct (img s); [now apply stays_ret|apply stays_raise].
Qed.

Lemma stays_mask_get_data : stays mask_get_data (fun _ => True).
Proof.
  unfold mask_get_data.
  eapply stays_bind; [apply stays_the_mask|]. intros m Hm.
  eapply stays_bind with (Q1 := fun _ => True).
  - unfold image_get_data. destruct (data_cache m) as [l|].
    + now apply stays_ret.
    + eapply stays_bind; [apply stays_new_array|].
      intros l _. now apply stays_ret.
  - intros r _. eapply stays_bind; [now apply stays_set_mask_attr|].
    intros _ _. now apply stays_ret.
Qed.

Lemma stays_smooth (data : loc) (aff : affine) (fwhm : Z) :
  stays (smooth data aff fwhm) (fun _ => True).
Proof.
  unfold smooth.
  eapply stays_bind; [apply stays_array_at|]. intros a _.
  destruct (smooth_data_array a aff fwhm) as [a'|e]; [|apply stays_raise].
  destruct (smooth_in_place a).
  - eapply stays_bind; [apply stays_overwrite|].
    intros _ _. now apply stays_ret.
  - apply stays_new_array.
Qed.

Lemma stays_mask_data (data : loc) : stays (_mask_data data) (fun _ => True).
Proof.
  unfold _mask_data.
  eapply stays_bind; [apply stays_mask_get_data|]. intros m _.
  eapply stays_bind; [apply stays_array_at|]. intros msk_data _.
  eapply stays_bind; [apply stays_self_ndim|]. intros n _.
  eapply stays_bind; [apply stays_array_at|]. intros a _.
  destruct (n =? 3)%nat; [|destruct (n =? 4)%nat].
  - destruct (boolean_index a msk_data) as [picked|e]; [|apply stays_raise].
    eapply stays_bind; [apply stays_new_array|].
    intros l _. now apply stays_ret.
  - destruct (apply_mask_to_4d_data a msk_data) as [[picked indices]|e];
      [|apply stays_raise].
    eapply stays_bind; [apply stays_new_array|].
    intros l _. now apply stays_ret.
  - apply stays_raise.
Qed.

Lemma stays_unmask (arr : loc) : stays (unmask arr) (fun _ => True).
Proof.
  unfold unmask.
  eapply stays_bind; [apply stays_has_mask|]. intros b _.
  destruct b; cbn [negb]; [|now apply stays_ret].
  eapply stays_bind; [apply stays_array_at|]. intros a _.
  destruct (ndim a =? 2)%nat; [|destruct (ndim a =? 1)%nat].
  - eapply stays_bind; [apply stays_mask_get_data|]. intros m _.
    eapply stays_bind; [apply stays_array_at|]. intros msk_data _.
    eapply stays_any. apply stays_new_array.
  - eapply stays_bind; [apply stays_mask_get_data|]. intros m _.
    eapply stays_bind; [apply stays_array_at|]. intros msk_data _.
    eapply stays_any. apply stays_new_array.
  - apply stays_raise.
Qed.

(** How a call that went past the cached branch ends: on success the two
    flags are set to [b_smooth] and [b_masked], on failure they are as they
    were; the other attributes are as they were in both cases. *)
Definition outcome (b_smooth b_masked : bool) (rw : result loc * world)
    : Prop :=
  match rw with
  | (Ok _, w') =>
      img (self w') = img (self w1)
      /\ _caching (self w') = _caching (self w1)
      /\ _smooth_fwhm (self w') = _smooth_fwhm (self w1)
      /\ (mask (self w') = None <-> mask (self w1) = None)
      /\ _is_data_smooth (self w') = b_smooth
      /\ _is_data_masked (self w') = b_masked
  | (Raise _, w') => settled w'
  end.

End Settled.

Section Commit.
Context {ext : Collaborators}.

Lemma bind_ok {A B : Type} (m : M A) (k : A -> M B) (w w' : world) (a : A) :
  m w = (Ok a, w') -> bind m k w = k a w'.
Proof. intros H. unfold bind. now rewrite H. Qed.

(** A call of [get_data] that goes past the cached branch on an image whose
    data it fetches. *)
Lemma get_data_outcome (depth : nat) (smoothed masked : bool) (w0 : world)
    (i : image) :
  cached_branch smoothed masked false w0 = false ->
  img (self w0) = Some i ->
  exists w1 i1,
    img (self w1) = Some i1
    /\ dataobj i1 = dataobj i /\ img_affine i1 = img_affine i
    /\ (_caching (self w0) = fill -> in_memory i1 = true)
    /\ (_caching (self w0) = unchanged \/ in_memory i = true -> i1 = i)
    /\ _caching (self w1) = _caching (self w0)
    /\ _smooth_fwhm (self w1) = _smooth_fwhm (self w0)
    /\ _is_data_masked (self w1) = _is_data_masked (self w0)
    /\ _is_data_smooth (self w1) = _is_data_smooth (self w0)
    /\ mask (self w1) = mask (self w0)
    /\ outcome w1
         (smoothed && (0 <? _smooth_fwhm (self w0)))
         (masked && match mask (self w0) with Some _ => true | None => false end)
         (get_data (S depth) smoothed masked false w0).
Proof.
  destruct w0 as [objs [oi c om fw fm fs]].
  cbn [self img _caching _smooth_fwhm _is_data_masked _is_data_smooth mask].
  intros Hnot ->.
  set (w0 := {| objects := objs;
                self := {| img := Some i; _caching := c; mask := om;
                           _smooth_fwhm := fw; _is_data_masked := fm;
                           _is_data_smooth := fs |} |}) in *.
  destruct (img_get_data c w0) as [r w1] eqn:Hacc.
  assert (Hw1 : exists l i1,
             r = Ok l
             /\ self w1 = {| img := Some i1; _caching := c; mask := om;
                             _smooth_fwhm := fw; _is_data_masked := fm;
                             _is_data_smooth := fs |}
             /\ dataobj i1 = dataobj i /\ img_affine i1 = img_affine i
             /\ (c = fill -> in_memory i1 = true)
             /\ (c = unchanged \/ in_memory i = true -> i1 = i)).
  { unfold w0 in Hacc. destruct i as [d [l|] aff], c;
      inversion Hacc; subst r w1; cbn [self];
      eexists; eexists; (split; [reflexivity|]); (split; [reflexivity|]);
      cbn [dataobj img_affine with_cache];
      repeat split; try reflexivity; try discriminate;
      intros [H|H]; discriminate H. }
  destruct Hw1 as (l & i1 & -> & Hself & Hd & Ha & Hfill & Hsame).
  exists w1, i1. rewrite Hself.
  cbn [self img _caching _smooth_fwhm _is_data_masked _is_data_smooth mask].
  repeat (split; [assumption || reflexivity|]).
  (* the first steps, in [w0] *)
  cbn [get_data].
  rewrite (bind_ok get_self _ w0 w0 (self w0) eq_refl).
  assert (Hc : (if negb false && Bool.eqb smoothed (_is_data_smooth (self w0))
                   && Bool.eqb masked (_is_data_masked (self w0))
                then bind has_data_loaded
                       (fun loaded =>
                          ret (loaded && caching_eqb (_caching (self w0)) fill))
                else ret false) w0 = (Ok false, w0)).
  { unfold cached_branch in Hnot. fold w0 in Hnot.
    destruct (negb false && Bool.eqb smoothed (_is_data_smooth (self w0))
              && Bool.eqb masked (_is_data_masked (self w0)));
      [|reflexivity].
    cbn [andb] in Hnot. unfold w0 in *. cbn. cbn in Hnot. now rewrite Hnot. }
  rewrite (bind_ok _ _ w0 w0 false Hc).
  rewrite (bind_ok _ _ w0 w1 l Hacc).
  (* the rest, in [w1] *)
  set (b1 := smoothed && (0 <? fw)).
  set (b2 := masked && match om with Some _ => true | None => false end).
  apply (stays_then w1 get_self _ (as_settled w1) (outcome w1 b1 b2)
           (stays_get_self w1));
    [intros e w Hw; exact Hw| |apply settled_start].
  intros s w (_ & Hfw & _). rewrite Hself in Hfw. cbn [self _smooth_fwhm] in Hfw.
  rewrite Hfw.
  apply (stays_then w1 _ _ (fun p => snd p = b1) (outcome w1 b1 b2));
    [|intros e w' Hw'; exact Hw'|].
  { fold b1. destruct b1.
    - eapply stays_bind; [apply stays_get_affine|]. intros aff _.
      eapply stays_bind; [apply stays_smooth|]. intros data' _.
      now apply stays_ret.
    - now apply stays_ret. }
  clear w. intros smoothing w Hsm.
  apply (stays_then w1 has_mask _ _ (outcome w1 b1 b2) (stays_has_mask w1));
    [intros e w' Hw'; exact Hw'|].
  clear w. intros masked_too w Hmt.
  rewrite Hself in Hmt. cbn [self mask] in Hmt. subst masked_too. fold b2.
  apply (stays_then w1 _ _ (fun p => snd p = b2) (outcome w1 b1 b2));
    [|intros e w' Hw'; exact Hw'|].
  { destruct b2.
    - eapply stays_bind; [apply stays_mask_data|]. intros picked _.
      eapply stays_bind; [apply stays_unmask|]. intros data' _.
      now apply stays_ret.
    - now apply stays_ret. }
  clear w. intros masking w Hmk Hw.
  rewrite Hsm, Hmk. destruct w as [objs' [oi' c' om' fw' fm' fs']].
  unfold settled in Hw. rewrite Hself in Hw.
  cbn [self img _caching _smooth_fwhm _is_data_masked _is_data_smooth mask] in Hw.
  destruct Hw as (H1 & H2 & H3 & H4 & H5 & H6).
  cbn. rewrite Hself.
  cbn [self img _caching _smooth_fwhm _is_data_masked _is_data_smooth mask].
  tauto.
Qed.

End Commit.

Section CommitTheorems.
Context {ext : Collaborators}.

Lemma get_data_no_image (depth : nat) (smoothed masked : bool) (w : world) :
  img (self w) = None ->
  get_data (S depth) smoothed masked false w = (Raise AttributeError, w).
Proof.
  destruct w as [objs [oi c om fw fm fs]]. cbn [self img]. intros ->.
  cbn [get_data]. exec.
  destruct (Bool.eqb smoothed fs), (Bool.eqb masked fm); reflexivity.
Qed.

(** X15: A call of [get_data] without [safe_copy] that does not take the
    cached branch commits the flags only when it returns: they become
    "smoothed was asked for and the width is positive" and "masked was asked
    for and a mask is set".  When the call raises, the flags are as they
    were.  The width, the policy and the presence of a mask never change. *)
Theorem get_data_commits_flags (depth : nat) (smoothed masked : bool)
    (w : world) :
  cached_branch smoothed masked false w = false ->
  let r := get_data (S depth) smoothed masked false w in
  _smooth_fwhm (self (snd r)) = _smooth_fwhm (self w)
  /\ _caching (self (snd r)) = _caching (self w)
  /\ (mask (self (snd r)) = None <-> mask (self w) = None)
  /\ match fst r with
     | Ok _ =>
         _is_data_smooth (self (snd r))
         = smoothed && (0 <? _smooth_fwhm (self w))
         /\ _is_data_masked (self (snd r))
            = masked && match mask (self w) with
                        | Some _ => true
                        | None => false
                        end
     | Raise _ =>
         _is_data_smooth (self (snd r)) = _is_data_smooth (self w)
         /\ _is_data_masked (self (snd r)) = _is_data_masked (self w)
     end.
Proof.
  intros Hnot r. subst r.
  destruct (img (self w)) as [i|] eqn:Hi.
  - destruct (get_data_outcome depth smoothed masked w i Hnot Hi)
      as (w1 & i1 & _ & _ & _ & _ & _ & Hc & Hfw & Hfm & Hfs & Hm & Hout).
    destruct (get_data (S depth) smoothed masked false w) as [[l|e] w'];
      cbn [fst snd]; unfold outcome, settled in Hout.
    + destruct Hout as (_ & H2 & H3 & H4 & H5 & H6).
      rewrite H2, H3, H5, H6, Hc, Hfw. rewrite <- Hm. tauto.
    + destruct Hout as (_ & H2 & H3 & H4 & H5 & H6).
      rewrite H2, H3, H4, H5, Hc, Hfw, Hfm, Hfs. rewrite <- Hm. tauto.
  - rewrite get_data_no_image by exact Hi. cbn [fst snd]. tauto.
Qed.

(** X16: After such a call on an image, the image is the one there was with
    the same stored array and affine; under ['fill'] its data are resident,
    also when the call raised in the smoothing or the masking; under
    ['unchanged'], or when the data were resident already, the image is as
    it was. *)
Theorem get_data_residency (depth : nat) (smoothed masked : bool)
    (w : world) (i : image) :
  cached_branch smoothed masked false w = false ->
  img (self w) = Some i ->
  exists i',
    img (self (snd (get_data (S depth) smoothed masked false w))) = Some i'
    /\ dataobj i' = dataobj i /\ img_affine i' = img_affine i
    /\ (_caching (self w) = fill -> in_memory i' = true)
    /\ (_caching (self w) = unchanged \/ in_memory i = true -> i' = i).
Proof.
  intros Hnot Hi.
  destruct (get_data_outcome depth smoothed masked w i Hnot Hi)
    as (w1 & i1 & Hi1 & Hd & Ha & Hfill & Hsame & _ & _ & _ & _ & _ & Hout).
  exists i1. repeat (split; [|assumption]).
  destruct (get_data (S depth) smoothed masked false w) as [[l|e] w'];
    cbn [snd]; unfold outcome, settled in Hout;
    destruct Hout as (H1 & _); now rewrite H1.
Qed.

End CommitTheorems.

(** The sample image: the call returns and sets both flags. *)
Lemma get_data_commits_flags_witness :
  let r := get_data 1 true true false sample_world in
  cached_branch true true false sample_world = false
  /\ fst r = Ok 3%nat
  /\ _is_data_smooth (self (snd r)) = true
  /\ _is_data_masked (self (snd r)) = true
  /\ _smooth_fwhm (self (snd r)) = 2.
Proof.
  intros r.
  pose proof (get_data_commits_flags 0 true true sample_world eq_refl)
    as (H1 & _ & _ & H4).
  fold r in H1, H4.
  assert (Hr : fst r = Ok 3%nat) by reflexivity.
  rewrite Hr in H4. destruct H4 as [H4 H5].
  split; [reflexivity|]. split; [exact Hr|].
  split; [exact H4|]. split; [exact H5|exact H1].
Defined.

(** The 2-D image: masking raises, and the data fetched stay resident. *)
Lemma get_data_residency_witness :
  let r := get_data 1 true true false flat_world in
  cached_branch true true false flat_world = false
  /\ fst r = Raise ValueError
  /\ exists i',
       img (self (snd r)) = Some i'
       /\ dataobj i' = {| dtype := np_float32; shape := [1; 2];
                          flat := [1065353216; 3225419776] |}
       /\ in_memory i' = true.
Proof.
  intros r. split; [reflexivity|]. split; [reflexivity|].
  destruct (get_data_residency 0 true true flat_world _ eq_refl eq_refl)
    as (i' & H1 & H2 & _ & H4 & _).
  exists i'. split; [exact H1|]. split; [exact H2|]. exact (H4 eq_refl).
Defined.

(** ** Changing the width, clearing *)

Section Attributes.
Context {ext : Collaborators}.

(** X17: [apply_smoothing] never returns data and never changes anything.
    With a width that is not positive it returns [None].  With a positive
    width the recomputation under [safe_copy] raises [NameError], the old
    width is put back, and the object and every array are exactly as they
    were before the call: no smoothing is ever applied through this
    method. *)
Theorem apply_smoothing_never_smooths (depth : nat) (fwhm : Z) (w : world) :
  apply_smoothing (S depth) fwhm w
  = (if fwhm <=? 0 then Ok None else Raise NameError, w).
Proof.
  destruct w as [objs [oi c om fw fm fs]]. unfold apply_smoothing.
  destruct (fwhm <=? 0); reflexivity.
Qed.

(** X18: Assigning to [smooth_fwhm] sets the width and clears the smoothed
    flag exactly when the width changes; nothing else is touched.  After a
    change of width a request for smoothed data never takes the cached
    branch: it is computed again, whatever the depth of the stack. *)
Theorem set_smooth_fwhm_invalidates (fwhm : Z) (w : world) :
  let w' := snd (set_smooth_fwhm fwhm w) in
  fst (set_smooth_fwhm fwhm w) = Ok tt
  /\ _smooth_fwhm (self w') = fwhm
  /\ _is_data_smooth (self w')
     = (fwhm =? _smooth_fwhm (self w)) && _is_data_smooth (self w)
  /\ _is_data_masked (self w') = _is_data_masked (self w)
  /\ img (self w') = img (self w) /\ mask (self w') = mask (self w)
  /\ _caching (self w') = _caching (self w) /\ objects w' = objects w
  /\ (fwhm <> _smooth_fwhm (self w) ->
      forall depth masked,
        get_data (S depth) true masked false w'
        = get_data 1 true masked false w').
Proof.
  destruct w as [objs [oi c om fw fm fs]]. cbv zeta.
  assert (Hset : set_smooth_fwhm fwhm
                   {| objects := objs;
                      self := {| img := oi; _caching := c; mask := om;
                                 _smooth_fwhm := fw; _is_data_masked := fm;
                                 _is_data_smooth := fs |} |}
                 = (Ok tt,
                    {| objects := objs;
                       self := {| img := oi; _caching := c; mask := om;
                                  _smooth_fwhm := fwhm; _is_data_masked := fm;
                                  _is_data_smooth := (fwhm =? fw) && fs |} |})).
  { unfold set_smooth_fwhm. exec. now destruct (fwhm =? fw). }
  rewrite Hset.
  cbn [fst snd self objects img mask _caching _smooth_fwhm _is_data_masked
       _is_data_smooth].
  repeat (split; [reflexivity|]).
  intros E depth masked. apply get_data_direct. unfold cached_branch.
  cbn [self _is_data_smooth].
  destruct (Z.eqb_spec fwhm fw); [contradiction|]. reflexivity.
Qed.

(** X19: [clear] returns exactly when an image and a mask are both there.
    The object is then empty: no image, no mask, width 0, flags down, the
    policy kept, the arrays untouched; and clearing it again raises
    [AttributeError]. *)
Theorem clear_spec (w : world) :
  (fst (clear w) = Ok tt <-> img (self w) <> None /\ mask (self w) <> None)
  /\ (fst (clear w) = Ok tt ->
      self (snd (clear w))
      = {| img := None; _caching := _caching (self w); mask := None;
           _smooth_fwhm := 0; _is_data_masked := false;
           _is_data_smooth := false |}
      /\ objects (snd (clear w)) = objects w
      /\ clear (snd (clear w)) = (Raise AttributeError, snd (clear w))).
Proof.
  destruct w as [objs [[i|] c [m|] fw fm fs]]; unfold clear; exec; cbn;
    (split; [split|]); try discriminate; try (intros [H1 H2]; congruence);
    try (intros _; split; congruence);
    try (intros _; repeat split; reflexivity).
Qed.

(** X20: [remove_smoothing] on an image sets the width to 0 and evicts the
    data of the image, so that the next [get_data] computes its answer
    again; the flags stay as they are.  [remove_masking] drops the mask,
    when there is one, and nothing else: the data of the image stay resident
    and the masked flag stays up, so a cached answer for masked data is
    still taken for good. *)
Theorem removals_leave_flags (w : world) (i : image) :
  img (self w) = Some i ->
  (let w' := snd (remove_smoothing w) in
   fst (remove_smoothing w) = Ok tt
   /\ _smooth_fwhm (self w') = 0
   /\ img (self w') = Some (image_uncache i)
   /\ _is_data_smooth (self w') = _is_data_smooth (self w)
   /\ _is_data_masked (self w') = _is_data_masked (self w)
   /\ forall depth smoothed masked,
        get_data (S depth) smoothed masked false w'
        = get_data 1 smoothed masked false w')
  /\ (let w' := snd (remove_masking w) in
      (mask (self w) = None -> remove_masking w = (Raise AttributeError, w))
      /\ (mask (self w) <> None ->
          fst (remove_masking w) = Ok tt
          /\ mask (self w') = None
          /\ img (self w') = img (self w)
          /\ _is_data_masked (self w') = _is_data_masked (self w)
          /\ forall smoothed masked,
               cached_branch smoothed masked false w'
               = cached_branch smoothed masked false w)).
Proof.
  destruct w as [objs [oi c om fw fm fs]]. cbn [self img]. intros ->.
  split.
  - assert (H : remove_smoothing
                  {| objects := objs;
                     self := {| img := Some i; _caching := c; mask := om;
                                _smooth_fwhm := fw; _is_data_masked := fm;
                                _is_data_smooth := fs |} |}
                = (Ok tt,
                   {| objects := objs;
                      self := {| img := Some (image_uncache i); _caching := c;
                                 mask := om; _smooth_fwhm := 0;
                                 _is_data_masked := fm;
                                 _is_data_smooth := fs |} |}))
      by reflexivity.
    rewrite H.
    cbn [fst snd self img _smooth_fwhm _is_data_masked _is_data_smooth].
    repeat (split; [reflexivity|]).
    intros depth smoothed masked. apply get_data_direct.
    unfold cached_branch, image_uncache, with_cache, in_memory.
    cbn [self img data_cache]. now rewrite andb_false_r.
  - destruct om as [m|]; cbv zeta.
    + assert (H : remove_masking
                    {| objects := objs;
                       self := {| img := Some i; _caching := c; mask := Some m;
                                  _smooth_fwhm := fw; _is_data_masked := fm;
                                  _is_data_smooth := fs |} |}
                  = (Ok tt,
                     {| objects := objs;
                        self := {| img := Some i; _caching := c; mask := None;
                                   _smooth_fwhm := fw; _is_data_masked := fm;
                                   _is_data_smooth := fs |} |}))
        by reflexivity.
      rewrite H. cbn [fst snd self img mask _is_data_masked].
      split; [discriminate|]. intros _. repeat split; reflexivity.
    + split; [reflexivity|]. intros H. contradiction.
Qed.

End Attributes.

Lemma removals_leave_flags_witness :
  let w := snd (get_data 1 true true false sample_world) in
  img (self w) = Some (with_cache volume_image (Some 0%nat))
  /\ _is_data_masked (self (snd (remove_masking w))) = true
  /\ mask (self (snd (remove_masking w))) = None
  /\ _is_data_smooth (self (snd (remove_smoothing w))) = true
  /\ _smooth_fwhm (self (snd (remove_smoothing w))) = 0.
Proof.
  intros w.
  assert (Hi : img (self w) = Some (with_cache volume_image (Some 0%nat)))
    by reflexivity.
  destruct (removals_leave_flags w _ Hi)
    as ((_ & H2 & _ & H4 & _) & (_ & H6)).
  destruct H6 as (_ & H7 & _ & H9 & _); [discriminate|].
  split; [exact Hi|]. split; [exact H9|]. split; [exact H7|].
  split; [exact H4|exact H2].
Defined.

(** ** The array returned without [safe_copy] *)

Section Resident.
Context {ext : Collaborators}.

(** X21: Without [safe_copy], when there is no smoothing and no masking to
    do, [get_data] under ['fill'] hands out the resident array of the image
    itself, not a copy: the address returned is the one the image keeps. *)
Theorem get_data_returns_resident (depth : nat) (smoothed masked : bool)
    (w : world) (i : image) :
  cached_branch smoothed masked false w = false ->
  img (self w) = Some i ->
  _caching (self w) = fill ->
  smoothed = false \/ _smooth_fwhm (self w) <= 0 ->
  masked = false \/ mask (self w) = None ->
  let r := get_data (S depth) smoothed masked false w in
  exists l i',
    fst r = Ok l
    /\ img (self (snd r)) = Some i'
    /\ data_cache i' = Some l
    /\ (forall l0, data_cache i = Some l0 ->
        l = l0 /\ objects (snd r) = objects w)
    /\ (data_cache i = None ->
        l = List.length (objects w)
        /\ objects (snd r) = objects w ++ [dataobj i]).
Proof.
  intros Hnot Hi Hfill Hs Hm. rewrite get_data_direct by exact Hnot.
  destruct w as [objs [oi c om fw fm fs]].
  cbn [self objects img mask _caching _smooth_fwhm] in *. subst oi c.
  assert (Es : (if smoothed then 0 <? fw else false) = false).
  { destruct Hs as [-> | Hs]; [reflexivity|].
    destruct smoothed; [|reflexivity]. apply Z.ltb_ge. exact Hs. }
  assert (Em : (if masked
                then match om with Some _ => true | None => false end
                else false) = false).
  { destruct Hm as [-> | ->]; [reflexivity|]. now destruct masked. }
  unfold cached_branch in Hnot. cbn [self img _caching _is_data_masked
    _is_data_smooth negb andb caching_eqb] in Hnot.
  cbv zeta. cbn [get_data].
  destruct i as [d [l0|] aff]; cbn [in_memory data_cache] in Hnot.
  - exec. destruct (Bool.eqb smoothed fs), (Bool.eqb masked fm);
      cbn in Hnot; try discriminate Hnot;
      exec; rewrite Es; exec; rewrite Em; exec;
      exists l0; eexists; repeat split; congruence.
  - exec. destruct (Bool.eqb smoothed fs), (Bool.eqb masked fm);
      exec; rewrite Es; exec; rewrite Em; exec;
      exists (List.length objs); eexists; repeat split; congruence.
Qed.

End Resident.

Lemma get_data_returns_resident_witness :
  let r := get_data 1 false false false unmasked_world in
  exists l i',
    fst r = Ok l
    /\ img (self (snd r)) = Some i'
    /\ data_cache i' = Some l
    /\ (forall l0, data_cache volume_image = Some l0 ->
        l = l0 /\ objects (snd r) = objects unmasked_world)
    /\ (data_cache volume_image = None ->
        l = List.length (objects unmasked_world)
        /\ objects (snd r) = objects unmasked_world ++ [dataobj volume_image]).
Proof.
  apply (get_data_returns_resident 0 false false unmasked_world volume_image).
  - reflexivity.
  - reflexivity.
  - reflexivity.
  - left. reflexivity.
  - left. reflexivity.
Defined.

(** ** Setting a mask *)

(** Modelled from the spec: [load_mask] and [check_img_compatibility] are
    imported from [boyle.mask] and [boyle.nifti.check], which are not part
    of the module.  By the spec, setting a mask loads and validates the mask
    from its source and requires its spatial shape to be compatible with
    that of the volume, failing otherwise; both are taken as functions of
    their arguments that return or raise. *)
Class MaskLoading {ext : Collaborators} : Type := {
  mask_source : Type;
  (** [load_mask(mask_img, allow_empty=True)] *)
  load_mask : mask_source -> result image;
  (** [check_img_compatibility(self.img, mask, only_check_3d=True)] *)
  check_img_compatibility : option image -> image -> result unit
}.

Section SetMask.
Context {ext : Collaborators} {loading : MaskLoading}.

(** Sets a mask img to this. So every operation to self, this mask will be
    taken into account.  The handler logs and raises again. *)
Definition set_mask (mask_img : mask_source) : M unit :=
  try_except_else
    (match load_mask mask_img with
     | Raise e => raise e
     | Ok mask =>
         bind get_self (fun s =>
         match check_img_compatibility (img s) mask with
         | Raise e => raise e
         | Ok _ => ret mask
         end)
     end)
    (fun e => raise e)
    (fun mask => set_mask_attr (Some mask)).

(** First set_mask and the get_masked_data. *)
Definition apply_mask (depth : nat) (mask_img : mask_source) : M loc :=
  bind (set_mask mask_img) (fun _ => get_data depth true true true).

Lemma set_mask_run (mask_img : mask_source) (w : world) :
  set_mask mask_img w
  = match load_mask mask_img with
    | Raise e => (Raise e, w)
    | Ok m =>
        match check_img_compatibility (img (self w)) m with
        | Raise e => (Raise e, w)
        | Ok _ => (Ok tt, snd (set_mask_attr (Some m) w))
        end
    end.
Proof.
  unfold set_mask, try_except_else.
  destruct (load_mask mask_img) as [m|e]; [|reflexivity].
  unfold bind, get_self.
  destruct (check_img_compatibility (img (self w)) m) as [[]|e]; reflexivity.
Qed.

(** X22: [set_mask] changes nothing when it raises; when it returns, the
    mask is the one loaded and nothing else has changed, the two flags
    included.  [apply_mask] never returns data: it raises what [set_mask]
    raises, and once the mask is set the computation under [safe_copy]
    raises [NameError], which leaves the new mask set. *)
Theorem apply_mask_spec (depth : nat) (mask_img : mask_source) (w : world) :
  (forall e w', set_mask mask_img w = (Raise e, w') ->
     w' = w /\ apply_mask (S depth) mask_img w = (Raise e, w))
  /\ (forall u ws, set_mask mask_img w = (Ok u, ws) ->
      (exists m,
         load_mask mask_img = Ok m
         /\ check_img_compatibility (img (self w)) m = Ok tt
         /\ ws = {| objects := objects w;
                    self := {| img := img (self w);
                               _caching := _caching (self w);
                               mask := Some m;
                               _smooth_fwhm := _smooth_fwhm (self w);
                               _is_data_masked := _is_data_masked (self w);
                               _is_data_smooth := _is_data_smooth (self w) |} |})
      /\ apply_mask (S depth) mask_img w = (Raise NameError, ws)).
Proof.
  split.
  - intros e w' H. unfold apply_mask, bind. rewrite H.
    rewrite set_mask_run in H.
    destruct (load_mask mask_img) as [m|e0]; [|now inversion H].
    destruct (check_img_compatibility (img (self w)) m) as [[]|e0];
      [discriminate H|now inversion H].
  - intros u ws H. unfold apply_mask, bind. rewrite H.
    rewrite set_mask_run in H.
    destruct (load_mask mask_img) as [m|e0]; [|discriminate H].
    destruct (check_img_compatibility (img (self w)) m) as [[]|e0] eqn:Hchk;
      [|discriminate H].
    inversion H; subst u ws. clear H.
    destruct w as [objs [oi c om fw fm fs]].
    split; [|reflexivity].
    exists m. split; [reflexivity|]. split; [exact Hchk|reflexivity].
Qed.

End SetMask.

(** Masks given as arrays: loading wraps the array in an image, and a mask
    is compatible with an image of the same shape. *)
Definition array_masks : @MaskLoading plain_collaborators :=
  {| mask_source := ndarray;
     load_mask := fun a => Ok (@mk_image plain_collaborators a None tt);
     check_img_compatibility := fun i m =>
       match i with
       | Some v =>
           if list_eq_dec Z.eq_dec (shape (dataobj v)) (shape (dataobj m))
           then Ok tt else Raise ValueError
       | None => Raise AttributeError
       end |}.

Lemma apply_mask_spec_witness :
  let bad := {| dtype := np_uint8; shape := [2]; flat := [1; 0] |} in
  let ws := snd (@set_mask _ array_masks sample_mask unmasked_world) in
  (@set_mask _ array_masks bad unmasked_world = (Raise ValueError, unmasked_world)
   /\ @apply_mask _ array_masks 1 bad unmasked_world
      = (Raise ValueError, unmasked_world))
  /\ @set_mask _ array_masks sample_mask unmasked_world = (Ok tt, ws)
  /\ mask (self ws) = Some mask_image
  /\ @apply_mask _ array_masks 1 sample_mask unmasked_world
     = (Raise NameError, ws).
Proof.
  intros bad ws.
  destruct (@apply_mask_spec _ array_masks 0 bad unmasked_world) as [H1 _].
  destruct (@apply_mask_spec _ array_masks 0 sample_mask unmasked_world)
    as [_ H2].
  split.
  - split; [reflexivity|].
    exact (proj2 (H1 ValueError unmasked_world eq_refl)).
  - split; [reflexivity|]. split; [reflexivity|].
    exact (proj2 (H2 tt ws eq_refl)).
Defined.
